(** * decompile.py: discovery, version gate, download and supervised
      decompilation -- a shallow embedding and its properties.

    The pipeline of [src/decompile.py] is embedded as executable Rocq
    definitions.  Python text is [string] (characters with code points
    below 256), byte strings are [list byte], dictionaries and
    directories are [gmap]s, and effectful functions live in a small
    state / exception / output monad over an explicit [world]
    (file system plus the trace of effects performed so far).  The
    libraries the script calls but does not define (the HTTP session,
    [html.unescape], [urllib.parse.quote], [zipfile], the jadx
    subprocess) are parameters collected in the record [externals].

    [main] of the script is embedded over the same world, with a
    console of its own.  The indexer [build_index] of [src/search.py]
    is embedded as a function of what [pathlib] shows of the sources
    directory; the SQLite connection is the list of the statements
    sent to it. *)

From Stdlib Require Import ZArith QArith Qminmax Lia List Ascii String Sorted.
From Stdlib Require Import Strings.Byte.
From stdpp Require Import gmap strings list fin_maps pretty.

Import ListNotations.
Local Open Scope string_scope.
Local Open Scope list_scope.
Local Open Scope Z_scope.

(* ================================================================== *)
(** ** Python string operations used by the script                     *)
(* ================================================================== *)

Module Str.

Definition code (a : ascii) : N := N_of_ascii a.

(** [str.isspace] on one character (code points below 256). *)
Definition isspace (a : ascii) : bool :=
  let n := code a in
  ((9 <=? n) && (n <=? 13) || (28 <=? n) && (n <=? 32)
   || (n =? 133) || (n =? 160))%N.

Definition islower_az (a : ascii) : bool :=
  let n := code a in ((97 <=? n) && (n <=? 122))%N.

Definition isdigit (a : ascii) : bool :=
  let n := code a in ((48 <=? n) && (n <=? 57))%N.

Definition eqb_char (a b : ascii) : bool := Ascii.eqb a b.

Fixpoint drop (n : nat) (s : string) : string :=
  match n, s with
  | O, _ => s
  | S n', String _ s' => drop n' s'
  | S _, EmptyString => EmptyString
  end.

Fixpoint take (n : nat) (s : string) : string :=
  match n, s with
  | O, _ => EmptyString
  | S n', String a s' => String a (take n' s')
  | S _, EmptyString => EmptyString
  end.

(** [s.startswith(p)], returning what follows the prefix. *)
Fixpoint strip_prefix (p s : string) : option string :=
  match p, s with
  | EmptyString, _ => Some s
  | String a p', String b s' =>
      if eqb_char a b then strip_prefix p' s' else None
  | String _ _, EmptyString => None
  end.

Definition startswith (p s : string) : bool :=
  match strip_prefix p s with Some _ => true | None => false end.

(** [p in s] *)
Fixpoint contains (p s : string) : bool :=
  if startswith p s then true
  else match s with
       | EmptyString => false
       | String _ s' => contains p s'
       end.

Definition rev (s : string) : string :=
  string_of_list_ascii (List.rev (list_ascii_of_string s)).

Definition endswith (p s : string) : bool := startswith (rev p) (rev s).

(** [s.lstrip()], [s.rstrip()], [s.strip()] *)
Fixpoint lstrip (s : string) : string :=
  match s with
  | String a s' => if isspace a then lstrip s' else s
  | EmptyString => EmptyString
  end.

Definition rstrip (s : string) : string := rev (lstrip (rev s)).

Definition strip (s : string) : string := rstrip (lstrip s).

(** [s.rstrip(chars)] for a one-character set *)
Fixpoint lstrip_char (c : ascii) (s : string) : string :=
  match s with
  | String a s' => if eqb_char a c then lstrip_char c s' else s
  | EmptyString => EmptyString
  end.

Definition rstrip_char (c : ascii) (s : string) : string :=
  rev (lstrip_char c (rev s)).

(** [s.split(c)[0]]: the text before the first [c] *)
Fixpoint split_first (c : ascii) (s : string) : string :=
  match s with
  | EmptyString => EmptyString
  | String a s' =>
      if eqb_char a c then EmptyString else String a (split_first c s')
  end.

(** [s.split(c)[-1]]: the text after the last [c] *)
Definition split_last (c : ascii) (s : string) : string :=
  rev (split_first c (rev s)).

Definition map_chars (f : ascii -> ascii) (s : string) : string :=
  string_of_list_ascii (List.map f (list_ascii_of_string s)).

Definition mem_char (c : ascii) (s : string) : bool :=
  existsb (eqb_char c) (list_ascii_of_string s).

(** Python truthiness of a string *)
Definition truthy (s : string) : bool :=
  match s with EmptyString => false | _ => true end.

(** [s.lower()] on code points below 256: the letters A-Z and the
    Latin-1 capitals (192-222, the multiplication sign 215 apart) have
    a lower-case form, 32 code points further. *)
Definition lower_char (a : ascii) : ascii :=
  let n := code a in
  if ((65 <=? n) && (n <=? 90)
      || (192 <=? n) && (n <=? 222) && negb (n =? 215))%N
  then ascii_of_N (n + 32) else a.

Definition lower (s : string) : string := map_chars lower_char s.

(** Files opened in text mode.  Reading translates line ends
    (universal newlines): a carriage return, together with the line
    feed that follows it if there is one, is read as one line feed.
    Writing replaces every line feed by [os.linesep], which on Windows
    is a carriage return and a line feed ([crlf]) and elsewhere the
    line feed itself. *)
Definition cr : ascii := "013"%char.
Definition lf : ascii := "010"%char.

Fixpoint universal_newlines (s : string) : string :=
  match s with
  | EmptyString => EmptyString
  | String a s' =>
      if eqb_char a cr then
        String lf
          match s' with
          | String b s'' =>
              if eqb_char b lf then universal_newlines s''
              else universal_newlines s'
          | EmptyString => EmptyString
          end
      else String a (universal_newlines s')
  end.

Fixpoint crlf (s : string) : string :=
  match s with
  | EmptyString => EmptyString
  | String a s' =>
      if eqb_char a lf then String cr (String lf (crlf s'))
      else String a (crlf s')
  end.

End Str.

(* ================================================================== *)
(** ** A backtracking matcher for the [re] patterns of the script      *)
(* ================================================================== *)

(** The patterns are written as syntax trees; the matcher lists every
    way a pattern can match at the start of the text, in the order in
    which Python's backtracking engine tries them, so the head of the
    list is the match [re] reports.  None of the script's patterns can
    match the empty string. *)

Module Re.

Inductive regex : Type :=
| Eps
| Chr (p : ascii -> bool)
| Lit (s : string)
| Seq (r1 r2 : regex)
| Alt (r1 r2 : regex)
| Star (greedy : bool) (r : regex)
| Group (n : nat) (r : regex).

Definition Plus (r : regex) : regex := Seq r (Star true r).
Definition Opt (r : regex) : regex := Alt r Eps.

Fixpoint seqs (rs : list regex) : regex :=
  match rs with
  | [] => Eps
  | [r] => r
  | r :: rs' => Seq r (seqs rs')
  end.

(** character classes *)
Definition only (c : ascii) : ascii -> bool := Str.eqb_char c.
Definition other_than (c : ascii) : ascii -> bool := fun a => negb (Str.eqb_char c a).
Definition none_of (cs : string) : ascii -> bool :=
  fun a => negb (Str.mem_char a cs).
Definition any : ascii -> bool := fun _ => true.

Definition caps := gmap nat string.

Definition star_loop (step : string -> caps -> list (string * caps))
    (greedy : bool) : nat -> string -> caps -> list (string * caps) :=
  fix loop (fuel : nat) (s : string) (c : caps) {struct fuel} :=
    match fuel with
    | O => [(s, c)]
    | S fuel' =>
        let more :=
          flat_map
            (fun sc : string * caps =>
               if (String.length (fst sc) <? String.length s)%nat
               then loop fuel' (fst sc) (snd sc) else [])
            (step s c) in
        if greedy then more ++ [(s, c)] else (s, c) :: more
    end.

(** [matches r s c]: all (remaining text, groups) after matching [r]
    at the start of [s], most preferred first. *)
Fixpoint matches (r : regex) (s : string) (c : caps)
  : list (string * caps) :=
  match r with
  | Eps => [(s, c)]
  | Chr p =>
      match s with
      | String a s' => if p a then [(s', c)] else []
      | EmptyString => []
      end
  | Lit l =>
      match Str.strip_prefix l s with
      | Some s' => [(s', c)]
      | None => []
      end
  | Seq r1 r2 =>
      flat_map (fun sc : string * caps => matches r2 (fst sc) (snd sc))
               (matches r1 s c)
  | Alt r1 r2 => matches r1 s c ++ matches r2 s c
  | Star greedy r1 =>
      star_loop (matches r1) greedy (String.length s) s c
  | Group n r1 =>
      List.map
        (fun sc : string * caps =>
           (fst sc,
            <[n := Str.take (String.length s - String.length (fst sc))%nat s]>
              (snd sc)))
        (matches r1 s c)
  end.

(** [re.search(r, s)]: leftmost start, preferred match there;
    returns the text after the match and the groups. *)
Fixpoint search_rest (r : regex) (s : string) : option (string * caps) :=
  match matches r s ∅ with
  | sc :: _ => Some sc
  | [] =>
      match s with
      | String _ s' => search_rest r s'
      | EmptyString => None
      end
  end.

Definition search (r : regex) (s : string) : option caps :=
  snd <$> search_rest r s.

(** [m.group(n)] of a successful match ([None] in Python for a group
    that did not take part is not needed by the script: every group
    it reads is mandatory in its pattern). *)
Definition group (n : nat) (c : caps) : string := default "" (c !! n).

(** [re.findall(r, s)] for a pattern that cannot match the empty
    string: successive non-overlapping matches, left to right. *)
Fixpoint findall_fuel (fuel : nat) (r : regex) (s : string) : list caps :=
  match fuel with
  | O => []
  | S fuel' =>
      match search_rest r s with
      | None => []
      | Some (rest, c) =>
          c :: (if (String.length rest <? String.length s)%nat
                then findall_fuel fuel' r rest else [])
      end
  end.

Definition findall (r : regex) (s : string) : list caps :=
  findall_fuel (String.length s) r s.

End Re.

(* ================================================================== *)
(** ** The world: file system, trace of effects, console               *)
(* ================================================================== *)

Definition dquote : ascii := "034"%char.
Definition newline : ascii := "010"%char.
Definition DQ : string := String dquote EmptyString.

(** A produced source tree as [os.scandir] and [Path.rglob] see it. *)
Inductive entry : Type :=
| File (name : string)
| Dir (name : string) (st : dirstate)
with dirstate : Type :=
| Missing                       (* scandir raises FileNotFoundError *)
| Denied                        (* scandir raises PermissionError *)
| Listing (es : list entry).

Inductive exn : Type :=
| RequestsError                 (* session.get failed *)
| HTTPError                     (* raise_for_status on an error status *)
| TimeoutExpired                (* subprocess.run(..., timeout=...) *)
| UnicodeDecodeError            (* output that is not text, with text=True *)
| OSError                       (* refused by the operating system *)
| FileNotFoundError
| FileExistsError
| PermissionError
| IsADirectoryError
| ValueError
| BadZipFile
| StructError
| OtherError (what : string).

Inductive event : Type :=
| EvGet (url : string) (timeout : option Z)
| EvSleep
| EvSaveVersion (file text : string)
| EvRmtreeApks (package : string)
| EvMkdirApks (package : string)
| EvWriteApk (package fname : string) (size : Z)
| EvUnlinkApk (package fname : string)
| EvRmtreeSources (package : string)
| EvMkdirSources (package : string)
| EvRun (cmd : list string) (timeout : Z)
| EvMkdir (dir : string).

(** [versions], [apks] and [sources] are the contents of the three
    directories VERSIONS_DIR, APKS_DIR and SOURCES_DIR: the text on
    disk of each version file, the scratch directory of each package
    with the bytes of its files, and the output tree of each package.
    [events] is the trace of effects, newest first. *)
Record world : Type := World {
  versions : gmap string string;
  apks : gmap string (gmap string (list byte));
  sources : gmap string (list entry);
  jdk_dir : option (list string);
  environ : gmap string string;
  events : list event
}.

Definition set_versions (f : gmap string string -> gmap string string)
    (w : world) : world :=
  World (f (versions w)) (apks w) (sources w) (jdk_dir w) (environ w) (events w).

Definition set_apks
    (f : gmap string (gmap string (list byte)) ->
         gmap string (gmap string (list byte)))
    (w : world) : world :=
  World (versions w) (f (apks w)) (sources w) (jdk_dir w) (environ w) (events w).

Definition set_sources
    (f : gmap string (list entry) -> gmap string (list entry))
    (w : world) : world :=
  World (versions w) (apks w) (f (sources w)) (jdk_dir w) (environ w) (events w).

Definition log_event (e : event) (w : world) : world :=
  World (versions w) (apks w) (sources w) (jdk_dir w) (environ w)
        (e :: events w).

(** What the script prints; the data of each line, not its layout. *)
Inductive message : Type :=
| MFetching (dev : string) (page : nat)
| MError (e : exn)
| MNoAppsFound (dev : string)
| MFoundNew (count : nat)
| MVersionCheckFailed (e : exn)
| MDownloadPageFailed (e : exn)
| MNoDownloadLinks
| MDownloading
| MDownloadFailed (e : exn)
| MFileTooSmall (size : Z)
| MDownloaded (fname : string) (size : Z)
| MFoundClasses (total : Z)
| MDecompilingWith (threads : nat)
| MProgress (pct : Q) (count total : Z)
| MDecompiledCount (count : Z)
| MProgress100
| MTail (output : string)
| MOutput (java_files xml_files : nat)
| MNoJavaFiles
| MCheckingVersion
| MCouldNotDetermine
| MCurrent (v : string)
| MStored (v : option string)
| MUnchanged
| MDownloadingApk
| MDecompiling
| MVersionSaved
| MCleanedUp
| MCpus (threads : nat)
| MBanner (i n : nat) (name package : string)
| MSummary
| MStatus (package : string) (ok : bool)
| MTotals (changed failed total : nat).

(* ================================================================== *)
(** ** State, exceptions and console output                            *)
(* ================================================================== *)

Inductive outcome (A : Type) : Type :=
| Ok (a : A)
| Raise (e : exn)
| OutOfFuel.
Arguments Ok {A} a.
Arguments Raise {A} e.
Arguments OutOfFuel {A}.

Definition M (A : Type) : Type := world -> outcome A * world * list message.

Definition ret {A} (a : A) : M A := fun w => (Ok a, w, []).

Definition bind {A B} (m : M A) (k : A -> M B) : M B :=
  fun w =>
    match m w with
    | (Ok a, w1, o1) =>
        match k a w1 with (r, w2, o2) => (r, w2, o1 ++ o2) end
    | (Raise e, w1, o1) => (Raise e, w1, o1)
    | (OutOfFuel, w1, o1) => (OutOfFuel, w1, o1)
    end.

Definition raise {A} (e : exn) : M A := fun w => (Raise e, w, []).

Definition out_of_fuel {A} : M A := fun w => (OutOfFuel, w, []).

(** [try: m  except Exception as e: h e] *)
Definition try_except {A} (m : M A) (h : exn -> M A) : M A :=
  fun w =>
    match m w with
    | (Raise e, w1, o1) =>
        match h e w1 with (r, w2, o2) => (r, w2, o1 ++ o2) end
    | other => other
    end.

Definition print (msg : message) : M unit := fun w => (Ok tt, w, [msg]).
Definition emit (e : event) : M unit := fun w => (Ok tt, log_event e w, []).
Definition get_world : M world := fun w => (Ok w, w, []).
Definition modify (f : world -> world) : M unit := fun w => (Ok tt, f w, []).
Definition when (b : bool) (m : M unit) : M unit := if b then m else ret tt.

Notation "x <- c1 ;; c2" := (bind c1 (fun x => c2))
  (at level 63, c1 at next level, right associativity).
Notation "'do' c1 ;; c2" := (bind c1 (fun _ => c2))
  (at level 63, c1 at next level, right associativity).

(** [time.sleep]: only recorded. *)
Definition sleep : M unit := emit EvSleep.

(* ================================================================== *)
(** ** Libraries the script calls                                      *)
(* ================================================================== *)

Record response : Type := Response {
  status_ok : bool;                       (* raise_for_status passes *)
  text : string;
  content : list byte;
  headers : gmap string string;
  url : string
}.

(** An opened [zipfile.ZipFile]. *)
Record archive : Type := Archive {
  namelist : list string;
  read : string -> exn + list byte
}.

(** One run of the jadx subprocess under the progress monitor: what
    the monitor's directory scans saw, poll after poll, until it was
    stopped; how [subprocess.run] ended, with the decoded output of the
    process or with the exception it raised ([TimeoutExpired] when the
    1800 s timeout expired, [UnicodeDecodeError] when the output is not
    text, [OSError] or one of its kinds when jadx could not be
    executed); and the output directory left behind. *)
Record run : Type := Run {
  polls : list dirstate;
  completed : exn + (string * string);    (* stdout, stderr *)
  produced : list entry
}.

(** [open_error dest] is what the operating system answers when asked
    to create the file [dest] in an existing directory: the error it
    raises (a name longer than the file system allows, a name it
    reserves), or [None] when it creates the file.  [mkdir_error d] is
    what [d.mkdir(exist_ok=True)] raises for one of the directories of
    the script ([d] is a file, or may not be created), or [None] when
    the directory exists once the call has returned. *)
Record externals : Type := Externals {
  session_get : world -> string -> option Z -> exn + response;
  html_unescape : string -> string;
  quote : string -> string;
  ZipFile : list byte -> exn + archive;
  subprocess_run : world -> list string -> gmap string string -> run;
  windows : bool;
  ROOT : string;
  open_error : string -> option exn;
  mkdir_error : string -> option exn
}.

(* ================================================================== *)
(** ** The patterns of the script                                      *)
(* ================================================================== *)

(** In the comments below [\q] stands for the double-quote character. *)

Module Pat.
Import Re.

Definition lower_digit_us (a : ascii) : bool :=
  Str.islower_az a || Str.isdigit a || Str.eqb_char a "_"%char.

(** [[a-z][a-z0-9_]*(?:\.[a-z0-9_]+)+] *)
Definition package_id : regex :=
  seqs [Chr Str.islower_az; Star true (Chr lower_digit_us);
        Plus (Seq (Lit ".") (Plus (Chr lower_digit_us)))].

(** [href=\q(/[^\q]+/([a-z][a-z0-9_]*(?:\.[a-z0-9_]+)+)/)\q] *)
Definition app_link : regex :=
  seqs [Lit ("href=" +:+ DQ);
        Group 1 (seqs [Lit "/"; Plus (Chr (other_than dquote)); Lit "/";
                       Group 2 package_id; Lit "/"]);
        Lit DQ].

(** [re.escape(app_path) + '/\q?\s*[^>]*>[\s\S]*?<p[^>]*>([^<]+)</p>'] *)
Definition app_name (app_path : string) : regex :=
  seqs [Lit app_path; Lit "/"; Opt (Lit DQ); Star true (Chr Str.isspace);
        Star true (Chr (other_than ">"%char)); Lit ">";
        Star false (Chr any);
        Lit "<p"; Star true (Chr (other_than ">"%char)); Lit ">";
        Group 1 (Plus (Chr (other_than "<"%char))); Lit "</p>"].

(** [\qsoftwareVersion\q\s*:\s*\q([^\q]+)\q] *)
Definition software_version : regex :=
  seqs [Lit (DQ +:+ "softwareVersion" +:+ DQ); Star true (Chr Str.isspace);
        Lit ":"; Star true (Chr Str.isspace); Lit DQ;
        Group 1 (Plus (Chr (other_than dquote))); Lit DQ].

(** [class=\qversion\q[^>]*>([^<]+)<] *)
Definition version_class : regex :=
  seqs [Lit ("class=" +:+ DQ +:+ "version" +:+ DQ);
        Star true (Chr (other_than ">"%char)); Lit ">";
        Group 1 (Plus (Chr (other_than "<"%char))); Lit "<"].

(** [href=\q(/r2\?u=[^\q]+)\q] *)
Definition r2_link : regex :=
  seqs [Lit ("href=" +:+ DQ);
        Group 1 (Seq (Lit "/r2?u=") (Plus (Chr (other_than dquote))));
        Lit DQ].

(** [href=\q(https://apkcombo\.com/d\?u=[^\q]+)\q] *)
Definition d_link : regex :=
  seqs [Lit ("href=" +:+ DQ);
        Group 1 (Seq (Lit "https://apkcombo.com/d?u=")
                     (Plus (Chr (other_than dquote))));
        Lit DQ].

(** [filename=\q?([^\q;\n]+)\q?] *)
Definition filename : regex :=
  seqs [Lit "filename="; Opt (Lit DQ);
        Group 1 (Plus (Chr (none_of (String dquote (String ";" (String newline EmptyString))))));
        Opt (Lit DQ)].

(** the character class of [re.sub(r'[<>:\q/\\|?*]', '_', fname)] *)
Definition unsafe_char (a : ascii) : bool :=
  Str.mem_char a (String dquote "<>:/\|?*").

End Pat.

(* ================================================================== *)
(** ** decompile.py                                                    *)
(* ================================================================== *)

Definition BASE : string := "https://apkcombo.com".

Definition DEVELOPERS : list string :=
  ["Google LLC"; "Developed with Google"; "Research at Google";
   "Red Hot Labs"; "Google Samples"; "Fitbit LLC"; "Nest Labs Inc.";
   "Waymo LLC"; "Waze"].

(** An entry of the catalog, the dict built by [discover_apps]. *)
Record app : Type := App {
  app_path : string;
  package : string;
  name : string;
  developer : string
}.

(** The file a download ends in: [APKS_DIR / package / fname]. *)
Definition apk_path : Type := (string * string)%type.

Section Decompile.

Variable X : externals.

Definition pathsep : string := if windows X then ";" else ":".
Definition sep : string := if windows X then "\" else "/".
Definition join (a b : string) : string := a +:+ sep +:+ b.

Definition TOOLS_DIR : string := join (ROOT X) "tools".
Definition APKS_DIR : string := join (ROOT X) "apks".
Definition SOURCES_DIR : string := join (ROOT X) "sources".
Definition VERSIONS_DIR : string := join (ROOT X) "versions".

Definition get_jadx_path : string :=
  if windows X then join (join (join TOOLS_DIR "jadx") "bin") "jadx.bat"
  else join (join (join TOOLS_DIR "jadx") "bin") "jadx".

(** [jdk_dir w] lists the sub-directories of TOOLS_DIR/jdk in
    [iterdir] order, [None] when that directory does not exist. *)
Definition get_jdk_home : M (option string) :=
  w <- get_world ;;
  match jdk_dir w with
  | None => ret None
  | Some subdirs =>
      match subdirs with
      | d :: _ => ret (Some (join (join TOOLS_DIR "jdk") d))
      | [] => ret None
      end
  end.

Definition ver_file (package : string) : string := package +:+ ".version".

(** [Path.write_text] opens the file in text mode: what reaches the
    disk is the text with its line feeds written as [os.linesep]. *)
Definition write_text (text : string) : string :=
  if windows X then Str.crlf text else text.

(** [ver_file.read_text().strip()]: the file is read in text mode. *)
Definition get_stored_version (package : string) : M (option string) :=
  w <- get_world ;;
  match versions w !! ver_file package with
  | Some contents => ret (Some (Str.strip (Str.universal_newlines contents)))
  | None => ret None
  end.

Definition save_version (package version : string) : M unit :=
  do emit (EvSaveVersion (ver_file package) version) ;;
  modify (set_versions <[ver_file package := write_text version]>).

(** [session.get(url)] followed by [r.raise_for_status()]: what the
    site answers in world [w]. *)
Definition fetch (w : world) (url : string) (timeout : option Z)
  : exn + response :=
  match session_get X w url timeout with
  | inl e => inl e
  | inr r => if status_ok r then inr r else inl HTTPError
  end.

Definition get_ok (url : string) (timeout : option Z) : M response :=
  w <- get_world ;;
  do emit (EvGet url timeout) ;;
  match fetch w url timeout with
  | inl e => raise e
  | inr r => ret r
  end.

(* ---------------------------------------------------------------- *)
(** *** Discovery                                                    *)
(* ---------------------------------------------------------------- *)

(** [re.findall] with the two groups of [Pat.app_link]:
    the (app_path, package) pairs of a page. *)
Definition find_app_links (text : string) : list (string * string) :=
  List.map (fun c => (Re.group 1 c, Re.group 2 c))
           (Re.findall Pat.app_link text).

(** The [names] dictionary of a page (lines 113-119). *)
Definition page_names (text : string) (app_links : list (string * string))
  : gmap string string :=
  fold_left
    (fun (names : gmap string string) (link : string * string) =>
       match Re.search (Pat.app_name (fst link)) text with
       | Some m => <[snd link := Str.strip (Re.group 1 m)]> names
       | None => names
       end)
    app_links ∅.

(** The state of the discovery loops: [all_apps], [seen_packages]. *)
Definition catalog : Type := (list app * gset string)%type.

(** One round of the loop of lines 122-131; the third component is
    [count]. *)
Definition add_link (dev : string) (names : gmap string string)
    (st : catalog * nat) (link : string * string) : catalog * nat :=
  let '(all_apps, seen_packages, count) := st in
  if bool_decide (snd link ∈ seen_packages) then st
  else (all_apps ++ [App (Str.rstrip_char "/"%char (fst link)) (snd link)
                         (default (snd link) (names !! snd link)) dev],
        {[snd link]} ∪ seen_packages, S count).

Definition add_links (dev : string) (names : gmap string string)
    (app_links : list (string * string)) (st : catalog) : catalog * nat :=
  fold_left (add_link dev names) app_links (st, O).

Definition page_url (dev_url : string) (page : nat) : string :=
  if (page =? 1)%nat then dev_url else dev_url +:+ "?page=" +:+ pretty page.

(** The [while True] loop over the pages of one developer; [fuel]
    bounds the number of pages visited. *)
Fixpoint discover_pages (fuel : nat) (dev dev_url : string) (page : nat)
    (st : catalog) : M catalog :=
  match fuel with
  | O => out_of_fuel
  | S fuel' =>
      do print (MFetching dev page) ;;
      got <- try_except (r <- get_ok (page_url dev_url page) None ;;
                         ret (Some r))
                        (fun e => do print (MError e) ;; ret None) ;;
      match got with
      | None => ret st
      | Some r =>
          let app_links := find_app_links (text r) in
          match app_links with
          | [] =>
              do when (page =? 1)%nat (print (MNoAppsFound dev)) ;;
              ret st
          | _ =>
              let names := page_names (text r) app_links in
              let '(st', count) := add_links dev names app_links st in
              do print (MFoundNew count) ;;
              if Str.contains ("?page=" +:+ pretty (page + 1)%nat) (text r)
              then do sleep ;;
                   discover_pages fuel' dev dev_url (page + 1)%nat st'
              else ret st'
          end
      end
  end.

Fixpoint discover_devs (fuel : nat) (developers : list string)
    (st : catalog) : M catalog :=
  match developers with
  | [] => ret st
  | dev :: rest =>
      let dev_url := BASE +:+ "/developer/" +:+ quote X dev +:+ "/" in
      st' <- discover_pages fuel dev dev_url 1%nat st ;;
      do sleep ;;
      discover_devs fuel rest st'
  end.

Definition discover_apps (fuel : nat) (developers : option (list string))
  : M (list app) :=
  let developers := default DEVELOPERS developers in
  st <- discover_devs fuel developers ([], ∅) ;;
  ret (fst st).

(* ---------------------------------------------------------------- *)
(** *** Version checking                                             *)
(* ---------------------------------------------------------------- *)

(** Lines 162-172: the two extraction strategies, in order. *)
Definition extract_version (page : string) : option string :=
  match Re.search Pat.software_version page with
  | Some m => Some (Re.group 1 m)
  | None =>
      match Re.search Pat.version_class page with
      | Some m => Some (Str.strip (Re.group 1 m))
      | None => None
      end
  end.

Definition check_version (app_path : string) : M (option string) :=
  got <- try_except (r <- get_ok (BASE +:+ app_path) None ;; ret (Some r))
                    (fun e => do print (MVersionCheckFailed e) ;; ret None) ;;
  match got with
  | None => ret None
  | Some r => ret (extract_version (text r))
  end.

(* ---------------------------------------------------------------- *)
(** *** Download                                                     *)
(* ---------------------------------------------------------------- *)

Definition rmtree_apks (package : string) : M unit :=
  do emit (EvRmtreeApks package) ;;
  modify (set_apks (delete package)).

Definition mkdir_apks (package : string) : M unit :=
  do emit (EvMkdirApks package) ;;
  modify (set_apks <[package := ∅]>).

(** What [open(download_dir / fname, 'wb')] raises in the existing
    directory of [package]: a name with a NUL character is refused
    before the operating system is asked, an empty name or a dot entry
    denotes a directory, and any other name is up to the operating
    system. *)
Definition fname_error (package fname : string) : option exn :=
  if Str.mem_char "000"%char fname then Some ValueError
  else if String.eqb fname EmptyString || String.eqb fname "."
          || String.eqb fname ".."
  then Some IsADirectoryError
  else open_error X (join (join APKS_DIR package) fname).

(** [with open(dest, 'wb') as f: f.write(data)] for
    [dest = APKS_DIR / package / fname]. *)
Definition write_apk (package fname : string) (data : list byte) : M unit :=
  match fname_error package fname with
  | Some e => raise e
  | None =>
      w <- get_world ;;
      match apks w !! package with
      | None => raise FileNotFoundError
      | Some d =>
          do emit (EvWriteApk package fname (Z.of_nat (length data))) ;;
          modify (set_apks <[package := <[fname := data]> d]>)
      end
  end.

Definition unlink_apk (package fname : string) : M unit :=
  do emit (EvUnlinkApk package fname) ;;
  modify (set_apks (fun a =>
    match a !! package with
    | Some d => <[package := delete fname d]> a
    | None => a
    end)).

(** [dest.stat().st_size / (1024 * 1024)] *)
Definition size_mb (data : list byte) : Q :=
  (inject_Z (Z.of_nat (length data)) / inject_Z (1024 * 1024))%Q.

(** [size_mb < 0.5] *)
Definition too_small (data : list byte) : bool :=
  negb (Qle_bool (1 # 2) (size_mb data)).

(** Lines 197-206: the link the download uses, if any. *)
Definition select_link (page : string) : option string :=
  let r2_links := List.map (Re.group 1) (Re.findall Pat.r2_link page) in
  let d_links := List.map (Re.group 1) (Re.findall Pat.d_link page) in
  match r2_links with
  | l :: _ => Some (BASE +:+ html_unescape X l)
  | [] =>
      match d_links with
      | l :: _ => Some (html_unescape X l)
      | [] => None
      end
  end.

(** Lines 218-226: the name the payload is stored under. *)
Definition choose_fname (r : response) (package : string) : string :=
  let cd :=
    match headers r !! "content-disposition" with
    | Some v => v
    | None => EmptyString
    end in
  let fname :=
    match Re.search Pat.filename cd with
    | Some m => Str.strip (Re.group 1 m)
    | None =>
        let url_path :=
          Str.split_last "/"%char (Str.split_first "?"%char (url r)) in
        if Str.mem_char "."%char url_path then url_path
        else package +:+ ".apk"
    end in
  Str.map_chars (fun a => if Pat.unsafe_char a then "_"%char else a) fname.

(** Lines 181-184: the scratch directory is emptied or created. *)
Definition reset_scratch (package : string) : M unit :=
  w <- get_world ;;
  do when (bool_decide (is_Some (apks w !! package))) (rmtree_apks package) ;;
  mkdir_apks package.

Definition download_apk (app_path package : string) : M (option apk_path) :=
  do reset_scratch package ;;
  page <- try_except
            (r <- get_ok (BASE +:+ app_path +:+ "/download/apk") None ;;
             ret (Some r))
            (fun e => do print (MDownloadPageFailed e) ;; ret None) ;;
  match page with
  | None => ret None
  | Some r =>
      match select_link (text r) with
      | None => do print MNoDownloadLinks ;; ret None
      | Some dl_url =>
          do print MDownloading ;;
          got <- try_except
                   (r <- get_ok dl_url (Some 300) ;; ret (Some r))
                   (fun e => do print (MDownloadFailed e) ;; ret None) ;;
          match got with
          | None => ret None
          | Some r =>
              let fname := choose_fname r package in
              do write_apk package fname (content r) ;;
              if too_small (content r)
              then do print (MFileTooSmall (Z.of_nat (length (content r)))) ;;
                   do unlink_apk package fname ;;
                   ret None
              else do print (MDownloaded fname
                               (Z.of_nat (length (content r)))) ;;
                   ret (Some (package, fname))
          end
      end
  end.

(* ---------------------------------------------------------------- *)
(** *** Decompilation                                                *)
(* ---------------------------------------------------------------- *)

(** [struct.unpack_from('<I', data, off)[0]] *)
Definition unpack_from_I (data : list byte) (off : nat) : exn + Z :=
  match List.map (fun b => Z.of_N (Byte.to_N b)) (firstn 4 (skipn off data)) with
  | [b0; b1; b2; b3] =>
      inr (b0 + 256 * b1 + 65536 * b2 + 16777216 * b3)
  | _ => inl StructError
  end.

(** [data[:4] == b'dex\n'] *)
Definition dex_magic (data : list byte) : bool :=
  bool_decide (List.map Byte.to_N (firstn 4 data) = [100; 101; 120; 10]%N).

(** Lines 257-258 (and 267-268): what one [.dex] entry adds to
    [total]. *)
Definition dex_classes (data : list byte) : exn + Z :=
  if (96 <=? length data)%nat && dex_magic data
  then unpack_from_I data 96
  else inr 0.

(** The loops of [count_dex_classes] thread [total] and stop at the
    first exception; [total] keeps what was added before it. *)
Fixpoint count_inner (inner : archive) (names : list string) (total : Z)
  : Z * option exn :=
  match names with
  | [] => (total, None)
  | inner_name :: rest =>
      if Str.endswith ".dex" inner_name then
        match read inner inner_name with
        | inl e => (total, Some e)
        | inr dex_data =>
            match dex_classes dex_data with
            | inl e => (total, Some e)
            | inr n => count_inner inner rest (total + n)
            end
        end
      else count_inner inner rest total
  end.

Fixpoint count_outer (zf : archive) (names : list string) (total : Z)
  : Z * option exn :=
  match names with
  | [] => (total, None)
  | name :: rest =>
      if Str.endswith ".dex" name then
        match read zf name with
        | inl e => (total, Some e)
        | inr data =>
            match dex_classes data with
            | inl e => (total, Some e)
            | inr n => count_outer zf rest (total + n)
            end
        end
      else if Str.endswith ".apk" name then
        match read zf name with
        | inl e => (total, Some e)
        | inr nested =>
            (* try: ... except Exception: pass *)
            let total' :=
              match ZipFile X nested with
              | inl _ => total
              | inr inner => fst (count_inner inner (namelist inner) total)
              end in
            count_outer zf rest total'
        end
      else count_outer zf rest total
  end.

Definition read_apk (apk : apk_path) (w : world) : option (list byte) :=
  d ← apks w !! fst apk; d !! snd apk.

Definition count_dex_classes (apk : apk_path) : M Z :=
  w <- get_world ;;
  (* try: ... except Exception: pass *)
  match read_apk apk w with
  | None => ret 0
  | Some bytes =>
      match ZipFile X bytes with
      | inl _ => ret 0
      | inr zf => ret (fst (count_outer zf (namelist zf) 0))
      end
  end.

(** [count_java_files_fast]: only [PermissionError] is caught. *)
Fixpoint count_java_files_fast (directory : dirstate) : exn + Z :=
  match directory with
  | Missing => inl FileNotFoundError
  | Denied => inr 0
  | Listing es =>
      (fix scan (es : list entry) (count : Z) {struct es} : exn + Z :=
         match es with
         | [] => inr count
         | File name :: rest =>
             scan rest (if Str.endswith ".java" name then count + 1 else count)
         | Dir _ sub :: rest =>
             match count_java_files_fast sub with
             | inl e => inl e
             | inr k => scan rest (count + k)
             end
         end) es 0
  end.

(** [min(count / total_classes * 100, 99.9)], in exact arithmetic. *)
Definition percent (count total_classes : Z) : Q :=
  Qmin (inject_Z count / inject_Z total_classes * 100) (999 # 10).

(** The monitor thread: one round of its loop per poll, until the
    stop event is set.  It returns what it printed. *)
Fixpoint monitor_decompile_progress (polls : list dirstate)
    (total_classes last_count : Z) : list message :=
  match polls with
  | [] => []
  | output_dir :: rest =>
      match count_java_files_fast output_dir with
      | inl _ => monitor_decompile_progress rest total_classes last_count
      | inr count =>
          if bool_decide (count ≠ last_count) then
            (if 0 <? total_classes
             then MProgress (percent count total_classes) count total_classes
             else MDecompiledCount count)
            :: monitor_decompile_progress rest total_classes count
          else monitor_decompile_progress rest total_classes last_count
      end
  end.

(** [sum(1 for _ in output_dir.rglob('*' + suffix))]: every file or
    directory below the output directory whose name ends so. *)
Fixpoint rglob_entry (suffix : string) (e : entry) : nat :=
  match e with
  | File name => if Str.endswith suffix name then 1%nat else 0%nat
  | Dir name sub =>
      ((if Str.endswith suffix name then 1 else 0)
       + match sub with
         | Listing es =>
             (fix walk (es : list entry) : nat :=
                match es with
                | [] => 0
                | e' :: rest => rglob_entry suffix e' + walk rest
                end) es
         | _ => 0
         end)%nat
  end.

Definition rglob_count (suffix : string) (es : list entry) : nat :=
  fold_right (fun e n => (rglob_entry suffix e + n)%nat) O es.

Definition rmtree_sources (package : string) : M unit :=
  do emit (EvRmtreeSources package) ;;
  modify (set_sources (delete package)).

Definition mkdir_sources (package : string) : M unit :=
  do emit (EvMkdirSources package) ;;
  modify (set_sources <[package := []]>).

Fixpoint print_all (msgs : list message) : M unit :=
  match msgs with
  | [] => ret tt
  | msg :: rest => do print msg ;; print_all rest
  end.

Definition jadx_cmd (apk : apk_path) (package : string) (threads : nat)
  : list string :=
  [get_jadx_path;
   "--threads-count"; pretty threads;
   "--output-dir"; join SOURCES_DIR package;
   "--log-level"; "error";
   "--deobf";
   "--deobf-use-sourcename";
   "--deobf-min"; "3";
   "--deobf-res";
   join (join APKS_DIR (fst apk)) (snd apk)].

(** Lines 321-327: the environment the subprocess gets. *)
Definition jadx_env (environ : gmap string string) (jdk_home : option string)
  : gmap string string :=
  let env := <["JAVA_OPTS" := "-Xmx8g"]> environ in
  match jdk_home with
  | Some home =>
      <["PATH" := join home "bin" +:+ pathsep
                  +:+ match env !! "PATH" with
                      | Some v => v
                      | None => EmptyString
                      end]>
        (<["JAVA_HOME" := home]> env)
  | None => env
  end.

(** [decompile_apk].  The monitor thread runs from [monitor.start()]
    to [monitor.join()], that is, while [subprocess.run] is running:
    what it prints comes before anything the main thread prints after
    the subprocess.  When [subprocess.run] raises (the timeout
    expired, the output could not be decoded, jadx could not be
    executed) nothing after it is executed. *)
Definition decompile_apk (apk : apk_path) (package : string) (threads : nat)
  : M bool :=
  w <- get_world ;;
  do when (bool_decide (is_Some (sources w !! package)))
          (rmtree_sources package) ;;
  do mkdir_sources package ;;
  total_classes <- count_dex_classes apk ;;
  do when (negb (total_classes =? 0)) (print (MFoundClasses total_classes)) ;;
  w <- get_world ;;
  jdk_home <- get_jdk_home ;;
  let env := jadx_env (environ w) jdk_home in
  let cmd := jadx_cmd apk package threads in
  do print (MDecompilingWith threads) ;;
  w <- get_world ;;
  do emit (EvRun cmd 1800) ;;
  let r := subprocess_run X w cmd env in
  do print_all (monitor_decompile_progress (polls r) total_classes 0) ;;
  do modify (set_sources <[package := produced r]>) ;;
  match completed r with
  | inl e => raise e
  | inr (stdout, stderr) =>
      do print MProgress100 ;;
      do when (Str.truthy stdout) (print (MTail stdout)) ;;
      do when (Str.truthy stderr) (print (MTail stderr)) ;;
      w <- get_world ;;
      let output_dir :=
        match sources w !! package with Some es => es | None => [] end in
      let java_files := rglob_count ".java" output_dir in
      let xml_files := rglob_count ".xml" output_dir in
      do print (MOutput java_files xml_files) ;;
      if (java_files =? 0)%nat
      then do print MNoJavaFiles ;; ret false
      else ret true
  end.

(* ---------------------------------------------------------------- *)
(** *** Processing one app                                           *)
(* ---------------------------------------------------------------- *)

(** Python truthiness of [current_version] ([None] or a string). *)
Definition known (v : option string) : bool :=
  match v with Some s => Str.truthy s | None => false end.

Definition cleanup (package : string) : M unit :=
  w <- get_world ;;
  when (bool_decide (is_Some (apks w !! package)))
       (do rmtree_apks package ;; print MCleanedUp).

(** The part of [process_app] after the version gate
    (lines 406-426). *)
Definition download_and_decompile (a : app) (current_version : option string)
    (threads : nat) : M bool :=
  do print MDownloadingApk ;;
  apk <- download_apk (app_path a) (package a) ;;
  match apk with
  | None => ret false
  | Some apk =>
      do print MDecompiling ;;
      success <- decompile_apk apk (package a) threads ;;
      do match current_version with
         | Some v =>
             when (success && Str.truthy v)
                  (do save_version (package a) v ;; print MVersionSaved)
         | None => ret tt
         end ;;
      do cleanup (package a) ;;
      ret success
  end.

Definition process_app (a : app) (force : bool) (threads : nat) : M bool :=
  do print MCheckingVersion ;;
  current_version <- check_version (app_path a) ;;
  if negb (known current_version) then
    do print MCouldNotDetermine ;;
    download_and_decompile a current_version threads
  else
    stored_version <- get_stored_version (package a) ;;
    do print (MCurrent (default EmptyString current_version)) ;;
    do print (MStored stored_version) ;;
    if bool_decide (stored_version = current_version) && negb force
    then do print MUnchanged ;; ret true
    else download_and_decompile a current_version threads.

(* ---------------------------------------------------------------- *)
(** *** The run loop of [main] (lines 499-520)                       *)
(* ---------------------------------------------------------------- *)

(** [results[key] = ok] on an insertion-ordered dict *)
Fixpoint dict_set (key : string) (ok : bool) (results : list (string * bool))
  : list (string * bool) :=
  match results with
  | [] => [(key, ok)]
  | (k, v) :: rest =>
      if String.eqb k key then (k, ok) :: rest
      else (k, v) :: dict_set key ok rest
  end.

Fixpoint process_apps (apps : list app) (i n : nat) (force : bool)
    (threads : nat) (results : list (string * bool))
  : M (list (string * bool)) :=
  match apps with
  | [] => ret results
  | a :: rest =>
      do print (MBanner i n (name a) (package a)) ;;
      ok <- process_app a force threads ;;
      do sleep ;;
      process_apps rest (S i) n force threads (dict_set (package a) ok results)
  end.

Definition main_loop (apps : list app) (force : bool) (threads : nat)
  : M Z :=
  do print (MCpus threads) ;;
  results <- process_apps apps 1%nat (length apps) force threads [] ;;
  do print MSummary ;;
  let changed := length (filter (fun kv => snd kv = true) results) in
  let failed := length (filter (fun kv => snd kv = false) results) in
  do print_all (List.map (fun kv => MStatus (fst kv) (snd kv)) results) ;;
  do print (MTotals changed failed (length apps)) ;;
  ret (if (failed =? 0)%nat then 0 else 1).

End Decompile.

(* ================================================================== *)
(** ** [main] (lines 433-520)                                          *)
(* ================================================================== *)

(** What [parser.parse_args()] returns. *)
Module Args.

Record t : Type := Make {
  force : bool;
  developer : option string;
  package : option string;
  list_apps : bool
}.

End Args.

(** What [main] asks the machine it runs on. *)
Record host : Type := Host {
  jadx_exists : bool;             (* get_jadx_path().exists() *)
  cpu_count : option nat          (* os.cpu_count() *)
}.

(** The lines only [main] prints. *)
Inductive main_message : Type :=
| MJadxNotFound
| MUnknownDeveloper (developer : string)
| MValidDevelopers (developers : list string)
| MDiscovering
| MDiscovered (count : nat)
| MPackageNotFound (package : string)
| MListHeader
| MListRow (package stored developer : string).

(** The console of [main]: its own lines and those of the functions it
    calls, in the order printed. *)
Definition console : Type := list (main_message + message).

Definition Main (A : Type) : Type := world -> outcome A * world * console.

Definition lift {A} (m : M A) : Main A :=
  fun w => match m w with (r, w', o) => (r, w', List.map inr o) end.

Definition say (msg : main_message) : Main unit :=
  fun w => (Ok tt, w, [inl msg]).

Definition exit_with {A} (a : A) : Main A := fun w => (Ok a, w, []).

Definition and_then {A B} (m : Main A) (k : A -> Main B) : Main B :=
  fun w =>
    match m w with
    | (Ok a, w1, o1) =>
        match k a w1 with (r, w2, o2) => (r, w2, o1 ++ o2) end
    | (Raise e, w1, o1) => (Raise e, w1, o1)
    | (OutOfFuel, w1, o1) => (OutOfFuel, w1, o1)
    end.

Notation "x <~ c1 ;; c2" := (and_then c1 (fun x => c2))
  (at level 63, c1 at next level, right associativity).
Notation "'also' c1 ;; c2" := (and_then c1 (fun _ => c2))
  (at level 63, c1 at next level, right associativity).

(** [sorted(l, key=key)] for string keys: a stable sort. *)
Fixpoint insert_by {A} (key : A -> string) (x : A) (l : list A) : list A :=
  match l with
  | [] => [x]
  | y :: l' =>
      if String.leb (key x) (key y) then x :: l else y :: insert_by key x l'
  end.

Definition sorted {A} (l : list A) (key : A -> string) : list A :=
  fold_right (insert_by key) [] l.

Section Main.

Variable X : externals.
Variable H : host.

(** [os.cpu_count() or 4] *)
Definition threads_of_host : nat :=
  match cpu_count H with
  | Some (S n) => S n
  | _ => 4%nat
  end.

(** Lines 468-476: the developers to scrape, [None] when the one asked
    for is unknown. *)
Definition select_developers (args : Args.t) : option (list string) :=
  match Args.developer args with
  | Some developer =>
      if Str.truthy developer then
        let matching :=
          List.filter
            (fun d => String.eqb (Str.lower d) (Str.lower developer))
            DEVELOPERS in
        match matching with
        | [] => None
        | _ => Some matching
        end
      else Some DEVELOPERS
  | None => Some DEVELOPERS
  end.

(** Lines 484-488: the apps left by [--package], [None] when it leaves
    none. *)
Definition select_package (args : Args.t) (apps : list app)
  : option (list app) :=
  match Args.package args with
  | Some p =>
      if Str.truthy p then
        match List.filter (fun a => String.eqb (package a) p) apps with
        | [] => None
        | apps' => Some apps'
        end
      else Some apps
  | None => Some apps
  end.

(** The rows of the list mode (lines 494-496). *)
Fixpoint list_rows (apps : list app) : Main unit :=
  match apps with
  | [] => exit_with tt
  | a :: rest =>
      stored <~ lift (get_stored_version (package a)) ;;
      also say (MListRow (package a) (default EmptyString stored)
                         (developer a)) ;;
      list_rows rest
  end.

(** Lines 461-462: [d.mkdir(exist_ok=True)] for each of the three
    directories.  A directory that exists is left as it is and one that
    is created is empty, so the contents the world holds do not change;
    the call is an effect all the same, and it can fail. *)
Definition mkdir_exist_ok (d : string) : M unit :=
  do emit (EvMkdir d) ;;
  match mkdir_error X d with
  | Some e => raise e
  | None => ret tt
  end.

Fixpoint ensure_dirs (dirs : list string) : M unit :=
  match dirs with
  | [] => ret tt
  | d :: rest => do mkdir_exist_ok d ;; ensure_dirs rest
  end.

Definition main (fuel : nat) (args : Args.t) : Main Z :=
  if negb (Args.list_apps args) && negb (jadx_exists H) then
    also say MJadxNotFound ;;
    exit_with 1
  else
    also lift (ensure_dirs [APKS_DIR X; SOURCES_DIR X; VERSIONS_DIR X]) ;;
    let threads := threads_of_host in
    match select_developers args with
    | None =>
        also say (MUnknownDeveloper
                   (default EmptyString (Args.developer args))) ;;
        also say (MValidDevelopers DEVELOPERS) ;;
        exit_with 1
    | Some devs =>
        also say MDiscovering ;;
        apps <~ lift (discover_apps X fuel (Some devs)) ;;
        also say (MDiscovered (length apps)) ;;
        match select_package args apps with
        | None =>
            also say (MPackageNotFound
                       (default EmptyString (Args.package args))) ;;
            exit_with 1
        | Some apps =>
            if Args.list_apps args then
              also say MListHeader ;;
              also list_rows (sorted apps developer) ;;
              exit_with 0
            else
              lift (main_loop X apps (Args.force args) threads)
        end
    end.

End Main.

(* ================================================================== *)
(** ** search.py: building the index                                   *)
(* ================================================================== *)

Module Search.

(** A row of the table [files]: path, package, filename, content. *)
Definition row : Type := (string * string * string * string)%type.

(** What the script sends to the SQLite connection. *)
Inductive statement : Type :=
| DropTable                       (* DROP TABLE IF EXISTS files *)
| CreateTable                     (* CREATE VIRTUAL TABLE files USING fts5 *)
| InsertMany (batch : list row)   (* executemany(INSERT ..., batch) *)
| Commit
| Close.

Inductive message : Type :=
| MNoSources
| MWarningNotFound (pkg : string)
| MIndexing (pkg_name : string)
| MFiles (pkg_count : nat)
| MIndexed (count : nat)
| MSkipped (errors : nat).

(** A path yielded by [pkg_dir.rglob('*')], with what the script asks
    about it. *)
Record found : Type := Found {
  is_file : bool;                 (* fpath.is_file() *)
  suffix : string;                (* fpath.suffix *)
  name : string;                  (* fpath.name *)
  relative_to_sources : string;   (* str(fpath.relative_to(SOURCES_DIR)) *)
  read_text : exn + string        (* fpath.read_text(...) *)
}.

(** SOURCES_DIR as [pathlib] shows it. *)
Record sources_dir : Type := SourcesDir {
  exists_ : bool;                 (* SOURCES_DIR.exists() *)
  iterdir : list string;          (* the names in SOURCES_DIR *)
  is_dir : string -> bool;        (* (SOURCES_DIR / name).is_dir() *)
  child_exists : string -> bool;  (* (SOURCES_DIR / name).exists() *)
  rglob : string -> list found    (* (SOURCES_DIR / name).rglob('*') *)
}.

Definition indexed_suffixes : list string :=
  [".java"; ".xml"; ".json"; ".properties"].

(** The state of the loop over the files of one package: the
    [executemany] calls made so far, [batch], [pkg_count], [errors]. *)
Record progress : Type := Progress {
  sent : list (list row);
  batch : list row;
  pkg_count : nat;
  errors : nat
}.

(** One round of the loop of lines 60-81. *)
Definition index_file (pkg_name : string) (st : progress) (fpath : found)
  : progress :=
  if negb (is_file fpath) then st
  else if negb (existsb (String.eqb (suffix fpath)) indexed_suffixes) then st
  else
    match read_text fpath with
    | inl _ => Progress (sent st) (batch st) (pkg_count st) (S (errors st))
    | inr content =>
        let batch' :=
          batch st ++ [(relative_to_sources fpath, pkg_name, name fpath,
                        content)] in
        if (500 <=? length batch')%nat
        then Progress (sent st ++ [batch']) [] (S (pkg_count st)) (errors st)
        else Progress (sent st) batch' (S (pkg_count st)) (errors st)
    end.

(** Lines 55-90 for one package: the [executemany] calls, [pkg_count]
    and the new value of [errors]. *)
Definition index_package (pkg_name : string) (files : list found)
    (errors : nat) : list (list row) * nat * nat :=
  let st := fold_left (index_file pkg_name) files (Progress [] [] O errors) in
  (match batch st with
   | [] => sent st
   | _ => sent st ++ [batch st]
   end, pkg_count st, Search.errors st).

(** Lines 42-53: the directories to index, with the warnings printed. *)
Definition source_dirs (fs : sources_dir) (packages : option (list string))
  : list string * list message :=
  match packages with
  | Some ((_ :: _) as pkgs) =>
      (List.filter (child_exists fs) pkgs,
       List.map MWarningNotFound
                (List.filter (fun pkg => negb (child_exists fs pkg)) pkgs))
  | _ => (List.filter (is_dir fs) (iterdir fs), [])
  end.

(** The loop of line 55 over the source directories. *)
Fixpoint index_packages (fs : sources_dir) (dirs : list string)
    (count errors : nat)
  : list statement * list message * nat * nat :=
  match dirs with
  | [] => ([], [], count, errors)
  | pkg_name :: rest =>
      let '(calls, pkg_count, errors') :=
        index_package pkg_name (rglob fs pkg_name) errors in
      let '(stmts, out, count', errors'') :=
        index_packages fs rest (count + pkg_count)%nat errors' in
      (List.map InsertMany calls ++ stmts,
       MIndexing pkg_name :: MFiles pkg_count :: out, count', errors'')
  end.

(** [build_index]: its result, what it sent to the database and what
    it printed (the elapsed time and the size of the database file are
    not part of the model). *)
Definition build_index (fs : sources_dir) (packages : option (list string))
  : bool * list statement * list message :=
  if negb (exists_ fs) then (false, [], [MNoSources])
  else
    let '(dirs, warnings) := source_dirs fs packages in
    let '(stmts, out, count, errors) := index_packages fs dirs O O in
    (true,
     DropTable :: CreateTable :: stmts ++ [Commit; Close],
     warnings ++ out ++ MIndexed count
       :: (if (errors =? 0)%nat then [] else [MSkipped errors])).

(** The rows of the files of one package that are indexed: the regular
    files with an indexed suffix that can be read, in the order of
    [rglob]. *)
Definition indexable (pkg_name : string) (fpath : found) : option row :=
  if is_file fpath && existsb (String.eqb (suffix fpath)) indexed_suffixes
  then match read_text fpath with
       | inr content =>
           Some (relative_to_sources fpath, pkg_name, name fpath, content)
       | inl _ => None
       end
  else None.

Definition unreadable (fpath : found) : bool :=
  is_file fpath && existsb (String.eqb (suffix fpath)) indexed_suffixes
  && match read_text fpath with inl _ => true | inr _ => false end.

(** The invariant of the loop over the files of a package, [seen]
    being the files visited so far: the rows sent and the rows waiting
    in [batch] are the rows of the files seen, every batch sent holds
    500 rows, [batch] holds fewer, and the two counters are right. *)
Definition batching (pkg_name : string) (errors0 : nat) (seen : list found)
    (st : progress) : Prop :=
  concat (sent st) ++ batch st = omap (indexable pkg_name) seen
  /\ Forall (fun b => length b = 500%nat) (sent st)
  /\ (length (batch st) < 500)%nat
  /\ pkg_count st = length (omap (indexable pkg_name) seen)
  /\ errors st = (errors0 + length (List.filter unreadable seen))%nat.

End Search.

(* ================================================================== *)
(** ** Vocabulary of the properties                                    *)
(* ================================================================== *)

(** [o] printed before whatever a computation prints. *)
Definition with_output {A} (o : list message)
    (x : outcome A * world * list message) : outcome A * world * list message :=
  match x with (r, w, o2) => (r, w, o ++ o2) end.

(** The effects performed between world [w] and a later world [w'],
    newest first. *)
Definition performed (w w' : world) : list event :=
  firstn (length (events w') - length (events w)) (events w').

(** The lines of the progress display. *)
Definition is_progress (m : message) : bool :=
  match m with
  | MProgress _ _ _ | MDecompiledCount _ | MProgress100 => true
  | _ => false
  end.

Definition progress_lines (o : list message) : list message :=
  List.filter is_progress o.

Fixpoint reported_percentages (o : list message) : list Q :=
  match o with
  | [] => []
  | MProgress pct _ _ :: rest => pct :: reported_percentages rest
  | _ :: rest => reported_percentages rest
  end.

(** The produced-file counts the monitor obtained, poll after poll. *)
Fixpoint observed_counts (polls : list dirstate) : list Z :=
  match polls with
  | [] => []
  | p :: rest =>
      match count_java_files_fast p with
      | inl _ => observed_counts rest
      | inr count => count :: observed_counts rest
      end
  end.

(** A pattern [consumes] when each of its matches uses at least one
    character; [captured n c] says that group [n] took part in the
    match and is not empty. *)
Definition consumes (r : Re.regex) : Prop :=
  forall s c x, In x (Re.matches r s c) ->
                (String.length (fst x) < String.length s)%nat.

Definition captured (n : nat) (c : Re.caps) : Prop :=
  exists a v, c !! n = Some (String a v).

(** The world once [download_apk] has reset the scratch directory of
    [package]. *)
Definition scratch_world (package : string) (w : world) : world :=
  World (versions w) (<[package := ∅]> (apks w)) (sources w) (jdk_dir w)
        (environ w)
        (EvMkdirApks package
         :: (if bool_decide (is_Some (apks w !! package))
             then [EvRmtreeApks package] else []) ++ events w).

(** The same, with [dir] as the content of the scratch directory and
    the further effects [evs]. *)
Definition scratch_with (package : string) (dir : gmap string (list byte))
    (evs : list event) (w : world) : world :=
  World (versions w) (<[package := dir]> (apks w)) (sources w) (jdk_dir w)
        (environ w) (evs ++ events (scratch_world package w)).

(** **** Discovery, seen from the site

    [scan_devs] makes the requests of [discover_apps] and lists what
    each page visited offers, in the order of the visit; it keeps no
    catalog.  A [hit] is one page with links: its developer, its
    [names] dictionary and its (app_path, package) links. *)
Definition hit : Type :=
  (string * gmap string string * list (string * string))%type.

Section Scan.

Variable X : externals.

Fixpoint scan_pages (fuel : nat) (dev dev_url : string) (page : nat)
  : M (list hit) :=
  match fuel with
  | O => out_of_fuel
  | S fuel' =>
      got <- try_except (r <- get_ok X (page_url dev_url page) None ;;
                         ret (Some r))
                        (fun e => ret None) ;;
      match got with
      | None => ret []
      | Some r =>
          let app_links := find_app_links (text r) in
          match app_links with
          | [] => ret []
          | _ =>
              let h := (dev, page_names (text r) app_links, app_links) in
              if Str.contains ("?page=" +:+ pretty (page + 1)%nat) (text r)
              then do sleep ;;
                   rest <- scan_pages fuel' dev dev_url (page + 1)%nat ;;
                   ret (h :: rest)
              else ret [h]
          end
      end
  end.

Fixpoint scan_devs (fuel : nat) (developers : list string) : M (list hit) :=
  match developers with
  | [] => ret []
  | dev :: rest =>
      let dev_url := BASE +:+ "/developer/" +:+ quote X dev +:+ "/" in
      hits <- scan_pages fuel dev dev_url 1%nat ;;
      do sleep ;;
      more <- scan_devs fuel rest ;;
      ret (hits ++ more)
  end.

End Scan.

(** The catalog after the pages [hits] have been added to it. *)
Definition add_hits (hits : list hit) (st : catalog) : catalog :=
  fold_left (fun st (h : hit) => fst (add_links (fst (fst h)) (snd (fst h)) (snd h) st))
            hits st.

(** The (package, developer) pairs offered, in the order of the visit,
    and the developer under which a package is offered first. *)
Definition occurrences (hits : list hit) : list (string * string) :=
  flat_map (fun h : hit => List.map (fun l => (snd l, fst (fst h))) (snd h)) hits.

Definition first_dev (occ : list (string * string)) (pkg : string)
  : option string :=
  snd <$> List.find (fun pd => String.eqb (fst pd) pkg) occ.

(** The effects of a download. *)
Definition fetch_event (e : event) : bool :=
  match e with
  | EvGet _ _ | EvRmtreeApks _ | EvMkdirApks _
  | EvWriteApk _ _ _ | EvUnlinkApk _ _ => true
  | _ => false
  end.

(** What the version check observes for [a] in world [w]. *)
Definition observed_version (X : externals) (a : app) (w : world)
  : option string :=
  match fetch X w (BASE +:+ app_path a) None with
  | inl _ => None
  | inr r => extract_version (text r)
  end.

(** What the ledger holds for [a], as [get_stored_version] reads it. *)
Definition stored_version (a : app) (w : world) : option string :=
  (fun contents => Str.strip (Str.universal_newlines contents))
    <$> versions w !! ver_file (package a).

(** What [count_dex_classes] returns for [apk] in world [w]. *)
Definition expected_classes (X : externals) (apk : apk_path) (w : world) : Z :=
  match read_apk apk w with
  | None => 0
  | Some bytes =>
      match ZipFile X bytes with
      | inl _ => 0
      | inr zf => fst (count_outer X zf (namelist zf) 0)
      end
  end.

(** What [download_apk] does once the link [dl_url] has been chosen on
    the page at [url] (lines 208-239). *)
Definition fetch_payload (X : externals) (package url dl_url : string)
    (w : world) : outcome (option apk_path) * world * list message :=
  match fetch X (scratch_with package ∅ [EvGet url None] w)
              dl_url (Some 300) with
  | inl e =>
      (Ok None,
       scratch_with package ∅
         [EvGet dl_url (Some 300); EvGet url None] w,
       [MDownloading; MDownloadFailed e])
  | inr r =>
      let fname := choose_fname r package in
      match fname_error X package fname with
      | Some e =>
          (Raise e,
           scratch_with package ∅
             [EvGet dl_url (Some 300); EvGet url None] w,
           [MDownloading])
      | None =>
          if too_small (content r) then
            (Ok None,
             scratch_with package ∅
               [EvUnlinkApk package fname;
                EvWriteApk package fname (Z.of_nat (length (content r)));
                EvGet dl_url (Some 300); EvGet url None] w,
             [MDownloading;
              MFileTooSmall (Z.of_nat (length (content r)))])
          else
            (Ok (Some (package, fname)),
             scratch_with package {[fname := content r]}
               [EvWriteApk package fname (Z.of_nat (length (content r)));
                EvGet dl_url (Some 300); EvGet url None] w,
             [MDownloading;
              MDownloaded fname (Z.of_nat (length (content r)))])
      end
  end.

(** The catalog [st] holds exactly the packages of the occurrences
    [occ], each once, under the developer of its first occurrence. *)
Definition catalog_of (occ : list (string * string)) (st : catalog) : Prop :=
  (forall pkg, pkg ∈ snd st <-> In pkg (List.map package (fst st)))
  /\ (forall pkg, In pkg (List.map package (fst st)) <-> In pkg (List.map fst occ))
  /\ NoDup (List.map package (fst st))
  /\ (forall a, In a (fst st) -> first_dev occ (package a) = Some (developer a)).

(** No page of the site announces a page after number [bound]. *)
Definition paging_bounded (X : externals) (bound : nat) : Prop :=
  forall w u t r p,
    fetch X w u t = inr r -> (bound <= p)%nat ->
    Str.contains ("?page=" +:+ pretty (p + 1)%nat) (text r) = false.

(** The three components of a run. *)
Definition result_of {A} (x : outcome A * world * list message) : outcome A :=
  fst (fst x).
Definition world_of {A} (x : outcome A * world * list message) : world :=
  snd (fst x).
Definition output_of {A} (x : outcome A * world * list message) : list message :=
  snd x.

(** Effects can be compared. *)
Global Instance exn_eq_dec : EqDecision exn.
Proof. solve_decision. Defined.
Global Instance event_eq_dec : EqDecision event.
Proof. solve_decision. Defined.

Definition is_run (e : event) : bool :=
  match e with EvRun _ _ => true | _ => false end.

(** **** Isolation

    Everything but what belongs to [pkg] (its version file, its scratch
    directory, its source tree) is the same in [w] and [w']. *)
Definition elsewhere_unchanged (pkg : string) (w w' : world) : Prop :=
  (forall file, file <> ver_file pkg ->
                versions w' !! file = versions w !! file)
  /\ (forall other, other <> pkg -> apks w' !! other = apks w !! other)
  /\ (forall other, other <> pkg -> sources w' !! other = sources w !! other)
  /\ jdk_dir w' = jdk_dir w /\ environ w' = environ w.

(** The [results] dictionary of the run loop after the outcomes [oks]
    of [apps] have been recorded, in order. *)
Definition record_outcomes (apps : list app) (oks : list bool)
    (results : list (string * bool)) : list (string * bool) :=
  fold_left (fun acc (p : app * bool) => dict_set (package (fst p)) (snd p) acc)
            (combine apps oks) results.

(** **** The launch of the decompiler

    The world in which [decompile_apk] starts the subprocess: the
    output directory of [package] has just been emptied or created. *)
Definition launch_world (package : string) (w : world) : world :=
  World (versions w) (apks w) (<[package := []]> (sources w)) (jdk_dir w)
        (environ w)
        (EvMkdirSources package
         :: (if bool_decide (is_Some (sources w !! package))
             then [EvRmtreeSources package] else []) ++ events w).

(** What [get_jdk_home] returns in world [w]. *)
Definition jdk_home_of (X : externals) (w : world) : option string :=
  match jdk_dir w with
  | Some (d :: _) => Some (join X (join X (TOOLS_DIR X) "jdk") d)
  | _ => None
  end.

(** **** Counting Java files

    The directories below an entry whose name ends in [.java], as far
    as the tree is listed. *)
Fixpoint java_named_dirs (e : entry) : nat :=
  match e with
  | File _ => 0%nat
  | Dir name sub =>
      ((if Str.endswith ".java" name then 1 else 0)
       + match sub with
         | Listing es =>
             (fix walk (es : list entry) : nat :=
                match es with
                | [] => 0
                | e' :: rest => java_named_dirs e' + walk rest
                end) es
         | _ => 0
         end)%nat
  end.

Definition java_named_dirs_in (es : list entry) : nat :=
  fold_right (fun e n => (java_named_dirs e + n)%nat) O es.

(** The count a progress line carries. *)
Definition reported_count (m : message) : option Z :=
  match m with
  | MProgress _ count _ => Some count
  | MDecompiledCount count => Some count
  | _ => None
  end.

(** The counts that differ from the one before, [last] being the one
    before the first. *)
Fixpoint changes (last : Z) (counts : list Z) : list Z :=
  match counts with
  | [] => []
  | c :: rest =>
      if bool_decide (c ≠ last) then c :: changes c rest
      else changes last rest
  end.

(** **** Reading the site

    The effects of reading the site. *)
Definition read_request (e : event) : bool :=
  match e with
  | EvGet _ None | EvSleep => true
  | _ => false
  end.

(** From [w] to [w'] nothing happened but the effects [evs], and no
    file changed. *)
Definition only_events (evs : list event) (w w' : world) : Prop :=
  versions w' = versions w /\ apks w' = apks w /\ sources w' = sources w
  /\ jdk_dir w' = jdk_dir w /\ environ w' = environ w
  /\ events w' = evs ++ events w.

(** The first page of a developer (line 85). *)
Definition developer_url (X : externals) (dev : string) : string :=
  BASE +:+ "/developer/" +:+ quote X dev +:+ "/".

(** **** Package ids

    Every character of [s] is in the class [Q]. *)
Fixpoint all_chars (Q : ascii -> bool) (s : string) : bool :=
  match s with
  | EmptyString => true
  | String a s' => Q a && all_chars Q s'
  end.

(** [s] has no carriage return. *)
Definition plain (s : string) : bool :=
  all_chars (fun a => negb (Str.eqb_char a Str.cr)) s.

(** The characters of a package id: [a-z0-9_.] *)
Definition id_char (a : ascii) : bool :=
  Pat.lower_digit_us a || Str.eqb_char a "."%char.

(** Every match of [r] consumes characters of the class [Q] only. *)
Definition within (Q : ascii -> bool) (r : Re.regex) : Prop :=
  forall s c x, In x (Re.matches r s c) ->
    exists pre, s = pre +:+ fst x /\ all_chars Q pre = true.

(** Group 2 holds a non-empty text of package-id characters. *)
Definition captured_id (c : Re.caps) : Prop :=
  exists a v, c !! 2%nat = Some (String a v)
              /\ all_chars id_char (String a v) = true.

(** Groups 1 and 2 of a match of [Pat.app_link]: a path
    [/slug/package/] and its last component. *)
Definition captured_link (c : Re.caps) : Prop :=
  exists slug pkg,
    c !! 1%nat = Some ("/" +:+ slug +:+ "/" +:+ pkg +:+ "/")
    /\ c !! 2%nat = Some pkg
    /\ pkg <> EmptyString /\ all_chars id_char pkg = true.

(** The catalog entry [a] was made from the link [link]
    (lines 125-130). *)
Definition from_link (a : app) (link : string * string) : Prop :=
  app_path a = Str.rstrip_char "/"%char (fst link) /\ package a = snd link.

(** **** Runs of [main]

    The three components of a run of [main]. *)
Definition main_result {A} (x : outcome A * world * console) : outcome A :=
  fst (fst x).
Definition main_world {A} (x : outcome A * world * console) : world :=
  snd (fst x).
Definition main_console {A} (x : outcome A * world * console) : console :=
  snd x.

(** The effects of making sure that the three directories exist and of
    reading the site. *)
Definition setup_or_read (X : externals) (e : event) : Prop :=
  read_request e = true
  \/ exists d, e = EvMkdir d
               /\ In d [APKS_DIR X; SOURCES_DIR X; VERSIONS_DIR X].

(** The lines with which [main] gives up before the run loop. *)
Definition refusal (msg : main_message) : bool :=
  match msg with
  | MJadxNotFound | MValidDevelopers _ | MPackageNotFound _ => true
  | _ => false
  end.

(** The row of the list mode for [a], in world [w]. *)
Definition list_row (w : world) (a : app) : main_message + message :=
  inl (MListRow (package a) (default EmptyString (stored_version a w))
                (developer a)).

(* ================================================================== *)
(** ** A scripted site, for concrete runs                              *)
(* ================================================================== *)

Definition href (u : string) : string := "<a href=" +:+ DQ +:+ u +:+ DQ +:+ ">".

Definition demo_page (t : string) : response :=
  Response true t [] ∅ EmptyString.

(** A payload of [n + 2] bytes that starts like a zip archive. *)
Definition demo_payload (n : nat) : response :=
  Response true EmptyString (x50 :: x4b :: repeat x00 n) ∅
           "https://cdn.example/files/app.apk?sig=1".

Definition demo_site (n : nat) : gmap string response :=
  list_to_map
    [("https://apkcombo.com/developer/Acme/",
      demo_page (href "/example/com.example.app/" +:+ href "/kit/org.tool.kit/"
                 +:+ href "?page=2"));
     ("https://apkcombo.com/developer/Acme/?page=2",
      demo_page (href "/two/net.demo.two/"));
     ("https://apkcombo.com/developer/Bolt/",
      demo_page (href "/example-alt/com.example.app/"
                 +:+ href "/bolt/io.bolt.app/"));
     ("https://apkcombo.com/example/com.example.app",
      demo_page (DQ +:+ "softwareVersion" +:+ DQ +:+ ": " +:+ DQ +:+ "2.0" +:+ DQ));
     ("https://apkcombo.com/example/com.example.app/download/apk",
      demo_page (href "https://apkcombo.com/d?u=xyz" +:+ href "/r2?u=abc"));
     ("https://apkcombo.com/r2?u=abc", demo_payload n);
     ("https://apkcombo.com/blank/com.blank.app",
      demo_page ("<span class=" +:+ DQ +:+ "version" +:+ DQ +:+ "> </span>"));
     ("https://apkcombo.com/nolink/com.nolink.app",
      demo_page (DQ +:+ "softwareVersion" +:+ DQ +:+ ":" +:+ DQ +:+ "1.0" +:+ DQ));
     ("https://apkcombo.com/nolink/com.nolink.app/download/apk",
      demo_page "<p>Not available</p>");
     ("https://apkcombo.com/padded/com.padded.app",
      demo_page (DQ +:+ "softwareVersion" +:+ DQ +:+ ": " +:+ DQ +:+ " 2.0 " +:+ DQ));
     ("https://apkcombo.com/padded/com.padded.app/download/apk",
      demo_page "<p>Not available</p>")].

(** A DEX header that declares four classes. *)
Definition demo_dex : list byte :=
  [x64; x65; x78; x0a] ++ repeat x00 92 ++ [x04; x00; x00; x00].

Definition demo_zip (bytes : list byte) : exn + archive :=
  match bytes with
  | x50 :: x4b :: _ =>
      inr (Archive ["classes.dex"; "res/layout.xml"]
                   (fun name => if String.eqb name "classes.dex"
                                then inr demo_dex else inr []))
  | _ => inl BadZipFile
  end.

Definition demo (n : nat) (jadx : run) : externals :=
  Externals
    (fun _ u _ => match demo_site n !! u with
                  | Some r => inr r
                  | None => inl RequestsError
                  end)
    (fun s => s) (fun s => s) demo_zip (fun _ _ _ => jadx) false "/repo"
    (fun _ => None) (fun _ => None).

Definition run_ok : run :=
  Run [Listing [File "A.java"];
       Listing [File "A.java"; File "B.java"; Dir "res" (Listing [File "C.java"])]]
      (inr ("done", EmptyString))
      [File "A.java"; File "B.java";
       Dir "res" (Listing [File "C.java"; File "strings.xml"])].

Definition run_timeout : run :=
  Run [Listing [File "A.java"]] (inl TimeoutExpired) [File "A.java"].

Definition run_shrinking : run :=
  Run [Listing [File "A.java"; File "B.java"]; Listing [File "A.java"]]
      (inr ("done", EmptyString)) [File "A.java"].

Definition demo_world (stored : option string) : world :=
  World (match stored with
         | Some v => {[ "com.example.app.version" := v ]}
         | None => ∅
         end) ∅ ∅ None ∅ [].

Definition demo_app : app :=
  App "/example/com.example.app" "com.example.app" "Example" "Acme".
Definition nolink_app : app :=
  App "/nolink/com.nolink.app" "com.nolink.app" "No link" "Acme".

(** Payload sizes: half a megabyte, and a kilobyte. *)
Definition big : nat := Z.to_nat 524286.
Definition small : nat := Z.to_nat 1022.

(** A world in which the artifact of the example app is on disk. *)
Definition demo_apk_world : world :=
  World ∅ {[ "com.example.app" := {[ "app.apk" := [x50; x4b] ]} ]} ∅ None ∅ [].

(** An app whose page shows a blank version. *)
Definition blank_app : app :=
  App "/blank/com.blank.app" "com.blank.app" "Blank" "Acme".

(** An app whose page shows its version between spaces. *)
Definition padded_app : app :=
  App "/padded/com.padded.app" "com.padded.app" "Padded" "Acme".

(** A world whose only version file is [file], holding [contents]. *)
Definition ledger_world (file contents : string) : world :=
  World {[ file := contents ]} ∅ ∅ None ∅ [].

(** The scripted site, visited from Windows. *)
Definition demo_windows (n : nat) (jadx : run) : externals :=
  Externals (session_get (demo n jadx)) (fun s => s) (fun s => s) demo_zip
            (fun _ _ _ => jadx) true "C:\repo" (fun _ => None) (fun _ => None).

(** The same site, with a page for the developer Waze. *)
Definition main_site (n : nat) : gmap string response :=
  <["https://apkcombo.com/developer/Waze/" :=
      demo_page (href "/example/com.example.app/"
                 +:+ href "/nolink/com.nolink.app/")]> (demo_site n).

Definition demo_main (n : nat) (jadx : run) : externals :=
  Externals
    (fun _ u _ => match main_site n !! u with
                  | Some r => inr r
                  | None => inl RequestsError
                  end)
    (fun s => s) (fun s => s) demo_zip (fun _ _ _ => jadx) false "/repo"
    (fun _ => None) (fun _ => None).

Definition demo_host : host := Host true (Some 8%nat).

(** A produced tree with a directory named like a Java file and a
    directory that cannot be listed. *)
Definition demo_tree : list entry :=
  [File "A.java";
   Dir "gen.java" (Listing [File "B.java"; File "notes.txt"]);
   Dir "private" Denied].

(** A container whose only archive entry is the example artifact. *)
Definition demo_xapk : archive :=
  Archive ["base.apk"; "icon.png"]
          (fun name => if String.eqb name "base.apk"
                       then inr [x50; x4b] else inr []).

(** A sources directory with one package: a Java file, a directory, an
    image and a resource file that cannot be read. *)
Definition demo_sources : Search.sources_dir :=
  Search.SourcesDir true ["com.example.app"; "README.md"]
    (fun n => String.eqb n "com.example.app")
    (fun n => String.eqb n "com.example.app" || String.eqb n "README.md")
    (fun n =>
       if String.eqb n "com.example.app" then
         [Search.Found true ".java" "A.java" "com.example.app/A.java"
                       (inr "class A {}");
          Search.Found false EmptyString "res" "com.example.app/res"
                       (inl IsADirectoryError);
          Search.Found true ".png" "icon.png" "com.example.app/res/icon.png"
                       (inr "PNG");
          Search.Found true ".xml" "strings.xml"
                       "com.example.app/res/strings.xml"
                       (inl PermissionError)]
       else []).

(* ================================================================== *)
(** ** Properties                                                      *)
(* ================================================================== *)

(** *** Running the monad *)

Lemma bind_ret {A B} (a : A) (k : A -> M B) w : bind (ret a) k w = k a w.
Proof. unfold bind, ret. now destruct (k a w) as [[? ?] ?]. Qed.

Lemma bind_get_world {B} (k : world -> M B) w : bind get_world k w = k w w.
Proof. unfold bind, get_world. now destruct (k w w) as [[? ?] ?]. Qed.

Lemma bind_emit {B} e (k : unit -> M B) w :
  bind (emit e) k w = k tt (log_event e w).
Proof. unfold bind, emit. now destruct (k tt _) as [[? ?] ?]. Qed.

Lemma bind_modify {B} f (k : unit -> M B) w : bind (modify f) k w = k tt (f w).
Proof. unfold bind, modify. now destruct (k tt _) as [[? ?] ?]. Qed.

Lemma bind_print {B} m (k : unit -> M B) w :
  bind (print m) k w = with_output [m] (k tt w).
Proof. reflexivity. Qed.

Lemma bind_raise {A B} e (k : A -> M B) w : bind (raise e) k w = (Raise e, w, []).
Proof. reflexivity. Qed.

Lemma bind_assoc {A B C} (m : M A) (f : A -> M B) (g : B -> M C) w :
  bind (bind m f) g w = bind m (fun a => bind (f a) g) w.
Proof.
  unfold bind. destruct (m w) as [[[a| |] w1] o1]; try reflexivity.
  destruct (f a w1) as [[[b| |] w2] o2]; try reflexivity.
  destruct (g b w2) as [[? ?] ?]. now rewrite app_assoc.
Qed.

Lemma bind_when_print {B} (b : bool) m (k : unit -> M B) w :
  bind (when b (print m)) k w = with_output (if b then [m] else []) (k tt w).
Proof.
  destruct b; simpl; [reflexivity|]. rewrite bind_ret.
  now destruct (k tt w) as [[? ?] ?].
Qed.

Lemma print_all_run msgs w : print_all msgs w = (Ok tt, w, msgs).
Proof.
  induction msgs as [|m msgs IH]; simpl; [reflexivity|].
  rewrite bind_print, IH. reflexivity.
Qed.

Lemma bind_print_all {B} msgs (k : unit -> M B) w :
  bind (print_all msgs) k w = with_output msgs (k tt w).
Proof. unfold bind. now rewrite print_all_run. Qed.

Ltac mstep :=
  repeat first
    [ rewrite bind_get_world | rewrite bind_emit | rewrite bind_modify
    | rewrite bind_ret | rewrite bind_print | rewrite bind_print_all
    | rewrite bind_when_print | rewrite bind_raise ].

(** Case analysis of, and search for, a membership in an explicit list
    of effects. *)
Ltac in_cases H :=
  repeat match type of H with
         | In _ (_ :: _) => destruct H as [H|H]
         | In _ (_ ++ _) => apply in_app_iff in H; destruct H as [H|H]
         | In _ [] => destruct H
         | _ = _ => discriminate H
         end.

Ltac in_solve :=
  match goal with
  | |- In _ (_ :: _) => first [ left; reflexivity | right; in_solve ]
  | |- In _ (_ ++ _) =>
      apply in_or_app; first [ left; in_solve | right; in_solve ]
  | _ => assumption
  end.

(** *** The patterns *)

Section RegexFacts.

Import Re.

Lemma strip_prefix_length l s s' :
  Str.strip_prefix l s = Some s' -> (String.length s' <= String.length s)%nat.
Proof.
  revert s. induction l as [|a l IH]; intros [|b s]; simpl; try discriminate.
  - intros [= <-]. simpl. lia.
  - intros [= <-]. simpl. lia.
  - destruct (Str.eqb_char a b); [|discriminate]. intros H. apply IH in H. lia.
Qed.

Lemma star_loop_length step greedy
  (Hstep : forall s c x, In x (step s c) ->
                         (String.length (fst x) <= String.length s)%nat) :
  forall fuel s c x, In x (star_loop step greedy fuel s c) ->
                     (String.length (fst x) <= String.length s)%nat.
Proof.
  induction fuel as [|fuel IH]; intros s c x; simpl.
  - intros [<-|[]]. simpl. lia.
  - assert (Hmore : In x (flat_map
             (fun sc : string * caps =>
                if (String.length (fst sc) <? String.length s)%nat
                then star_loop step greedy fuel (fst sc) (snd sc) else [])
             (step s c)) -> (String.length (fst x) <= String.length s)%nat).
    { rewrite in_flat_map. intros ([s1 c1] & H1 & H2). simpl in H2.
      destruct (String.length s1 <? String.length s)%nat eqn:E; [|destruct H2].
      apply Nat.ltb_lt in E. apply IH in H2. lia. }
    destruct greedy.
    + rewrite in_app_iff. intros [H|[<-|[]]]; [auto|simpl; lia].
    + intros [<-|H]; [simpl; lia|auto].
Qed.

Lemma matches_length r : forall s c x,
  In x (matches r s c) -> (String.length (fst x) <= String.length s)%nat.
Proof.
  induction r as [|p|l|r1 IH1 r2 IH2|r1 IH1 r2 IH2|g r IH|n r IH];
    intros s c x; simpl.
  - intros [<-|[]]. simpl. lia.
  - destruct s as [|a s]; [intros []|].
    destruct (p a); [|intros []]. intros [<-|[]]. simpl. lia.
  - destruct (Str.strip_prefix l s) as [s'|] eqn:E; [|intros []].
    intros [<-|[]]. simpl. now apply strip_prefix_length in E.
  - rewrite in_flat_map. intros ([s1 c1] & H1 & H2).
    apply IH1 in H1. apply IH2 in H2. simpl in *. lia.
  - rewrite in_app_iff. intros [H|H]; eauto.
  - apply star_loop_length. exact IH.
  - rewrite in_map_iff. intros ([s1 c1] & <- & H). apply IH in H. exact H.
Qed.

Lemma consumes_Plus_Chr p : consumes (Plus (Chr p)).
Proof.
  intros s c x. unfold Plus. cbn [matches]. rewrite in_flat_map.
  intros ([s1 c1] & H1 & H2).
  destruct s as [|a s]; [destruct H1|].
  destruct (p a); [|destruct H1]. destruct H1 as [[= <- <-]|[]].
  apply (matches_length (Star true (Chr p))) in H2. simpl in *. lia.
Qed.

Lemma captured_group n c : captured n c -> group n c <> EmptyString.
Proof. intros (a & v & E). unfold group. now rewrite E. Qed.

Lemma take_nonempty k s :
  (0 < k)%nat -> (0 < String.length s)%nat ->
  exists a v, Str.take k s = String a v.
Proof. destruct k, s; simpl; try lia. eauto. Qed.

Lemma matches_Group_captured n r :
  consumes r ->
  forall s c x, In x (matches (Group n r) s c) -> captured n (snd x).
Proof.
  intros Hr s c x. cbn [matches]. rewrite in_map_iff.
  intros ([s1 c1] & <- & H). apply Hr in H. simpl in *.
  destruct (take_nonempty (String.length s - String.length s1) s)
    as (a & v & E); [lia..|].
  exists a, v. rewrite E. apply lookup_insert_eq.
Qed.

Lemma matches_Seq_Lit_keeps (P : caps -> Prop) r l :
  (forall s c x, In x (matches r s c) -> P (snd x)) ->
  forall s c x, In x (matches (Seq r (Lit l)) s c) -> P (snd x).
Proof.
  intros Hr s c x. cbn [matches]. rewrite in_flat_map.
  intros ([s1 c1] & H1 & H2). apply Hr in H1. simpl in *.
  destruct (Str.strip_prefix l s1); [|destruct H2].
  destruct H2 as [<-|[]]. exact H1.
Qed.

Lemma matches_Seq_tail (P : caps -> Prop) r1 r2 :
  (forall s c x, In x (matches r2 s c) -> P (snd x)) ->
  forall s c x, In x (matches (Seq r1 r2) s c) -> P (snd x).
Proof.
  intros Hr s c x. cbn [matches]. rewrite in_flat_map.
  intros ([s1 c1] & H1 & H2). eapply Hr; eauto.
Qed.

Lemma search_rest_matches r s x :
  search_rest r s = Some x -> exists t, In x (matches r t ∅).
Proof.
  induction s as [|a s IH]; simpl.
  - destruct (matches r EmptyString ∅) as [|y l] eqn:E; [discriminate|].
    intros [= <-]. exists EmptyString. rewrite E. now left.
  - destruct (matches r (String a s) ∅) as [|y l] eqn:E; [exact IH|].
    intros [= <-]. exists (String a s). rewrite E. now left.
Qed.

Lemma search_matches (P : caps -> Prop) r :
  (forall s c x, In x (matches r s c) -> P (snd x)) ->
  forall s m, search r s = Some m -> P m.
Proof.
  intros Hr s m. unfold search.
  destruct (search_rest r s) as [x|] eqn:E; [|discriminate].
  intros [= <-]. apply search_rest_matches in E as [t Ht]. eauto.
Qed.

Lemma software_version_captured s m :
  search Pat.software_version s = Some m -> group 1 m <> EmptyString.
Proof.
  intros H. apply captured_group. revert s m H. apply search_matches.
  unfold Pat.software_version. cbn [seqs].
  do 5 apply matches_Seq_tail. apply matches_Seq_Lit_keeps.
  apply matches_Group_captured, consumes_Plus_Chr.
Qed.

Lemma version_class_captured s m :
  search Pat.version_class s = Some m -> group 1 m <> EmptyString.
Proof.
  intros H. apply captured_group. revert s m H. apply search_matches.
  unfold Pat.version_class. cbn [seqs].
  do 3 apply matches_Seq_tail. apply matches_Seq_Lit_keeps.
  apply matches_Group_captured, consumes_Plus_Chr.
Qed.

(** The matcher's loops are bounded by the length of the text, so the
    bound it is given never cuts a match short. *)

Lemma flat_map_nil {A B} (f : A -> list B) l :
  (forall a, f a = []) -> flat_map f l = [].
Proof.
  intros H. induction l as [|a l IH]; cbn; [reflexivity|].
  now rewrite H, IH.
Qed.

Lemma star_loop_fuel step greedy : forall f1 f2 s c,
  (String.length s <= f1)%nat -> (String.length s <= f2)%nat ->
  star_loop step greedy f1 s c = star_loop step greedy f2 s c.
Proof.
  assert (Hzero : forall f s c,
             String.length s = O ->
             star_loop step greedy f s c = [(s, c)]).
  { intros [|f] s c Hs; cbn [star_loop]; [reflexivity|].
    rewrite flat_map_nil.
    - now destruct greedy.
    - intros sc. rewrite Hs. reflexivity. }
  induction f1 as [|f1 IH]; intros f2 s c H1 H2.
  - rewrite (Hzero 0%nat), (Hzero f2) by lia. reflexivity.
  - destruct f2 as [|f2].
    + rewrite (Hzero (S f1)), (Hzero 0%nat) by lia. reflexivity.
    + cbn [star_loop].
      rewrite (flat_map_ext
                 (fun sc : string * caps =>
                    if (String.length (fst sc) <? String.length s)%nat
                    then star_loop step greedy f1 (fst sc) (snd sc) else [])
                 (fun sc : string * caps =>
                    if (String.length (fst sc) <? String.length s)%nat
                    then star_loop step greedy f2 (fst sc) (snd sc) else []));
        [reflexivity|].
      intros sc.
      destruct (String.length (fst sc) <? String.length s)%nat eqn:E;
        [|reflexivity].
      apply Nat.ltb_lt in E. apply IH; lia.
Qed.

Lemma consumes_no_match_on_empty r c :
  consumes r -> matches r EmptyString c = [].
Proof.
  intros Hr. destruct (matches r EmptyString c) as [|x l] eqn:E; [reflexivity|].
  assert (H : In x (matches r EmptyString c)) by (rewrite E; now left).
  apply Hr in H. cbn in H. lia.
Qed.

Lemma findall_fuel_enough r :
  consumes r ->
  forall f1 f2 s,
    (String.length s <= f1)%nat -> (String.length s <= f2)%nat ->
    findall_fuel f1 r s = findall_fuel f2 r s.
Proof.
  intros Hr.
  assert (Hzero : forall f s, String.length s = O -> findall_fuel f r s = []).
  { intros [|f] [|a s] Hs; cbn [findall_fuel]; try reflexivity;
      [|discriminate].
    cbn [search_rest]. now rewrite consumes_no_match_on_empty. }
  induction f1 as [|f1 IH]; intros f2 s H1 H2.
  - rewrite (Hzero 0%nat), (Hzero f2) by lia. reflexivity.
  - destruct f2 as [|f2].
    + rewrite (Hzero (S f1)), (Hzero 0%nat) by lia. reflexivity.
    + cbn [findall_fuel].
      destruct (search_rest r s) as [[rest c]|]; [|reflexivity].
      destruct (String.length rest <? String.length s)%nat eqn:E;
        [|reflexivity].
      apply Nat.ltb_lt in E. f_equal. apply IH; lia.
Qed.

Lemma consumes_Seq_l r1 r2 : consumes r1 -> consumes (Seq r1 r2).
Proof.
  intros H1 s c x. cbn [matches]. rewrite in_flat_map.
  intros ([s1 c1] & Hx1 & Hx2). apply H1 in Hx1.
  apply matches_length in Hx2. cbn in *. lia.
Qed.

Lemma consumes_Lit a l : consumes (Lit (String a l)).
Proof.
  intros s c x. cbn [matches].
  destruct s as [|b s]; cbn [Str.strip_prefix]; [intros []|].
  destruct (Str.eqb_char a b); [|intros []].
  destruct (Str.strip_prefix l s) as [s'|] eqn:E; [|intros []].
  intros [<-|[]]. apply strip_prefix_length in E. cbn. lia.
Qed.

Lemma link_patterns_consume :
  consumes Pat.app_link /\ consumes Pat.r2_link /\ consumes Pat.d_link.
Proof.
  repeat split; apply consumes_Seq_l; apply consumes_Lit.
Qed.

Example greedy_and_lazy :
  List.map fst (matches (Star true (Chr any)) "ab" ∅) = [""; "b"; "ab"]
  /\ List.map fst (matches (Star false (Chr any)) "ab" ∅) = ["ab"; "b"; ""].
Proof. split; reflexivity. Qed.

End RegexFacts.

(** *** Counting classes *)

Section ClassCount.

Variable X : externals.

Lemma unpack_from_I_nonneg data off n :
  unpack_from_I data off = inr n -> 0 <= n.
Proof.
  unfold unpack_from_I.
  destruct (firstn 4 (skipn off data)) as [|b0 [|b1 [|b2 [|b3 [|b4 l]]]]];
    simpl; try discriminate.
  intros [= <-]. lia.
Qed.

Lemma unpack_from_I_short data off :
  (length data < off + 4)%nat -> unpack_from_I data off = inl StructError.
Proof.
  intros H. unfold unpack_from_I.
  assert (L : (length (firstn 4 (skipn off data)) < 4)%nat).
  { rewrite length_firstn, length_skipn. lia. }
  destruct (firstn 4 (skipn off data)) as [|b0 [|b1 [|b2 [|b3 l]]]];
    simpl in *; try reflexivity; lia.
Qed.

Lemma dex_classes_nonneg data n : dex_classes data = inr n -> 0 <= n.
Proof.
  unfold dex_classes.
  destruct ((96 <=? length data)%nat && dex_magic data).
  - apply unpack_from_I_nonneg.
  - intros [= <-]. lia.
Qed.

Lemma count_inner_nonneg inner names total :
  0 <= total -> 0 <= fst (count_inner inner names total).
Proof.
  revert total. induction names as [|n names IH]; intros total H; simpl; [exact H|].
  destruct (Str.endswith ".dex" n); [|auto].
  destruct (read inner n) as [e|d]; [exact H|].
  destruct (dex_classes d) as [e|k] eqn:E; [exact H|].
  apply IH. apply dex_classes_nonneg in E. lia.
Qed.

Lemma count_outer_nonneg zf names total :
  0 <= total -> 0 <= fst (count_outer X zf names total).
Proof.
  revert total. induction names as [|n names IH]; intros total H; simpl; [exact H|].
  destruct (Str.endswith ".dex" n).
  - destruct (read zf n) as [e|d]; [exact H|].
    destruct (dex_classes d) as [e|k] eqn:E; [exact H|].
    apply IH. apply dex_classes_nonneg in E. lia.
  - destruct (Str.endswith ".apk" n); [|auto].
    destruct (read zf n) as [e|d]; [exact H|].
    apply IH. destruct (ZipFile X d); [exact H|].
    now apply count_inner_nonneg.
Qed.

Lemma monitor_raw_only polls last m :
  In m (monitor_decompile_progress polls 0 last) ->
  exists count, m = MDecompiledCount count.
Proof.
  revert last. induction polls as [|p polls IH]; intros last; simpl; [tauto|].
  destruct (count_java_files_fast p) as [e|c]; [apply IH|].
  case_bool_decide; [|apply IH].
  simpl. intros [<-|Hin]; [eauto|]. eapply IH; eauto.
Qed.

(** One round of the outer loop of [count_dex_classes] on an entry
    that adds nothing. *)
Lemma count_outer_malformed_dex zf name rest total data :
  Str.endswith ".dex" name = true -> read zf name = inr data ->
  (length data < 96)%nat \/ dex_magic data = false ->
  count_outer X zf (name :: rest) total = count_outer X zf rest total.
Proof.
  intros Hn Hr Hbad. cbn [count_outer]. rewrite Hn, Hr. unfold dex_classes.
  replace ((96 <=? length data)%nat && dex_magic data) with false.
  - now rewrite Z.add_0_r.
  - symmetry. apply andb_false_iff.
    destruct Hbad as [H| ->]; [left; apply Nat.leb_gt; exact H|now right].
Qed.

Lemma count_outer_truncated_dex zf name rest total data :
  Str.endswith ".dex" name = true -> read zf name = inr data ->
  (96 <= length data < 100)%nat -> dex_magic data = true ->
  count_outer X zf (name :: rest) total = (total, Some StructError).
Proof.
  intros Hn Hr Hlen Hmagic. cbn [count_outer]. rewrite Hn, Hr.
  unfold dex_classes. rewrite Hmagic, andb_true_r.
  replace (96 <=? length data)%nat with true
    by (symmetry; apply Nat.leb_le; lia).
  now rewrite unpack_from_I_short by lia.
Qed.

Lemma count_outer_unreadable_entry zf name rest total e :
  Str.endswith ".dex" name = true \/ Str.endswith ".apk" name = true ->
  read zf name = inl e ->
  count_outer X zf (name :: rest) total = (total, Some e).
Proof.
  intros Hn Hr. cbn [count_outer]. rewrite Hr.
  destruct (Str.endswith ".dex" name); [reflexivity|].
  destruct Hn as [Hn|Hn]; [discriminate|]. now rewrite Hn.
Qed.

Lemma count_outer_bad_nested zf name rest total nested e :
  Str.endswith ".dex" name = false -> Str.endswith ".apk" name = true ->
  read zf name = inr nested -> ZipFile X nested = inl e ->
  count_outer X zf (name :: rest) total = count_outer X zf rest total.
Proof.
  intros Hd Ha Hr Hz. cbn [count_outer]. now rewrite Hd, Ha, Hr, Hz.
Qed.

(** C10.  [count_dex_classes] is total: for every file and every world
    it returns a non-negative integer, raises nothing and changes
    nothing.  An unreadable file or a file that is no archive gives 0;
    inside an archive, a DEX entry that is too short or lacks the magic
    adds 0 and the count goes on, an entry that cannot be read or whose
    header is cut before the class count ends the count with what was
    added so far, and a nested container that is no archive adds 0 and
    the count goes on.  With a result of 0 the progress monitor prints
    raw counts only, never a percentage. *)
Theorem count_dex_classes_total (apk : apk_path) (w : world) :
  exists n,
    count_dex_classes X apk w = (Ok n, w, []) /\ 0 <= n
    /\ (read_apk apk w = None -> n = 0)
    /\ (forall bytes e,
          read_apk apk w = Some bytes -> ZipFile X bytes = inl e -> n = 0)
    /\ (forall bytes zf,
          read_apk apk w = Some bytes -> ZipFile X bytes = inr zf ->
          n = fst (count_outer X zf (namelist zf) 0))
    /\ (forall zf name rest total data,
          Str.endswith ".dex" name = true -> read zf name = inr data ->
          (length data < 96)%nat \/ dex_magic data = false ->
          count_outer X zf (name :: rest) total = count_outer X zf rest total)
    /\ (forall zf name rest total data,
          Str.endswith ".dex" name = true -> read zf name = inr data ->
          (96 <= length data < 100)%nat -> dex_magic data = true ->
          count_outer X zf (name :: rest) total = (total, Some StructError))
    /\ (forall zf name rest total e,
          Str.endswith ".dex" name = true \/ Str.endswith ".apk" name = true ->
          read zf name = inl e ->
          count_outer X zf (name :: rest) total = (total, Some e))
    /\ (forall zf name rest total nested e,
          Str.endswith ".dex" name = false -> Str.endswith ".apk" name = true ->
          read zf name = inr nested -> ZipFile X nested = inl e ->
          count_outer X zf (name :: rest) total = count_outer X zf rest total)
    /\ (forall polls last m,
          n = 0 -> In m (monitor_decompile_progress polls n last) ->
          exists count, m = MDecompiledCount count).
Proof.
  assert (Hraw : forall n polls last m,
             n = 0 -> In m (monitor_decompile_progress polls n last) ->
             exists count, m = MDecompiledCount count)
    by (intros ? ? ? ? ->; apply monitor_raw_only).
  assert (Hsteps :
            (forall zf name rest total data,
                Str.endswith ".dex" name = true -> read zf name = inr data ->
                (length data < 96)%nat \/ dex_magic data = false ->
                count_outer X zf (name :: rest) total
                = count_outer X zf rest total)
            /\ (forall zf name rest total data,
                   Str.endswith ".dex" name = true -> read zf name = inr data ->
                   (96 <= length data < 100)%nat -> dex_magic data = true ->
                   count_outer X zf (name :: rest) total
                   = (total, Some StructError))
            /\ (forall zf name rest total e,
                   Str.endswith ".dex" name = true
                   \/ Str.endswith ".apk" name = true ->
                   read zf name = inl e ->
                   count_outer X zf (name :: rest) total = (total, Some e))
            /\ (forall zf name rest total nested e,
                   Str.endswith ".dex" name = false ->
                   Str.endswith ".apk" name = true ->
                   read zf name = inr nested -> ZipFile X nested = inl e ->
                   count_outer X zf (name :: rest) total
                   = count_outer X zf rest total)).
  { split; [exact count_outer_malformed_dex|].
    split; [exact count_outer_truncated_dex|].
    split; [exact count_outer_unreadable_entry|exact count_outer_bad_nested]. }
  destruct Hsteps as (S1 & S2 & S3 & S4).
  unfold count_dex_classes, bind, get_world, ret. simpl.
  destruct (read_apk apk w) as [bytes|] eqn:R.
  - destruct (ZipFile X bytes) as [e|zf] eqn:Z; simpl.
    + exists 0. split; [reflexivity|]. split; [lia|].
      split; [reflexivity|]. split; [reflexivity|].
      split; [congruence|]. repeat (split; [assumption|]). apply Hraw.
    + eexists. split; [reflexivity|].
      split; [apply count_outer_nonneg; lia|].
      split; [discriminate|]. split; [congruence|].
      split; [congruence|]. repeat (split; [assumption|]). apply Hraw.
  - exists 0. split; [reflexivity|]. split; [lia|].
    split; [reflexivity|]. split; [discriminate|].
    split; [discriminate|]. repeat (split; [assumption|]). apply Hraw.
Qed.

End ClassCount.

(** *** The decompiler and its monitor *)

Section Progress.

Variable X : externals.

Lemma percent_cap count total : (percent count total <= 999 # 10)%Q.
Proof. unfold percent. apply Q.le_min_r. Qed.

Lemma percent_below_100 count total : (percent count total < 100)%Q.
Proof.
  eapply Qle_lt_trans; [apply percent_cap|]. reflexivity.
Qed.

Lemma percent_mono c1 c2 total :
  0 < total -> c1 <= c2 -> (percent c1 total <= percent c2 total)%Q.
Proof.
  intros Ht Hc. unfold percent.
  apply Q.min_le_compat_r.
  apply Qmult_le_compat_r; [|discriminate].
  unfold Qdiv. apply Qmult_le_compat_r.
  - rewrite <- Zle_Qle. exact Hc.
  - apply Qinv_le_0_compat. rewrite <- (Zle_Qle 0). lia.
Qed.

Lemma monitor_reports polls total last m :
  In m (monitor_decompile_progress polls total last) ->
  (exists count, m = MProgress (percent count total) count total /\ 0 < total)
  \/ (exists count, m = MDecompiledCount count /\ total <= 0).
Proof.
  revert last. induction polls as [|p polls IH]; intros last; simpl; [tauto|].
  destruct (count_java_files_fast p) as [e|c]; [apply IH|].
  case_bool_decide; [|apply IH].
  intros [<-|Hin]; [|eapply IH; eauto].
  destruct (0 <? total) eqn:E.
  - left. exists c. split; [reflexivity|]. now apply Z.ltb_lt.
  - right. exists c. split; [reflexivity|]. now apply Z.ltb_ge.
Qed.

Lemma monitor_raw_no_percentages polls total last :
  total <= 0 ->
  reported_percentages (monitor_decompile_progress polls total last) = [].
Proof.
  intros Ht. revert last.
  induction polls as [|p polls IH]; intros last; simpl; [reflexivity|].
  destruct (count_java_files_fast p) as [e|c]; [apply IH|].
  case_bool_decide; [|apply IH].
  destruct (0 <? total) eqn:E; [apply Z.ltb_lt in E; lia|].
  simpl. apply IH.
Qed.

Lemma monitor_sorted polls total last :
  StronglySorted Z.le (last :: observed_counts polls) ->
  StronglySorted Qle
    (percent last total :: reported_percentages
                             (monitor_decompile_progress polls total last)).
Proof.
  destruct (Z_lt_le_dec 0 total) as [Ht|Ht];
    [|intros _; rewrite monitor_raw_no_percentages by exact Ht;
      repeat constructor].
  revert last. induction polls as [|p polls IH]; intros last HS; simpl.
  - repeat constructor.
  - simpl in HS. destruct (count_java_files_fast p) as [e|c]; [now apply IH|].
    inversion HS as [|? ? HS' HF]; subst.
    inversion HF as [|? ? Hlc HF']; subst.
    case_bool_decide as Hne.
    + apply Z.ltb_lt in Ht as E. rewrite E. simpl.
      specialize (IH c HS').
      constructor; [exact IH|].
      constructor; [now apply percent_mono|].
      inversion IH as [|? ? _ HF2]; subst.
      eapply Forall_impl; [exact HF2|].
      intros q Hq. eapply Qle_trans; [|exact Hq]. now apply percent_mono.
    + apply IH. constructor; [inversion HS'; assumption | exact HF'].
Qed.

Lemma monitor_progress_lines polls total last :
  progress_lines (monitor_decompile_progress polls total last)
  = monitor_decompile_progress polls total last.
Proof.
  revert last. induction polls as [|p polls IH]; intros last; simpl; [reflexivity|].
  destruct (count_java_files_fast p) as [e|c]; [apply IH|].
  case_bool_decide; [|apply IH].
  unfold progress_lines in *. simpl.
  destruct (0 <? total); simpl; now rewrite IH.
Qed.

Lemma count_dex_classes_run apk w :
  count_dex_classes X apk w = (Ok (expected_classes X apk w), w, []).
Proof.
  unfold count_dex_classes, expected_classes. mstep.
  destruct (read_apk apk w) as [bytes|]; [|reflexivity].
  now destruct (ZipFile X bytes) as [e|zf].
Qed.

Lemma expected_classes_nonneg apk w : 0 <= expected_classes X apk w.
Proof.
  unfold expected_classes.
  destruct (read_apk apk w) as [bytes|]; [|lia].
  destruct (ZipFile X bytes) as [e|zf]; [lia|].
  apply count_outer_nonneg. lia.
Qed.

Lemma expected_classes_apks apk w1 w2 :
  apks w1 = apks w2 -> expected_classes X apk w1 = expected_classes X apk w2.
Proof. unfold expected_classes, read_apk. now intros ->. Qed.

Lemma bind_count_dex_classes {B} apk (k : Z -> M B) w :
  bind (count_dex_classes X apk) k w = k (expected_classes X apk w) w.
Proof.
  unfold bind. rewrite count_dex_classes_run.
  now destruct (k _ w) as [[? ?] ?].
Qed.

Lemma get_jdk_home_run w : exists h, get_jdk_home X w = (Ok h, w, []).
Proof.
  unfold get_jdk_home. rewrite bind_get_world.
  destruct (jdk_dir w) as [[|d l]|]; eauto.
Qed.

Lemma bind_get_jdk_home {B} (k : option string -> M B) w :
  exists h, bind (get_jdk_home X) k w = k h w.
Proof.
  destruct (get_jdk_home_run w) as [h E]. exists h.
  unfold bind. rewrite E. now destruct (k h w) as [[? ?] ?].
Qed.

Lemma progress_lines_app o1 o2 :
  progress_lines (o1 ++ o2) = progress_lines o1 ++ progress_lines o2.
Proof. apply List.filter_app. Qed.

Lemma decompile_apk_run apk package threads w :
  let total := expected_classes X apk w in
  exists env w_run o_pre o_post,
    let cmd := jadx_cmd X apk package threads in
    let run := subprocess_run X w_run cmd env in
    let w' :=
      World (versions w) (apks w) (<[package := produced run]> (sources w))
            (jdk_dir w) (environ w)
            (EvRun cmd 1800 :: EvMkdirSources package
             :: (if bool_decide (is_Some (sources w !! package))
                 then [EvRmtreeSources package] else []) ++ events w) in
    progress_lines o_pre = [] /\ progress_lines o_post = []
    /\ decompile_apk X apk package threads w
       = match completed run with
         | inl e =>
             (Raise e, w',
              o_pre ++ monitor_decompile_progress (polls run) total 0)
         | inr _ =>
             (Ok (negb (rglob_count ".java" (produced run) =? 0)%nat), w',
              o_pre ++ monitor_decompile_progress (polls run) total 0
              ++ MProgress100 :: o_post)
         end.
Proof.
  intros total. unfold decompile_apk. rewrite bind_get_world.
  set (ex := bool_decide (is_Some (sources w !! package))).
  set (w1 := if ex then set_sources (delete package)
                         (log_event (EvRmtreeSources package) w) else w).
  assert (E1 : forall B (k : unit -> M B),
             bind (when ex (rmtree_sources package)) k w = k tt w1).
  { intros B k. subst w1. destruct ex; simpl.
    - unfold rmtree_sources. rewrite bind_assoc. now mstep.
    - now mstep. }
  rewrite E1. unfold mkdir_sources. rewrite bind_assoc. mstep.
  rewrite bind_count_dex_classes.
  match goal with |- context [expected_classes X apk ?w2] =>
    replace (expected_classes X apk w2) with total
      by (apply expected_classes_apks; subst w1; now destruct ex) end.
  mstep.
  match goal with |- context [bind (get_jdk_home X) ?k ?w] =>
    destruct (bind_get_jdk_home k w) as (home & ->) end.
  mstep.
  set (w_run := set_sources _ _).
  set (env := jadx_env _ _ _).
  exists env, w_run.
  exists ((if negb (total =? 0) then [MFoundClasses total] else [])
          ++ [MDecompilingWith threads]).
  destruct (completed (subprocess_run X w_run _ env)) as [e|[stdout stderr]] eqn:C.
  2: { mstep. cbn [sources set_sources log_event].
    rewrite lookup_insert_eq.
    exists ((if Str.truthy stdout then [MTail stdout] else [])
            ++ (if Str.truthy stderr then [MTail stderr] else [])
            ++ MOutput (rglob_count ".java" (produced (subprocess_run X w_run (jadx_cmd X apk package threads) env)))
                       (rglob_count ".xml" (produced (subprocess_run X w_run (jadx_cmd X apk package threads) env)))
               :: (if (rglob_count ".java" (produced (subprocess_run X w_run (jadx_cmd X apk package threads) env)) =? 0)%nat
                   then [MNoJavaFiles] else [])).
    simpl.
    split; [now destruct (negb (total =? 0))|].
    split; [now destruct (Str.truthy stdout), (Str.truthy stderr),
              (rglob_count ".java" _ =? 0)%nat|].
    assert (W : set_sources
                  <[package:=produced (subprocess_run X w_run
                               (jadx_cmd X apk package threads) env)]>
                  (log_event (EvRun (jadx_cmd X apk package threads) 1800) w_run)
                = World (versions w) (apks w)
                    (<[package := produced (subprocess_run X w_run
                               (jadx_cmd X apk package threads) env)]> (sources w))
                    (jdk_dir w) (environ w)
                    (EvRun (jadx_cmd X apk package threads) 1800
                     :: EvMkdirSources package
                     :: (if ex then [EvRmtreeSources package] else [])
                     ++ events w)).
    { subst w_run w1. unfold set_sources, log_event.
      destruct ex; cbn; f_equal;
        now rewrite insert_insert_eq, ?insert_delete_eq. }
    rewrite W.
    destruct (rglob_count ".java" _ =? 0)%nat; mstep; cbn;
      now rewrite <- !app_assoc. }
  exists []. cbn [with_output raise].
    split; [now destruct (negb (total =? 0))|].
    split; [reflexivity|].
    f_equal; [f_equal|now rewrite app_nil_r, <- app_assoc].
    subst w_run w1. unfold set_sources, log_event.
    destruct ex; cbn; f_equal;
      now rewrite insert_insert_eq, ?insert_delete_eq.
Qed.
Lemma count_java_files_fast_nonneg :
  forall d k, count_java_files_fast d = inr k -> 0 <= k.
Proof.
  fix IH 1. intros [| |es] k; cbn [count_java_files_fast].
  - discriminate.
  - intros [= <-]. lia.
  - assert (G : forall count, 0 <= count ->
              (fix scan (es : list entry) (count : Z) {struct es} : exn + Z :=
                 match es with
                 | [] => inr count
                 | File name :: rest =>
                     scan rest (if Str.endswith ".java" name
                                then count + 1 else count)
                 | Dir _ sub :: rest =>
                     match count_java_files_fast sub with
                     | inl e => inl e
                     | inr k0 => scan rest (count + k0)
                     end
                 end) es count = inr k -> 0 <= k).
    { induction es as [|[name|name sub] rest IHes]; intros count Hc.
      - intros [= <-]. exact Hc.
      - apply IHes. destruct (Str.endswith ".java" name); lia.
      - destruct (count_java_files_fast sub) as [e|k0] eqn:E; [discriminate|].
        apply IHes. apply IH in E. lia. }
    apply G. lia.
Qed.

Lemma observed_counts_nonneg polls :
  Forall (Z.le 0) (observed_counts polls).
Proof.
  induction polls as [|p polls IH]; cbn; [constructor|].
  destruct (count_java_files_fast p) as [e|k] eqn:E; [exact IH|].
  constructor; [|exact IH]. now apply count_java_files_fast_nonneg in E.
Qed.

Lemma reported_percentages_app o1 o2 :
  reported_percentages (o1 ++ o2)
  = reported_percentages o1 ++ reported_percentages o2.
Proof.
  induction o1 as [|m o1 IH]; [reflexivity|].
  destruct m; cbn; rewrite ?IH; reflexivity.
Qed.

Lemma reported_percentages_progress_lines o :
  reported_percentages (progress_lines o) = reported_percentages o.
Proof.
  unfold progress_lines.
  induction o as [|m o IH]; [reflexivity|].
  destruct m; cbn; rewrite ?IH; reflexivity.
Qed.

(** C9, as the code has it.  In one [decompile_apk] invocation the
    progress lines printed are the reports of the monitor, followed by
    the 100% line when, and only when, the subprocess completed.  Each
    report of the monitor is [min(count / total * 100, 99.9)], which is
    below 100, when the expected class count [total] is positive, and
    the raw count when it is 0.  The reported percentages are
    non-decreasing whenever the counts the monitor observed are
    non-decreasing.  The subprocess did not complete exactly when
    [decompile_apk] ends with the exception [subprocess.run] raised,
    which is [TimeoutExpired] when the timeout expired.  The percentage
    is computed in exact rational arithmetic. *)
Theorem progress_reports apk package threads w r w' o :
  decompile_apk X apk package threads w = (r, w', o) ->
  let total := expected_classes X apk w in
  exists env w_run,
    let run := subprocess_run X w_run (jadx_cmd X apk package threads) env in
    let reports := monitor_decompile_progress (polls run) total 0 in
    progress_lines o
    = reports ++ match completed run with
                 | inr _ => [MProgress100]
                 | inl _ => []
                 end
    /\ (forall m, In m reports ->
          (exists count,
              m = MProgress (percent count total) count total
              /\ 0 < total /\ (percent count total < 100)%Q)
          \/ (exists count, m = MDecompiledCount count /\ total = 0))
    /\ (StronglySorted Z.le (observed_counts (polls run)) ->
        StronglySorted Qle (reported_percentages o))
    /\ (In MProgress100 o <-> exists out, completed run = inr out)
    /\ (forall e, completed run = inl e <-> r = Raise e).
Proof.
  intros E total.
  destruct (decompile_apk_run apk package threads w)
    as (env & w_run & o_pre & o_post & Hpre & Hpost & E').
  cbn zeta in E'. fold total in E'. rewrite E' in E. clear E'.
  exists env, w_run. cbn zeta.
  set (run := subprocess_run X w_run (jadx_cmd X apk package threads) env) in *.
  set (reports := monitor_decompile_progress (polls run) total 0) in *.
  assert (Hrep : forall m, In m reports ->
            (exists count,
                m = MProgress (percent count total) count total
                /\ 0 < total /\ (percent count total < 100)%Q)
            \/ (exists count, m = MDecompiledCount count /\ total = 0)).
  { intros m Hm. apply monitor_reports in Hm as [(c & -> & Ht)|(c & -> & Ht)].
    - left. exists c. repeat split; auto. apply percent_below_100.
    - right. exists c. split; [reflexivity|].
      pose proof (expected_classes_nonneg apk w). fold total in H. lia. }
  assert (Hsorted : StronglySorted Z.le (observed_counts (polls run)) ->
                    StronglySorted Qle (reported_percentages reports)).
  { intros HS.
    assert (HS0 : StronglySorted Z.le (0 :: observed_counts (polls run)))
      by (constructor; [exact HS|apply observed_counts_nonneg]).
    apply (monitor_sorted _ total) in HS0. now inversion HS0. }
  assert (Hno100 : ~ In MProgress100 reports).
  { intros H. apply Hrep in H as [(c & [=] & _)|(c & [=] & _)]. }
  assert (Hin : forall m l, In m l -> is_progress m = true ->
                            In m (progress_lines l)).
  { intros m l H1 H2. apply filter_In. auto. }
  assert (Hout : forall m l, progress_lines l = [] -> is_progress m = true ->
                             ~ In m l).
  { intros m l H1 H2 H3. apply (Hin m l H3) in H2. rewrite H1 in H2.
    destruct H2. }
  destruct (completed run) as [e0|[stdout stderr]] eqn:C;
    injection E as <- <- <-.
  - split.
    { rewrite !progress_lines_app.
      rewrite Hpre. unfold reports.
      rewrite monitor_progress_lines. now rewrite app_nil_r. }
    split; [exact Hrep|]. split.
    { intros HS. rewrite !reported_percentages_app.
      rewrite <- (reported_percentages_progress_lines o_pre), Hpre.
      now apply Hsorted. }
    split; [|intros e; split; congruence].
    split; [|intros (out & [=])]. intros H. exfalso.
    apply in_app_iff in H as [H|H]; [|now apply Hno100].
    now apply (Hout _ _ Hpre) in H.
  - split.
    { rewrite !progress_lines_app.
      change (progress_lines (MProgress100 :: o_post))
        with (MProgress100 :: progress_lines o_post).
      rewrite Hpre, Hpost. unfold reports.
      rewrite monitor_progress_lines. reflexivity. }
    split; [exact Hrep|]. split.
    { intros HS. rewrite !reported_percentages_app. cbn.
      rewrite <- (reported_percentages_progress_lines o_pre), Hpre.
      rewrite <- (reported_percentages_progress_lines o_post), Hpost.
      cbn. rewrite app_nil_r. now apply Hsorted. }
    split; [|intros e; split; discriminate].
    split; [eauto|]. intros _. in_solve.
Qed.
End Progress.

(** *** Download *)

Section Download.

Variable X : externals.

Lemma try_get_run {B} url t (f : exn -> message)
    (k : option response -> M B) w :
  bind (try_except (bind (get_ok X url t) (fun r => ret (Some r)))
                   (fun e => bind (print (f e)) (fun _ => ret None))) k w
  = match fetch X w url t with
    | inl e => with_output [f e] (k None (log_event (EvGet url t) w))
    | inr r => k (Some r) (log_event (EvGet url t) w)
    end.
Proof.
  unfold bind at 1. unfold try_except, get_ok.
  rewrite bind_assoc. mstep.
  destruct (fetch X w url t) as [e|r]; mstep; cbn.
  - now destruct (k None _) as [[? ?] ?].
  - now destruct (k (Some r) _) as [[? ?] ?].
Qed.

Lemma scratch_world_with package w :
  scratch_world package w = scratch_with package ∅ [] w.
Proof. reflexivity. Qed.

Lemma reset_scratch_run package w :
  reset_scratch package w = (Ok tt, scratch_world package w, []).
Proof.
  unfold reset_scratch, rmtree_apks, mkdir_apks, scratch_world.
  mstep. destruct (bool_decide (is_Some (apks w !! package))); cbn [when].
  - rewrite !bind_assoc. mstep. unfold bind, emit, modify; cbn.
    unfold set_apks, log_event; cbn. now rewrite insert_delete_eq.
  - mstep. reflexivity.
Qed.

Lemma bind_reset_scratch {B} package (k : unit -> M B) w :
  bind (reset_scratch package) k w = k tt (scratch_world package w).
Proof.
  unfold bind. rewrite reset_scratch_run.
  now destruct (k tt _) as [[? ?] ?].
Qed.

Lemma download_apk_run app_path package w :
  let url := BASE +:+ app_path +:+ "/download/apk" in
  download_apk X app_path package w =
  match fetch X (scratch_world package w) url None with
  | inl e =>
      (Ok None, scratch_with package ∅ [EvGet url None] w,
       [MDownloadPageFailed e])
  | inr page =>
      match select_link X (text page) with
      | None =>
          (Ok None, scratch_with package ∅ [EvGet url None] w,
           [MNoDownloadLinks])
      | Some dl_url =>
          fetch_payload X package url dl_url w
      end
  end.
Proof.
  intros url. unfold download_apk.
  rewrite bind_reset_scratch, try_get_run. fold url.
  destruct (fetch X (scratch_world package w) url None) as [e|page];
    [reflexivity|].
  destruct (select_link X (text page)) as [dl_url|]; [|reflexivity].
  mstep. rewrite try_get_run. unfold fetch_payload.
  change (log_event (EvGet url None) (scratch_world package w))
    with (scratch_with package ∅ [EvGet url None] w).
  destruct (fetch X _ dl_url (Some 300)) as [e|r]; [reflexivity|].
  cbn zeta. unfold write_apk.
  destruct (fname_error X package (choose_fname r package)) as [e|];
    [reflexivity|].
  rewrite bind_assoc. mstep. cbn [apks log_event scratch_with].
  rewrite lookup_insert_eq. rewrite !bind_assoc. mstep.
  destruct (too_small (content r)).
  - mstep. unfold unlink_apk. rewrite !bind_assoc. mstep. cbn.
    unfold scratch_with, set_apks, log_event; cbn.
    rewrite lookup_insert_eq, !insert_insert_eq.
    now rewrite delete_insert_eq, delete_empty.
  - mstep. cbn. unfold scratch_with, set_apks, log_event; cbn.
    now rewrite insert_insert_eq, insert_empty.
Qed.

Lemma too_small_iff data :
  too_small data = true <-> Z.of_nat (length data) < 524288.
Proof.
  unfold too_small, size_mb. rewrite negb_true_iff.
  rewrite <- not_true_iff_false, Qle_bool_iff.
  change (inject_Z (1024 * 1024)) with (1048576 # 1)%Q.
  unfold Qle, Qdiv, Qmult, Qinv, inject_Z. cbn. lia.
Qed.

Lemma performed_app evs w w' :
  events w' = evs ++ events w -> performed w w' = evs.
Proof.
  intros E. unfold performed. rewrite E, length_app.
  replace (length evs + length (events w) - length (events w))%nat
    with (length evs) by lia.
  rewrite firstn_app, firstn_all, Nat.sub_diag. cbn. apply app_nil_r.
Qed.

Lemma performed_scratch_with package dir evs w :
  performed w (scratch_with package dir evs w)
  = evs ++ EvMkdirApks package
        :: (if bool_decide (is_Some (apks w !! package))
            then [EvRmtreeApks package] else []).
Proof.
  apply performed_app. cbn. now rewrite <- app_assoc.
Qed.

(** C5.  In every download in which a payload of [size] bytes was
    written to the scratch directory: if [size] is below the floor of
    0.5 MB (524288 bytes) the file is deleted again, the scratch
    directory is empty and the download returns [None]; if [size] is at
    or above the floor the file is not deleted, is the content of the
    scratch directory, and its path is returned. *)
Theorem undersized_payload_rejected app_path package w r w' o fname size :
  download_apk X app_path package w = (r, w', o) ->
  In (EvWriteApk package fname size) (performed w w') ->
  (size < 524288 ->
   r = Ok None
   /\ In (EvUnlinkApk package fname) (performed w w')
   /\ apks w' !! package = Some ∅)
  /\ (524288 <= size ->
      r = Ok (Some (package, fname))
      /\ ~ In (EvUnlinkApk package fname) (performed w w')
      /\ exists data,
          apks w' !! package = Some {[fname := data]}
          /\ Z.of_nat (length data) = size).
Proof.
  rewrite download_apk_run.
  set (ex := bool_decide (is_Some (apks w !! package))).
  assert (Hex : forall e, In e (if ex then [EvRmtreeApks package] else []) ->
                          e = EvRmtreeApks package).
  { intros e. destruct ex; cbn; intuition. }
  destruct (fetch X _ _ None) as [e|page].
  { intros [= <- <- <-]. rewrite performed_scratch_with. cbn.
    intros [H|[H|H]]; try discriminate. apply Hex in H. discriminate. }
  destruct (select_link X (text page)) as [dl_url|].
  2:{ intros [= <- <- <-]. rewrite performed_scratch_with. cbn.
      intros [H|[H|H]]; try discriminate. apply Hex in H. discriminate. }
  unfold fetch_payload.
  destruct (fetch X _ _ (Some 300)) as [e|resp].
  { intros [= <- <- <-]. rewrite performed_scratch_with. cbn.
    intros [H|[H|[H|H]]]; try discriminate. apply Hex in H. discriminate. }
  cbn zeta. destruct (fname_error _ _ _) as [e|].
  { intros [= <- <- <-]. rewrite performed_scratch_with. cbn.
    intros [H|[H|[H|H]]]; try discriminate. apply Hex in H. discriminate. }
  destruct (too_small (content resp)) eqn:Small.
  - intros [= <- <- <-]. rewrite performed_scratch_with. cbn.
    intros [H|[H|[H|[H|[H|H]]]]]; try discriminate;
      [|apply Hex in H; discriminate].
    injection H as <- <-. apply too_small_iff in Small.
    split; [|lia]. intros _. split; [reflexivity|].
    split; [now left|]. apply lookup_insert_eq.
  - intros [= <- <- <-]. rewrite performed_scratch_with. cbn.
    intros [H|[H|[H|[H|H]]]]; try discriminate;
      [|apply Hex in H; discriminate].
    injection H as <- <-.
    assert (~ Z.of_nat (length (content resp)) < 524288) as Big.
    { rewrite <- too_small_iff. congruence. }
    split; [lia|]. intros _. split; [reflexivity|].
    split.
    { intros [H|[H|[H|[H|H]]]]; try discriminate.
      apply Hex in H. discriminate. }
    exists (content resp). split; [apply lookup_insert_eq|reflexivity].
Qed.

(** C6.  When the download page was fetched, the link shapes are tried
    in a fixed order: if the page has a storage-redirect link
    ([/r2?u=...]) the payload is requested from the first such link,
    whether or not a CDN-redirect link ([/d?u=...]) is present too;
    otherwise, if it has a CDN-redirect link, from the first such link;
    the payload request goes nowhere else.  With neither shape on the
    page no payload is requested and the download returns [None]. *)
Theorem link_priority app_path package w page :
  let url := BASE +:+ app_path +:+ "/download/apk" in
  fetch X (scratch_world package w) url None = inr page ->
  exists r w' o,
    download_apk X app_path package w = (r, w', o)
    /\ match List.map (Re.group 1) (Re.findall Pat.r2_link (text page)),
             List.map (Re.group 1) (Re.findall Pat.d_link (text page)) with
       | l :: _, _ =>
           forall u, In (EvGet u (Some 300)) (performed w w')
                     <-> u = BASE +:+ html_unescape X l
       | [], l :: _ =>
           forall u, In (EvGet u (Some 300)) (performed w w')
                     <-> u = html_unescape X l
       | [], [] =>
           r = Ok None
           /\ (forall u, ~ In (EvGet u (Some 300)) (performed w w'))
       end.
Proof.
  intros url Hpage.
  rewrite download_apk_run. fold url. rewrite Hpage.
  set (ex := bool_decide (is_Some (apks w !! package))).
  assert (Hex : forall e, In e (if ex then [EvRmtreeApks package] else []) ->
                          e = EvRmtreeApks package).
  { intros e. destruct ex; cbn; intuition. }
  assert (Hsel : forall dl_url,
             exists r w' o,
               fetch_payload X package url dl_url w = (r, w', o)
               /\ forall u, In (EvGet u (Some 300)) (performed w w')
                            <-> u = dl_url).
  { intros dl_url. unfold fetch_payload.
    destruct (fetch X _ dl_url (Some 300)) as [e|r0]; cbn zeta;
      [|destruct (fname_error _ _ _); [|destruct (too_small _)]];
      (eexists _, _, _; split; [reflexivity|]);
      intros u; rewrite performed_scratch_with;
      (split; [intros H; in_cases H;
               try (apply Hex in H; discriminate); congruence
              |intros ->; in_solve]). }
  unfold select_link in *.
  destruct (List.map (Re.group 1) (Re.findall Pat.r2_link (text page)))
    as [|l r2]; [|apply Hsel].
  destruct (List.map (Re.group 1) (Re.findall Pat.d_link (text page)))
    as [|l d]; [|apply Hsel].
  eexists _, _, _. split; [reflexivity|]. split; [reflexivity|].
  intros u. rewrite performed_scratch_with. intros H. in_cases H.
  apply Hex in H. discriminate.
Qed.

End Download.

(** *** Processing one app *)

Section Process.

Variable X : externals.

Lemma check_version_run app_path w :
  check_version X app_path w =
  match fetch X w (BASE +:+ app_path) None with
  | inl e => (Ok None, log_event (EvGet (BASE +:+ app_path) None) w,
              [MVersionCheckFailed e])
  | inr r => (Ok (extract_version (text r)),
              log_event (EvGet (BASE +:+ app_path) None) w, [])
  end.
Proof.
  unfold check_version. rewrite try_get_run.
  destruct (fetch X w _ None); reflexivity.
Qed.

Lemma bind_check_version {B} a (k : option string -> M B) w :
  exists o,
    bind (check_version X (app_path a)) k w
    = with_output o (k (observed_version X a w)
                       (log_event (EvGet (BASE +:+ app_path a) None) w)).
Proof.
  unfold bind, observed_version. rewrite check_version_run.
  destruct (fetch X w _ None) as [e|r]; eexists; reflexivity.
Qed.

Lemma download_apk_cases app_path package w :
  exists r dir evs o,
    download_apk X app_path package w
    = (r, World (versions w) (<[package := dir]> (apks w)) (sources w)
                (jdk_dir w) (environ w) (evs ++ events w), o)
    /\ forallb fetch_event evs = true
    /\ In (EvGet (BASE +:+ app_path +:+ "/download/apk") None) evs
    /\ match r with
       | Ok None => dir = ∅
       | Ok (Some apk) =>
           fst apk = package
           /\ exists data, dir = {[snd apk := data]}
       | Raise _ => dir = ∅
       | OutOfFuel => False
       end.
Proof.
  rewrite download_apk_run. unfold scratch_with, scratch_world. cbn [events].
  set (ex := bool_decide (is_Some (apks w !! package))).
  set (url := BASE +:+ app_path +:+ "/download/apk").
  assert (Hex : forallb fetch_event (if ex then [EvRmtreeApks package] else [])
                = true) by now destruct ex.
  destruct (fetch X _ url None) as [e|page].
  { eexists _, _, (_ :: _ :: _), _. rewrite app_comm_cons.
    split; [reflexivity|]. cbn. split; [exact Hex|]. split; [now left|reflexivity]. }
  destruct (select_link X (text page)) as [dl_url|].
  2:{ eexists _, _, (_ :: _ :: _), _. split; [reflexivity|].
      cbn. split; [exact Hex|]. split; [now left|reflexivity]. }
  unfold fetch_payload.
  destruct (fetch X _ dl_url (Some 300)) as [e|resp].
  { eexists _, _, (_ :: _ :: _ :: _), _. split; [reflexivity|].
    cbn. split; [exact Hex|]. split; [now right; left|reflexivity]. }
  cbn zeta. destruct (fname_error _ _ _) as [e|].
  { eexists _, _, (_ :: _ :: _ :: _), _. split; [reflexivity|].
    cbn. split; [exact Hex|]. split; [now right; left|reflexivity]. }
  destruct (too_small (content resp)).
  - eexists _, _, (_ :: _ :: _ :: _ :: _ :: _), _. split; [reflexivity|].
    cbn. split; [exact Hex|]. split; [now do 3 right; left|reflexivity].
  - eexists _, _, (_ :: _ :: _ :: _ :: _), _. split; [reflexivity|].
    cbn. split; [exact Hex|]. split; [now do 2 right; left|].
    split; [reflexivity|]. eauto.
Qed.

Lemma bind_get_stored_version {B} package (k : option string -> M B) w :
  bind (get_stored_version package) k w
  = k ((fun contents => Str.strip (Str.universal_newlines contents))
         <$> versions w !! ver_file package) w.
Proof.
  unfold get_stored_version. rewrite bind_assoc. mstep.
  destruct (versions w !! ver_file package); now mstep.
Qed.

Lemma decompile_apk_cases apk package threads w :
  exists r produced rm o,
    decompile_apk X apk package threads w
    = (r, World (versions w) (apks w) (<[package := produced]> (sources w))
                (jdk_dir w) (environ w)
                (EvRun (jadx_cmd X apk package threads) 1800
                 :: EvMkdirSources package :: rm ++ events w), o)
    /\ (rm = [] \/ rm = [EvRmtreeSources package])
    /\ ((exists e, r = Raise e) \/ exists success, r = Ok success).
Proof.
  destruct (decompile_apk_run X apk package threads w)
    as (env & w_run & o_pre & o_post & _ & _ & E).
  cbn zeta in E. rewrite E.
  destruct (completed _).
  - eexists _, _, _, _. split; [reflexivity|].
    split; [destruct (bool_decide _); auto|]. left. eauto.
  - eexists _, _, _, _. split; [reflexivity|].
    split; [destruct (bool_decide _); auto|]. right. eauto.
Qed.

Lemma cleanup_run package w :
  cleanup package w
  = if bool_decide (is_Some (apks w !! package))
    then (Ok tt, set_apks (delete package)
                   (log_event (EvRmtreeApks package) w), [MCleanedUp])
    else (Ok tt, w, []).
Proof.
  unfold cleanup. mstep. destruct (bool_decide _); cbn [when]; [|reflexivity].
  unfold rmtree_apks. rewrite !bind_assoc. mstep. reflexivity.
Qed.

Lemma bind_cleanup_present {B} package d (k : unit -> M B) w :
  apks w !! package = Some d ->
  bind (cleanup package) k w
  = with_output [MCleanedUp]
      (k tt (set_apks (delete package) (log_event (EvRmtreeApks package) w))).
Proof.
  intros E. unfold bind. rewrite cleanup_run, E.
  rewrite bool_decide_eq_true_2 by eauto. reflexivity.
Qed.

Lemma bind_save_step {B} package cv success (k : unit -> M B) w :
  bind (match cv with
        | Some v =>
            when (success && Str.truthy v)
                 (bind (save_version X package v) (fun _ => print MVersionSaved))
        | None => ret tt
        end) k w
  = if success && known cv
    then with_output [MVersionSaved]
           (k tt (set_versions
                    <[ver_file package := write_text X (default EmptyString cv)]>
                    (log_event (EvSaveVersion (ver_file package)
                                  (default EmptyString cv)) w)))
    else k tt w.
Proof.
  destruct cv as [v|]; cbn [known default].
  - destruct (success && Str.truthy v); cbn [when]; [|now mstep].
    unfold save_version. rewrite !bind_assoc. mstep. reflexivity.
  - rewrite andb_false_r. now mstep.
Qed.

Lemma download_and_decompile_cases a cv threads w :
  let pkg := package a in
  exists r w' o evs evs_dl,
    download_and_decompile X a cv threads w = (r, w', o)
    /\ events w' = evs ++ events w
    /\ jdk_dir w' = jdk_dir w /\ environ w' = environ w
    /\ forallb fetch_event evs_dl = true
    /\ In (EvGet (BASE +:+ app_path a +:+ "/download/apk") None) evs_dl
    /\ ( ((r = Ok false \/ exists e, r = Raise e) /\ evs = evs_dl
           /\ versions w' = versions w /\ sources w' = sources w
           /\ apks w' = <[pkg := ∅]> (apks w))
         \/ ((exists e, r = Raise e)
             /\ (exists cmd rm,
                   evs = EvRun cmd 1800 :: EvMkdirSources pkg :: rm ++ evs_dl
                   /\ (rm = [] \/ rm = [EvRmtreeSources pkg]))
             /\ versions w' = versions w
             /\ exists fname data, apks w' = <[pkg := {[fname := data]}]> (apks w))
         \/ (exists success cmd rm,
               r = Ok success
               /\ evs = EvRmtreeApks pkg
                        :: (if success && known cv
                            then [EvSaveVersion (ver_file pkg)
                                    (default EmptyString cv)]
                            else [])
                        ++ EvRun cmd 1800 :: EvMkdirSources pkg :: rm ++ evs_dl
               /\ (rm = [] \/ rm = [EvRmtreeSources pkg])
               /\ versions w'
                  = (if success && known cv
                     then <[ver_file pkg := write_text X (default EmptyString cv)]>
                            (versions w)
                     else versions w)
               /\ apks w' = delete pkg (apks w)) ).
Proof.
  intros pkg. unfold download_and_decompile. mstep.
  destruct (download_apk_cases (app_path a) pkg w)
    as (rd & dir & evs_dl & od & Ed & Hf & Hin & Hr).
  unfold bind at 1. fold pkg. rewrite Ed.
  destruct rd as [[apk|]|e|]; [| | |destruct Hr].
  - (* fetched *)
    destruct Hr as (Hpkg & data & ->).
    mstep.
    match goal with |- context [bind (decompile_apk X apk _ threads) _ ?w2] =>
      destruct (decompile_apk_cases apk pkg threads w2)
        as (r & produced & rm & oc & Ec & Hrm & Hrc) end.
    unfold bind at 1. rewrite Ec. cbn [versions apks sources jdk_dir environ events] in *.
    destruct Hrc as [[e ->]|[success ->]].
    + eexists _, _, _, _, evs_dl. cbn [with_output].
      split; [reflexivity|]. cbn.
      split; [now rewrite !app_comm_cons, <- app_assoc|].
      do 4 (split; [try reflexivity; assumption|]).
      right; left. split; [eauto|].
      split; [eauto|]. split; [reflexivity|]. eauto.
    + rewrite bind_save_step.
      destruct (success && known cv) eqn:Saved.
      * erewrite bind_cleanup_present by apply lookup_insert_eq. mstep.
        eexists _, _, _, _, evs_dl. cbn [with_output].
        split; [reflexivity|]. cbn.
        split; [now rewrite !app_comm_cons, <- app_assoc|].
        do 4 (split; [try reflexivity; assumption|]).
        right; right. exists success, (jadx_cmd X apk pkg threads), rm.
        rewrite Saved. split; [reflexivity|]. split; [reflexivity|].
        split; [assumption|]. split; [reflexivity|].
        apply delete_insert_eq.
      * erewrite bind_cleanup_present by apply lookup_insert_eq. mstep.
        eexists _, _, _, _, evs_dl. cbn [with_output].
        split; [reflexivity|]. cbn.
        split; [now rewrite !app_comm_cons, <- app_assoc|].
        do 4 (split; [try reflexivity; assumption|]).
        right; right. exists success, (jadx_cmd X apk pkg threads), rm.
        rewrite Saved. split; [reflexivity|]. split; [reflexivity|].
        split; [assumption|]. split; [reflexivity|].
        apply delete_insert_eq.
  - subst dir. mstep. eexists _, _, _, _, evs_dl. cbn [with_output].
    split; [reflexivity|]. cbn.
    do 5 (split; [try reflexivity; assumption|]).
    left. repeat split; auto.
  - subst dir. eexists _, _, _, _, evs_dl. cbn [with_output].
    split; [reflexivity|]. cbn.
    do 5 (split; [try reflexivity; assumption|]).
    left. repeat split; eauto.
Qed.

Lemma process_app_cases a force threads w :
  let obs := observed_version X a w in
  let w1 := log_event (EvGet (BASE +:+ app_path a) None) w in
  (known obs = true /\ stored_version a w = obs /\ force = false
   /\ exists o, process_app X a force threads w = (Ok true, w1, o))
  \/ ((known obs = false \/ stored_version a w <> obs \/ force = true)
      /\ exists o_pre,
          process_app X a force threads w
          = with_output o_pre (download_and_decompile X a obs threads w1)).
Proof.
  intros obs w1. unfold process_app. mstep.
  destruct (bind_check_version a
              (fun current_version =>
                 if negb (known current_version)
                 then bind (print MCouldNotDetermine)
                        (fun _ => download_and_decompile X a current_version threads)
                 else bind (get_stored_version (package a))
                        (fun stored_version =>
                           bind (print (MCurrent (default EmptyString current_version)))
                             (fun _ => bind (print (MStored stored_version))
                                (fun _ =>
                                   if bool_decide (stored_version = current_version)
                                      && negb force
                                   then bind (print MUnchanged) (fun _ => ret true)
                                   else download_and_decompile X a current_version threads))))
              w) as [o1 ->].
  fold obs w1. destruct (known obs) eqn:K; cbn [negb].
  - rewrite bind_get_stored_version. mstep.
    change ((fun contents => Str.strip (Str.universal_newlines contents))
              <$> versions w1 !! ver_file (package a))
      with (stored_version a w).
    case_bool_decide as Eq; cbn [andb].
    + destruct force; cbn [negb].
      * right. split; [auto|].
        destruct (download_and_decompile X a obs threads w1) as [[r w'] o].
        exists (MCheckingVersion :: o1 ++ [MCurrent (default EmptyString obs);
                                           MStored (stored_version a w)]).
        cbn. now rewrite <- app_assoc.
      * left. mstep. cbn. eauto 10.
    + right. split; [auto|].
      destruct (download_and_decompile X a obs threads w1) as [[r w'] o].
      exists (MCheckingVersion :: o1 ++ [MCurrent (default EmptyString obs);
                                         MStored (stored_version a w)]).
      cbn. now rewrite <- app_assoc.
  - right. split; [auto|]. mstep.
    destruct (download_and_decompile X a obs threads w1) as [[r w'] o].
    exists (MCheckingVersion :: o1 ++ [MCouldNotDetermine]).
    cbn. now rewrite <- app_assoc.
Qed.

Lemma process_app_run a force threads w r w' o :
  process_app X a force threads w = (r, w', o) ->
  let pkg := package a in
  let obs := observed_version X a w in
  exists evs,
    performed w w' = evs ++ [EvGet (BASE +:+ app_path a) None]
    /\ ( (known obs = true /\ stored_version a w = obs /\ force = false
          /\ r = Ok true /\ evs = []
          /\ versions w' = versions w /\ apks w' = apks w
          /\ sources w' = sources w)
        \/ ((known obs = false \/ stored_version a w <> obs \/ force = true)
            /\ exists evs_dl,
                forallb fetch_event evs_dl = true
                /\ In (EvGet (BASE +:+ app_path a +:+ "/download/apk") None)
                      evs_dl
                /\ ( ((r = Ok false \/ exists e, r = Raise e)
                       /\ evs = evs_dl
                       /\ versions w' = versions w /\ sources w' = sources w
                       /\ apks w' = <[pkg := ∅]> (apks w))
                     \/ ((exists e, r = Raise e)
                         /\ (exists cmd rm,
                               evs = EvRun cmd 1800 :: EvMkdirSources pkg
                                     :: rm ++ evs_dl
                               /\ (rm = [] \/ rm = [EvRmtreeSources pkg]))
                         /\ versions w' = versions w
                         /\ exists fname data,
                             apks w' = <[pkg := {[fname := data]}]> (apks w))
                     \/ (exists success cmd rm,
                           r = Ok success
                           /\ evs = EvRmtreeApks pkg
                                 :: (if success && known obs
                                     then [EvSaveVersion (ver_file pkg)
                                             (default EmptyString obs)]
                                     else [])
                                 ++ EvRun cmd 1800 :: EvMkdirSources pkg
                                 :: rm ++ evs_dl
                           /\ (rm = [] \/ rm = [EvRmtreeSources pkg])
                           /\ versions w'
                              = (if success && known obs
                                 then <[ver_file pkg :=
                                          write_text X (default EmptyString obs)]>
                                        (versions w)
                                 else versions w)
                           /\ apks w' = delete pkg (apks w)) )) ).
Proof.
  intros E pkg obs. subst pkg obs.
  destruct (process_app_cases a force threads w)
    as [(K & S & F & o' & E')|(N & o_pre & E')]; rewrite E' in E.
  - injection E as <- <- <-. exists []. split; [now apply performed_app|].
    left. repeat split; auto.
  - destruct (download_and_decompile_cases a (observed_version X a w) threads
                (log_event (EvGet (BASE +:+ app_path a) None) w))
      as (r2 & w2 & o2 & evs & evs_dl & Ed & Hev & _ & _ & Hf & Hin & Hc).
    rewrite Ed in E. cbn in E. injection E as <- <- <-.
    exists evs. split.
    { apply performed_app. rewrite Hev. cbn. now rewrite <- app_assoc. }
    right. split; [exact N|]. exists evs_dl. split; [exact Hf|].
    split; [exact Hin|]. exact Hc.
Qed.

Lemma fetch_event_in evs e :
  forallb fetch_event evs = true -> In e evs -> fetch_event e = true.
Proof. rewrite forallb_forall. auto. Qed.

Lemma check_version_observed a w :
  fst (fst (check_version X (app_path a) w)) = Ok (observed_version X a w).
Proof.
  rewrite check_version_run. unfold observed_version.
  now destruct (fetch X w _ None).
Qed.

Lemma known_iff obs :
  known obs = true <-> exists v, obs = Some v /\ v <> EmptyString.
Proof.
  destruct obs as [[|c v]|]; cbn; split; try discriminate.
  - intros (v & [= <-] & H). now destruct H.
  - intros _. eexists. split; [reflexivity|discriminate].
  - reflexivity.
  - intros (v & [=] & _).
Qed.

(** C1.  In every run of [process_app] the version file of the app is
    written if and only if [check_version] returned a non-empty version
    string and the decompilation step succeeded, that is, the decompiler
    was run and [process_app] returns [True]; what is written is that
    string, to the file of this app and no other.  When the version
    file is written the versions directory afterwards is the former one
    with that entry set, to the string as [write_text] puts it on disk;
    when it is not written (decompilation failed or did not take place,
    or no version could be determined) the versions directory is
    unchanged. *)
Theorem ledger_written_iff a force threads w r w' o :
  process_app X a force threads w = (r, w', o) ->
  (forall file text,
     In (EvSaveVersion file text) (performed w w') <->
     file = ver_file (package a) /\ text <> EmptyString
     /\ fst (fst (check_version X (app_path a) w)) = Ok (Some text)
     /\ r = Ok true
     /\ exists cmd t, In (EvRun cmd t) (performed w w'))
  /\ (forall text,
        In (EvSaveVersion (ver_file (package a)) text) (performed w w') ->
        versions w' = <[ver_file (package a) := write_text X text]> (versions w))
  /\ ((forall file text, ~ In (EvSaveVersion file text) (performed w w')) ->
      versions w' = versions w).
Proof.
  intros E. apply process_app_run in E as (evs & -> & Hc).
  rewrite check_version_observed.
  set (obs := observed_version X a w) in *.
  destruct Hc as [(K & S & F & -> & -> & Hv & _)
                 |(N & evs_dl & Hf & Hin & Hc)].
  { (* unchanged *)
    split; [|split; [|auto]].
    - intros file text. split; [intros H; in_cases H|].
      intros (_ & _ & _ & _ & cmd & t & H). in_cases H.
    - intros text H. in_cases H. }
  assert (Hdl : forall e, In e evs_dl -> fetch_event e = true)
    by (intros e; now apply fetch_event_in).
  destruct Hc as [(Hr & -> & Hv & _)
                 |[((e & ->) & (cmd & rm & -> & Hrm) & Hv & _)
                  |(success & cmd & rm & -> & -> & Hrm & Hv & _)]].
  - (* the fetch failed *)
    split; [|split; [|auto]].
    + intros file text. split.
      * intros H. in_cases H. apply Hdl in H. discriminate.
      * intros (_ & _ & _ & _ & c & t & H). in_cases H.
        apply Hdl in H. discriminate.
    + intros text H. in_cases H. apply Hdl in H. discriminate.
  - (* the subprocess raised *)
    split; [|split; [|auto]].
    + intros file text. split; [|intros (_ & _ & _ & [=] & _)].
      intros H. destruct Hrm as [->| ->]; in_cases H;
        apply Hdl in H; discriminate.
    + intros text H. destruct Hrm as [->| ->]; in_cases H;
        apply Hdl in H; discriminate.
  - (* the decompiler returned *)
    assert (Hrest : forall file text,
               ~ In (EvSaveVersion file text)
                    ((EvRun cmd 1800 :: EvMkdirSources (package a)
                      :: rm ++ evs_dl) ++ [EvGet (BASE +:+ app_path a) None])).
    { intros file text H. destruct Hrm as [->| ->]; in_cases H;
        apply Hdl in H; discriminate. }
    destruct (success && known obs) eqn:Saved.
    + apply andb_true_iff in Saved as [-> K].
      apply known_iff in K as (v & Eo & Hne). rewrite Eo in *. cbn [default] in *.
      split; [|split].
      * intros file text. cbn [In Datatypes.app]. split.
        -- intros [H|[H|H]]; [discriminate| |].
           ++ injection H as <- <-. repeat split; auto.
              exists cmd, 1800. right; right. now left.
           ++ destruct (Hrest _ _ H).
        -- intros (-> & _ & [= ->] & _). right. now left.
      * intros text. cbn [In Datatypes.app].
        intros [H|[H|H]]; [discriminate| |].
        -- injection H as <-. exact Hv.
        -- destruct (Hrest _ _ H).
      * intros Hno. exfalso. eapply Hno. cbn [In Datatypes.app]. right. now left.
    + split; [|split; [|auto]].
      * intros file text. cbn [In Datatypes.app]. split.
        -- intros [H|H]; [discriminate|]. destruct (Hrest _ _ H).
        -- intros (_ & Hne & [= Eo] & [= ->] & _).
           rewrite Eo in Saved. cbn in Saved.
           destruct text; [now destruct Hne|discriminate].
      * intros text. cbn [In Datatypes.app].
        intros [H|H]; [discriminate|]. destruct (Hrest _ _ H).
Qed.

Lemma string_app_nil_r s : s +:+ EmptyString = s.
Proof.
  induction s as [|c s IH]; [reflexivity|].
  change (String c (s +:+ EmptyString) = String c s). now rewrite IH.
Qed.

Lemma download_url_differs p :
  BASE +:+ p +:+ "/download/apk" <> BASE +:+ p.
Proof.
  intros E. apply (inj (String.app BASE)) in E.
  rewrite <- (string_app_nil_r p) in E at 2.
  apply (inj (String.app p)) in E. discriminate.
Qed.

(** C3, as the code has it.  In every run of [process_app] in which the
    fetch succeeded, so that the decompiler was run, and the
    decompilation step returned (with success or with failure), the
    scratch directory of the app does not exist when [process_app]
    returns.  In a run in which the download page was requested and the
    decompiler was not run (the fetch failed), the scratch directory is
    still there, empty, when [process_app] ends. *)
Theorem scratch_deleted_after_decompile a force threads w r w' o :
  process_app X a force threads w = (r, w', o) ->
  ((exists cmd t, In (EvRun cmd t) (performed w w')) ->
   (exists success, r = Ok success) ->
   apks w' !! package a = None)
  /\ (In (EvGet (BASE +:+ app_path a +:+ "/download/apk") None)
         (performed w w') ->
      ~ (exists cmd t, In (EvRun cmd t) (performed w w')) ->
      apks w' !! package a = Some ∅).
Proof.
  intros E. apply process_app_run in E as (evs & -> & Hc).
  destruct Hc as [(K & S & F & -> & -> & Hv & _)
                 |(N & evs_dl & Hf & Hin & Hc)].
  { split.
    - intros (cmd & t & H). in_cases H.
    - intros H. in_cases H.
      assert (E : BASE +:+ app_path a +:+ "/download/apk"
                  = BASE +:+ app_path a) by congruence.
      now apply download_url_differs in E. }
  assert (Hdl : forall e, In e evs_dl -> fetch_event e = true)
    by (intros e; now apply fetch_event_in).
  destruct Hc as [(Hr & -> & Hv & _ & Ha)
                 |[((e & ->) & (cmd & rm & -> & Hrm) & Hv & _)
                  |(success & cmd & rm & -> & -> & Hrm & Hv & Ha)]].
  - split.
    + intros (cmd & t & H). in_cases H. apply Hdl in H. discriminate.
    + intros _ _. rewrite Ha. apply lookup_insert_eq.
  - split.
    + intros _ (success & [=]).
    + intros _ Hno. exfalso. apply Hno. exists cmd, 1800. in_solve.
  - split.
    + intros _ _. rewrite Ha. apply lookup_delete_eq.
    + intros _ Hno. exfalso. apply Hno. exists cmd, 1800. in_solve.
Qed.

(** C4, as the code has it.  Let [check_version] return the non-empty
    version [observed], and let the stored version be what
    [get_stored_version] returns: the text of the version file, read in
    text mode, with surrounding whitespace stripped.  If the stored
    version equals [observed] and [force] is not set, [process_app]
    returns [True], its only effect is the request of the version check
    (no fetch), and the three directories are unchanged.  If the stored
    version differs from [observed] (or [force] is set) the download
    page is requested (a fetch occurs), and when [process_app] then
    returns [True] (the decompilation succeeded) [observed] was written
    to the version file, which holds it as [write_text] puts it on
    disk. *)
Theorem version_gate a force threads w r w' o observed :
  process_app X a force threads w = (r, w', o) ->
  fst (fst (check_version X (app_path a) w)) = Ok (Some observed) ->
  observed <> EmptyString ->
  (fst (fst (get_stored_version (package a) w)) = Ok (Some observed) ->
   force = false ->
   r = Ok true
   /\ performed w w' = [EvGet (BASE +:+ app_path a) None]
   /\ versions w' = versions w /\ apks w' = apks w
   /\ sources w' = sources w)
  /\ (fst (fst (get_stored_version (package a) w)) <> Ok (Some observed)
      \/ force = true ->
      In (EvGet (BASE +:+ app_path a +:+ "/download/apk") None)
         (performed w w')
      /\ (r = Ok true ->
          In (EvSaveVersion (ver_file (package a)) observed) (performed w w')
          /\ versions w' !! ver_file (package a)
             = Some (write_text X observed))).
Proof.
  intros E. rewrite check_version_observed. intros [= Eo] Hne.
  assert (Es : fst (fst (get_stored_version (package a) w))
               = Ok (stored_version a w)).
  { unfold get_stored_version, stored_version. mstep.
    now destruct (versions w !! ver_file (package a)). }
  rewrite Es. clear Es.
  apply process_app_run in E as (evs & -> & Hc). rewrite Eo in Hc.
  assert (K : known (Some observed) = true)
    by (apply known_iff; eauto).
  destruct Hc as [(_ & S & F & -> & -> & Hv & Ha & Hs)
                 |(N & evs_dl & Hf & Hin & Hc)].
  { split; [auto 10|]. rewrite S, F. intros [H|H]; [now destruct H|discriminate]. }
  split.
  { intros [= S] F. exfalso.
    destruct N as [N|[N|N]]; congruence. }
  intros _.
  destruct Hc as [(Hr & -> & Hv & _ & Ha)
                 |[((e & ->) & (cmd & rm & -> & Hrm) & Hv & _)
                  |(success & cmd & rm & -> & -> & Hrm & Hv & Ha)]].
  - split; [in_solve|].
    intros ->. destruct Hr as [[=]|(e & [=])].
  - split; [in_solve|intros [=]].
  - split; [in_solve|].
    intros [= ->]. rewrite K in *. cbn [andb default] in *.
    split; [in_solve|]. rewrite Hv. apply lookup_insert_eq.
Qed.

End Process.

(** *** The version check *)

Section VersionCheck.

Variable X : externals.

(** C8, as the code has it.  [check_version] makes one request and
    never raises.  When the request fails it returns [None].  Otherwise
    it applies the two strategies in order: if the softwareVersion
    pattern matches, it returns its group, which is not empty;
    otherwise, if the version-element pattern matches, it returns its
    group, which is not empty, with surrounding whitespace stripped
    (so the value returned is empty when the group is all whitespace);
    otherwise it returns [None]. *)
Theorem check_version_strategies app_path w :
  let url := BASE +:+ app_path in
  let w1 := log_event (EvGet url None) w in
  match fetch X w url None with
  | inl e => check_version X app_path w = (Ok None, w1, [MVersionCheckFailed e])
  | inr r =>
      match Re.search Pat.software_version (text r) with
      | Some m =>
          check_version X app_path w = (Ok (Some (Re.group 1 m)), w1, [])
          /\ Re.group 1 m <> EmptyString
      | None =>
          match Re.search Pat.version_class (text r) with
          | Some m =>
              check_version X app_path w
              = (Ok (Some (Str.strip (Re.group 1 m))), w1, [])
              /\ Re.group 1 m <> EmptyString
          | None => check_version X app_path w = (Ok None, w1, [])
          end
      end
  end.
Proof.
  intros url w1. rewrite check_version_run. fold url w1.
  destruct (fetch X w url None) as [e|r]; [reflexivity|].
  unfold extract_version.
  destruct (Re.search Pat.software_version (text r)) as [m|] eqn:E1.
  { split; [reflexivity|]. eapply software_version_captured; eauto. }
  destruct (Re.search Pat.version_class (text r)) as [m|] eqn:E2;
    [|reflexivity].
  split; [reflexivity|]. eapply version_class_captured; eauto.
Qed.

End VersionCheck.

(** *** Discovery *)

Section Discovery.

Variable X : externals.

Lemma find_app {A} (f : A -> bool) l1 l2 :
  List.find f (l1 ++ l2)
  = match List.find f l1 with
    | Some x => Some x
    | None => List.find f l2
    end.
Proof.
  induction l1 as [|x l1 IH]; [reflexivity|]. cbn.
  destruct (f x); [reflexivity|exact IH].
Qed.

Lemma find_none_not_in (occ : list (string * string)) pkg :
  ~ In pkg (List.map fst occ) ->
  List.find (fun pd => String.eqb (fst pd) pkg) occ = None.
Proof.
  induction occ as [|[p d] occ IH]; [reflexivity|]. cbn. intros H.
  destruct (String.eqb_spec p pkg) as [->|Hne]; [tauto|]. apply IH. tauto.
Qed.

Lemma find_some_in (occ : list (string * string)) pkg :
  In pkg (List.map fst occ) ->
  exists pd, List.find (fun pd => String.eqb (fst pd) pkg) occ = Some pd.
Proof.
  induction occ as [|[p d] occ IH]; [intros []|]. cbn. intros H.
  destruct (String.eqb_spec p pkg) as [->|Hne]; [eauto|].
  apply IH. destruct H; [contradiction|assumption].
Qed.

Lemma first_dev_app_seen occ more pkg :
  In pkg (List.map fst occ) ->
  first_dev (occ ++ more) pkg = first_dev occ pkg.
Proof.
  intros H. unfold first_dev. rewrite find_app.
  destruct (find_some_in occ pkg H) as [pd ->]. reflexivity.
Qed.

Lemma catalog_of_empty : catalog_of [] ([], ∅).
Proof.
  repeat split; cbn; try tauto; try set_solver. constructor.
Qed.

Lemma add_link_catalog_of dev names occ st count link :
  catalog_of occ st ->
  catalog_of (occ ++ [(snd link, dev)])
             (fst (add_link dev names (st, count) link)).
Proof.
  destruct st as [all_apps seen]. intros (Hseen & Hocc & Hnd & Hdev).
  cbn [fst snd] in *. unfold add_link.
  case_bool_decide as Hin; unfold catalog_of; cbn [fst snd].
  - (* already seen *)
    split; [exact Hseen|]. split; [|split; [exact Hnd|]].
    + intros pkg. rewrite List.map_app, in_app_iff, <- Hocc. cbn.
      split; [tauto|]. intros [H|[<-|[]]]; [exact H|]. now apply Hseen.
    + intros a Ha. rewrite first_dev_app_seen; [now apply Hdev|].
      apply Hocc, in_map. exact Ha.
  - (* new *)
    assert (Hfresh : ~ In (snd link) (List.map package all_apps))
      by (intros H; now apply Hseen in H).
    split; [|split; [|split]].
    + intros pkg. rewrite List.map_app, in_app_iff. cbn.
      rewrite elem_of_union, elem_of_singleton, Hseen. intuition.
    + intros pkg. rewrite !List.map_app, !in_app_iff, Hocc. cbn. tauto.
    + rewrite List.map_app. cbn.
      apply NoDup_app. split; [exact Hnd|]. split.
      * intros x Hx Hx'. apply list_elem_of_In in Hx.
        apply list_elem_of_In in Hx'. destruct Hx' as [<-|[]]. contradiction.
      * apply NoDup_singleton.
    + intros a Ha. apply in_app_iff in Ha as [Ha|[<-|[]]].
      * rewrite first_dev_app_seen; [now apply Hdev|].
        apply Hocc, in_map. exact Ha.
      * cbn [package developer]. unfold first_dev. rewrite find_app.
        rewrite find_none_not_in by (now rewrite <- Hocc).
        cbn. now rewrite String.eqb_refl.
Qed.

Lemma add_links_catalog_of dev names links : forall occ st count,
  catalog_of occ st ->
  catalog_of (occ ++ List.map (fun l => (snd l, dev)) links)
             (fst (fold_left (add_link dev names) links (st, count))).
Proof.
  induction links as [|link links IH]; intros occ st count H;
    cbn [fold_left List.map].
  - now rewrite app_nil_r.
  - apply (add_link_catalog_of dev names occ st count link) in H.
    destruct (add_link dev names (st, count) link) as [st' count'].
    cbn [fst] in H.
    apply (IH _ _ count') in H. rewrite <- app_assoc in H. exact H.
Qed.

Lemma add_hits_catalog_of hits : forall occ st,
  catalog_of occ st -> catalog_of (occ ++ occurrences hits) (add_hits hits st).
Proof.
  induction hits as [|[[dev names] links] hits IH]; intros occ st H.
  - cbn. now rewrite app_nil_r.
  - apply (add_links_catalog_of dev names links occ st O) in H.
    apply IH in H. rewrite <- app_assoc in H. exact H.
Qed.

Lemma add_hits_app h1 h2 st :
  add_hits (h1 ++ h2) st = add_hits h2 (add_hits h1 st).
Proof. apply fold_left_app. Qed.

(** [discover_pages] visits the pages [scan_pages] lists. *)
Lemma discover_pages_scan fuel dev dev_url : forall page st w,
  match scan_pages X fuel dev dev_url page w with
  | (Ok hits, w', _) =>
      exists o, discover_pages X fuel dev dev_url page st w
                = (Ok (add_hits hits st), w', o)
  | (Raise _, _, _) => False
  | (OutOfFuel, w', _) =>
      exists o, discover_pages X fuel dev dev_url page st w
                = (OutOfFuel, w', o)
  end.
Proof.
  induction fuel as [|fuel IH]; intros page st w; cbn [scan_pages discover_pages].
  - cbn. eauto.
  - mstep.
    rewrite (try_get_run X _ None MError).
    assert (Escan : forall B (k : option response -> M B) w,
               bind (try_except
                       (bind (get_ok X (page_url dev_url page) None)
                             (fun r => ret (Some r)))
                       (fun _ => ret None)) k w
               = match fetch X w (page_url dev_url page) None with
                 | inl e => k None (log_event (EvGet (page_url dev_url page) None) w)
                 | inr r => k (Some r) (log_event (EvGet (page_url dev_url page) None) w)
                 end).
    { intros B k w0. unfold bind at 1. unfold try_except, get_ok.
      rewrite bind_assoc. mstep.
      destruct (fetch X w0 _ None) as [e|r]; mstep; cbn.
      - now destruct (k None _) as [[? ?] ?].
      - now destruct (k (Some r) _) as [[? ?] ?]. }
    rewrite Escan.
    destruct (fetch X w (page_url dev_url page) None) as [e|r]; cbn.
    { eauto. }
    destruct (find_app_links (text r)) as [|link links] eqn:L.
    { destruct (page =? 1)%nat; cbn; eauto. }
    rewrite <- L.
    destruct (add_links dev (page_names (text r) (find_app_links (text r)))
                (find_app_links (text r)) st) as [st' count] eqn:A.
    assert (Est : st' = add_hits [(dev, page_names (text r) (find_app_links (text r)),
                                   find_app_links (text r))] st).
    { unfold add_hits. cbn [fold_left fst snd]. now rewrite A. }
    mstep.
    destruct (Str.contains _ (text r)).
    + unfold sleep. mstep.
      specialize (IH (page + 1)%nat st'
                     (log_event EvSleep
                        (log_event (EvGet (page_url dev_url page) None) w))).
      unfold bind at 1.
      destruct (scan_pages X fuel dev dev_url (page + 1)%nat _)
        as [[[hits| |] w'] o']; [|destruct IH|].
      * destruct IH as [o ->]. cbn. eexists. rewrite Est. reflexivity.
      * destruct IH as [o ->]. cbn. eauto.
    + cbn. rewrite Est. eauto.
Qed.

Lemma bind_ok {A B} (m : M A) (k : A -> M B) w a w1 o1 :
  m w = (Ok a, w1, o1) -> bind m k w = with_output o1 (k a w1).
Proof. intros E. unfold bind. now rewrite E. Qed.

Lemma bind_out_of_fuel {A B} (m : M A) (k : A -> M B) w w1 o1 :
  m w = (OutOfFuel, w1, o1) -> bind m k w = (OutOfFuel, w1, o1).
Proof. intros E. unfold bind. now rewrite E. Qed.

Lemma discover_devs_scan fuel developers : forall st w,
  match scan_devs X fuel developers w with
  | (Ok hits, w', _) =>
      exists o, discover_devs X fuel developers st w
                = (Ok (add_hits hits st), w', o)
  | (Raise _, _, _) => False
  | (OutOfFuel, w', _) =>
      exists o, discover_devs X fuel developers st w = (OutOfFuel, w', o)
  end.
Proof.
  induction developers as [|dev rest IH]; intros st w;
    cbn [scan_devs discover_devs].
  - cbn. eauto.
  - set (dev_url := BASE +:+ "/developer/" +:+ quote X dev +:+ "/").
    pose proof (discover_pages_scan fuel dev dev_url 1%nat st w) as P.
    destruct (scan_pages X fuel dev dev_url 1%nat w)
      as [[[hits| |] w1] o1] eqn:S; [|destruct P|].
    + destruct P as [o P]. rewrite (bind_ok _ _ _ _ _ _ S), (bind_ok _ _ _ _ _ _ P).
      unfold sleep. mstep.
      specialize (IH (add_hits hits st) (log_event EvSleep w1)).
      destruct (scan_devs X fuel rest (log_event EvSleep w1))
        as [[[more| |] w2] o2] eqn:S2; [|destruct IH|].
      * destruct IH as [o' ->]. rewrite (bind_ok _ _ _ _ _ _ S2). cbn.
        rewrite add_hits_app. eauto.
      * destruct IH as [o' ->]. rewrite (bind_out_of_fuel _ _ _ _ _ S2). cbn.
        eauto.
    + destruct P as [o P].
      rewrite (bind_out_of_fuel _ _ _ _ _ S), (bind_out_of_fuel _ _ _ _ _ P).
      eauto.
Qed.


Lemma scan_pages_terminates bound dev dev_url :
  paging_bounded X bound ->
  forall fuel page w,
    (1 <= fuel)%nat -> (bound < page + fuel)%nat ->
    fst (fst (scan_pages X fuel dev dev_url page w)) <> OutOfFuel.
Proof.
  intros HB. induction fuel as [|fuel IH]; intros page w H1 H2; [lia|].
  cbn [scan_pages].
  assert (Escan : forall B (k : option response -> M B) w,
             bind (try_except
                     (bind (get_ok X (page_url dev_url page) None)
                           (fun r => ret (Some r)))
                     (fun _ => ret None)) k w
             = match fetch X w (page_url dev_url page) None with
               | inl e => k None (log_event (EvGet (page_url dev_url page) None) w)
               | inr r => k (Some r) (log_event (EvGet (page_url dev_url page) None) w)
               end).
  { intros B k w0. unfold bind at 1. unfold try_except, get_ok.
    rewrite bind_assoc. mstep.
    destruct (fetch X w0 _ None) as [e|r]; mstep; cbn.
    - now destruct (k None _) as [[? ?] ?].
    - now destruct (k (Some r) _) as [[? ?] ?]. }
  rewrite Escan.
  destruct (fetch X w (page_url dev_url page) None) as [e|r] eqn:F;
    [discriminate|].
  destruct (find_app_links (text r)) as [|link links]; [discriminate|].
  destruct (Str.contains _ (text r)) eqn:C; [|discriminate].
  assert (page < bound)%nat.
  { destruct (Nat.lt_ge_cases page bound) as [|Hge]; [assumption|].
    rewrite (HB _ _ _ _ _ F Hge) in C. discriminate. }
  unfold sleep. mstep.
  specialize (IH (page + 1)%nat
                 (log_event EvSleep
                    (log_event (EvGet (page_url dev_url page) None) w))).
  unfold bind at 1.
  destruct (scan_pages X fuel dev dev_url (page + 1)%nat _)
    as [[[hits| |] w'] o']; cbn in *; try discriminate.
  apply IH; lia.
Qed.

Lemma scan_devs_terminates bound fuel :
  paging_bounded X bound -> (1 <= fuel)%nat -> (bound <= fuel)%nat ->
  forall developers w,
    fst (fst (scan_devs X fuel developers w)) <> OutOfFuel.
Proof.
  intros HB H1 H2. induction developers as [|dev rest IH]; intros w;
    cbn [scan_devs]; [discriminate|].
  set (dev_url := BASE +:+ "/developer/" +:+ quote X dev +:+ "/").
  assert (P : fst (fst (scan_pages X fuel dev dev_url 1%nat w)) <> OutOfFuel)
    by (apply (scan_pages_terminates bound); [assumption|lia..]).
  pose proof (discover_pages_scan fuel dev dev_url 1%nat ([], ∅) w) as D.
  destruct (scan_pages X fuel dev dev_url 1%nat w)
    as [[[hits| |] w1] o1] eqn:S; [|destruct D|now destruct P].
  rewrite (bind_ok _ _ _ _ _ _ S). unfold sleep. mstep.
  specialize (IH (log_event EvSleep w1)).
  destruct (scan_devs X fuel rest (log_event EvSleep w1))
    as [[[more| |] w2] o2] eqn:S2.
  - rewrite (bind_ok _ _ _ _ _ _ S2). discriminate.
  - pose proof (discover_devs_scan fuel rest ([], ∅) (log_event EvSleep w1)) as D2.
    rewrite S2 in D2. destruct D2.
  - now destruct IH.
Qed.

(** On a site with at most [bound] pages per developer, [bound] rounds
    of the page loop are enough. *)
Lemma discover_apps_terminates bound fuel developers w :
  paging_bounded X bound -> (1 <= fuel)%nat -> (bound <= fuel)%nat ->
  fst (fst (discover_apps X fuel (Some developers) w)) <> OutOfFuel.
Proof.
  intros HB H1 H2. unfold discover_apps. cbn [default].
  pose proof (scan_devs_terminates bound fuel HB H1 H2 developers w) as T.
  pose proof (discover_devs_scan fuel developers ([], ∅) w) as P.
  destruct (scan_devs X fuel developers w) as [[[hits| |] w1] o1];
    [|destruct P|now destruct T].
  destruct P as [o P]. rewrite (bind_ok _ _ _ _ _ _ P). discriminate.
Qed.

End Discovery.

(** *** Concrete runs on the scripted site *)

Lemma run_eq {A} (x : outcome A * world * list message) :
  x = (result_of x, world_of x, output_of x).
Proof. now destruct x as [[? ?] ?]. Qed.

Lemma In_compute (e : event) l : bool_decide (e ∈ l) = true -> In e l.
Proof. intros H. apply list_elem_of_In. now apply bool_decide_eq_true in H. Qed.

Lemma not_In_compute (e : event) l : bool_decide (e ∈ l) = false -> ~ In e l.
Proof.
  intros H Hin. apply list_elem_of_In in Hin.
  apply bool_decide_eq_false in H. contradiction.
Qed.

Lemma run_compute l :
  existsb is_run l = true -> exists cmd t, In (EvRun cmd t) l.
Proof.
  intros H. apply existsb_exists in H as ([] & H & E); try discriminate. eauto.
Qed.

Ltac by_compute := vm_compute; reflexivity.

(** C1 on the scripted site: version 2.0 is observed, 1.0 is stored,
    the artifact has 524288 bytes and the decompiler produces Java
    files. *)
Lemma ledger_written_iff_witness :
  let w := demo_world (Some "1.0") in
  let run := process_app (demo big run_ok) demo_app false 4 w in
  result_of run = Ok true
  /\ In (EvSaveVersion "com.example.app.version" "2.0")
        (performed w (world_of run))
  /\ versions (world_of run) !! "com.example.app.version" = Some "2.0".
Proof.
  intros w run.
  destruct (ledger_written_iff _ _ _ _ _ _ _ _ (run_eq run))
    as (Hiff & Hset & _).
  assert (R : result_of run = Ok true) by by_compute.
  assert (S : In (EvSaveVersion "com.example.app.version" "2.0")
                 (performed w (world_of run))).
  { apply (proj2 (Hiff _ _)). split; [reflexivity|]. split; [discriminate|].
    split; [by_compute|]. split; [exact R|].
    apply run_compute. by_compute. }
  split; [exact R|]. split; [exact S|].
  rewrite (Hset _ S). apply lookup_insert_eq.
Defined.

(** C3 fails as stated: on an app whose download page has no link a
    fetch occurs, [process_app] returns [False], and the scratch
    directory is still there. *)
Lemma scratch_left_after_failed_fetch :
  let w := demo_world None in
  let run := process_app (demo small run_ok) nolink_app false 4 w in
  result_of run = Ok false
  /\ In (EvGet "https://apkcombo.com/nolink/com.nolink.app/download/apk" None)
        (performed w (world_of run))
  /\ apks (world_of run) !! "com.nolink.app" = Some ∅.
Proof.
  intros w run. split; [by_compute|].
  split; [apply In_compute; by_compute|by_compute].
Qed.

(** C3, as the code has it, on the scripted site. *)
Lemma scratch_deleted_after_decompile_witness :
  let w := demo_world (Some "1.0") in
  let run := process_app (demo big run_ok) demo_app false 4 w in
  apks (world_of run) !! "com.example.app" = None.
Proof.
  intros w run.
  destruct (scratch_deleted_after_decompile _ _ _ _ _ _ _ _ (run_eq run))
    as (Hdel & _).
  apply Hdel.
  - apply run_compute. by_compute.
  - exists true. by_compute.
Defined.

(** C4 fails as stated.  For the padded app the version file holds
    exactly the version the page shows and [force] is not set, and yet
    the download page is requested and [process_app] returns [False]:
    the version read back from the file is compared, and it is
    stripped.  For the blank app the version the page shows and the
    version read back are both the empty string, and the download page
    is requested all the same. *)
Lemma equal_versions_still_fetched :
  (let w := ledger_world "com.padded.app.version" " 2.0 " in
   let run := process_app (demo small run_ok) padded_app false 4 w in
   result_of (check_version (demo small run_ok) "/padded/com.padded.app" w)
   = Ok (Some " 2.0 ")
   /\ versions w !! "com.padded.app.version" = Some " 2.0 "
   /\ In (EvGet "https://apkcombo.com/padded/com.padded.app/download/apk" None)
         (performed w (world_of run))
   /\ result_of run = Ok false)
  /\ (let w := ledger_world "com.blank.app.version" EmptyString in
      let run := process_app (demo small run_ok) blank_app false 4 w in
      result_of (check_version (demo small run_ok) "/blank/com.blank.app" w)
      = Ok (Some EmptyString)
      /\ result_of (get_stored_version "com.blank.app" w) = Ok (Some EmptyString)
      /\ In (EvGet "https://apkcombo.com/blank/com.blank.app/download/apk" None)
            (performed w (world_of run))
      /\ result_of run = Ok false).
Proof.
  split; intros w run.
  - split; [by_compute|]. split; [by_compute|].
    split; [apply In_compute; by_compute|by_compute].
  - split; [by_compute|]. split; [by_compute|].
    split; [apply In_compute; by_compute|by_compute].
Qed.

(** C4, as the code has it, on the scripted site: stored 2.0 against
    observed 2.0, and stored 1.0 against observed 2.0. *)
Lemma version_gate_witness :
  (let w := demo_world (Some "2.0") in
   let run := process_app (demo big run_ok) demo_app false 4 w in
   result_of run = Ok true
   /\ performed w (world_of run)
      = [EvGet "https://apkcombo.com/example/com.example.app" None])
  /\ (let w := demo_world (Some "1.0") in
      let run := process_app (demo big run_ok) demo_app false 4 w in
      In (EvGet "https://apkcombo.com/example/com.example.app/download/apk" None)
         (performed w (world_of run))
      /\ result_of run = Ok true
      /\ versions (world_of run) !! "com.example.app.version" = Some "2.0").
Proof.
  split; intros w run.
  - destruct (version_gate _ _ _ _ _ _ _ _ "2.0" (run_eq run)) as (Hsame & _);
      [by_compute|discriminate|].
    destruct Hsame as (R & P & _); [by_compute|reflexivity|].
    split; [exact R|exact P].
  - destruct (version_gate _ _ _ _ _ _ _ _ "2.0" (run_eq run)) as (_ & Hdiff);
      [by_compute|discriminate|].
    destruct Hdiff as (F & L); [left; vm_compute; discriminate|].
    assert (R : result_of run = Ok true) by by_compute.
    split; [exact F|]. split; [exact R|]. exact (proj2 (L R)).
Defined.

(** C5 on the scripted site: a payload of 1024 bytes and one of
    524288 bytes. *)
Lemma undersized_payload_rejected_witness :
  (let w := demo_world None in
   let run := download_apk (demo small run_ok) "/example/com.example.app"
                           "com.example.app" w in
   In (EvWriteApk "com.example.app" "app.apk" 1024) (performed w (world_of run))
   /\ result_of run = Ok None
   /\ In (EvUnlinkApk "com.example.app" "app.apk") (performed w (world_of run))
   /\ apks (world_of run) !! "com.example.app" = Some ∅)
  /\ (let w := demo_world None in
      let run := download_apk (demo big run_ok) "/example/com.example.app"
                              "com.example.app" w in
      In (EvWriteApk "com.example.app" "app.apk" 524288)
         (performed w (world_of run))
      /\ result_of run = Ok (Some ("com.example.app", "app.apk"))
      /\ ~ In (EvUnlinkApk "com.example.app" "app.apk")
             (performed w (world_of run))).
Proof.
  split; intros w run.
  - assert (W : In (EvWriteApk "com.example.app" "app.apk" 1024)
                   (performed w (world_of run)))
      by (apply In_compute; by_compute).
    destruct (undersized_payload_rejected _ _ _ _ _ _ _ _ _ (run_eq run) W)
      as (Hsmall & _).
    destruct Hsmall as (R & U & D); [lia|].
    split; [exact W|]. split; [exact R|]. split; [exact U|exact D].
  - assert (W : In (EvWriteApk "com.example.app" "app.apk" 524288)
                   (performed w (world_of run)))
      by (apply In_compute; by_compute).
    destruct (undersized_payload_rejected _ _ _ _ _ _ _ _ _ (run_eq run) W)
      as (_ & Hbig).
    destruct Hbig as (R & U & _); [lia|].
    split; [exact W|]. split; [exact R|exact U].
Defined.

(** C6 on the scripted site: the download page offers a CDN-redirect
    link and, after it, a storage-redirect link. *)
Lemma link_priority_witness :
  let w := demo_world None in
  let page :=
    demo_page (href "https://apkcombo.com/d?u=xyz" +:+ href "/r2?u=abc") in
  fetch (demo small run_ok) (scratch_world "com.example.app" w)
        "https://apkcombo.com/example/com.example.app/download/apk" None
  = inr page
  /\ exists r w' o,
      download_apk (demo small run_ok) "/example/com.example.app"
                   "com.example.app" w = (r, w', o)
      /\ forall u, In (EvGet u (Some 300)) (performed w w')
                   <-> u = "https://apkcombo.com/r2?u=abc".
Proof.
  intros w page.
  assert (F : fetch (demo small run_ok) (scratch_world "com.example.app" w)
                (BASE +:+ "/example/com.example.app" +:+ "/download/apk") None
              = inr page) by by_compute.
  split; [exact F|].
  destruct (link_priority _ _ _ _ _ F) as (r & w' & o & E & H).
  exists r, w', o. split; [exact E|]. exact H.
Defined.


(** C8 fails as stated: on a page whose version element holds a single
    space [check_version] returns the empty string, which is neither a
    non-empty match nor none. *)
Lemma check_version_blank_element :
  result_of (check_version (demo small run_ok) "/blank/com.blank.app"
                           (demo_world None))
  = Ok (Some EmptyString).
Proof. by_compute. Qed.

(** C9 fails as stated: when a poll sees fewer Java files than the one
    before, the percentage reported goes down (here from 50 to 25). *)
Lemma progress_can_go_down :
  let run := decompile_apk (demo small run_shrinking)
               ("com.example.app", "app.apk") "com.example.app" 4
               demo_apk_world in
  reported_percentages (output_of run) = [percent 2 4; percent 1 4]
  /\ ~ (percent 2 4 <= percent 1 4)%Q.
Proof.
  intros run. split; [by_compute|]. vm_compute. intros H. now apply H.
Qed.

(** C9, as the code has it, on the scripted site. *)
Lemma progress_reports_witness :
  let run := decompile_apk (demo small run_ok)
               ("com.example.app", "app.apk") "com.example.app" 4
               demo_apk_world in
  progress_lines (output_of run)
  = [MProgress (percent 1 4) 1 4; MProgress (percent 3 4) 3 4; MProgress100]
  /\ StronglySorted Qle (reported_percentages (output_of run))
  /\ result_of run = Ok true.
Proof.
  intros run.
  destruct (progress_reports _ _ _ _ _ _ _ _ (run_eq run))
    as (env & w_run & Hlines & _ & Hsorted & _).
  split; [by_compute|]. split; [|by_compute].
  apply Hsorted. vm_compute. repeat constructor; discriminate.
Defined.

(** C2 fails on the code: when the decompiler of the first of two apps
    runs into the timeout, [process_app] ends with [TimeoutExpired] and
    so does the run loop; the second app is never requested, the
    scratch directory of the first app is left behind and no version is
    recorded. *)
Theorem timeout_aborts_the_run :
  let w := demo_world (Some "1.0") in
  let run := main_loop (demo big run_timeout) [demo_app; nolink_app] false 4 w in
  result_of run = Raise TimeoutExpired
  /\ result_of (process_app (demo big run_timeout) demo_app false 4 w)
     = Raise TimeoutExpired
  /\ ~ In (EvGet "https://apkcombo.com/nolink/com.nolink.app" None)
         (events (world_of run))
  /\ is_Some (apks (world_of run) !! "com.example.app")
  /\ versions (world_of run) = versions w.
Proof.
  intros w run. split; [by_compute|]. split; [by_compute|].
  split; [apply not_In_compute; by_compute|].
  split; [|by_compute].
  apply (bool_decide_unpack _). vm_compute. exact I.
Qed.

(* ================================================================== *)
(** ** Further properties of the code                                  *)
(* ================================================================== *)

(** *** Text *)

Lemma rev_rev s : Str.rev (Str.rev s) = s.
Proof.
  unfold Str.rev. rewrite list_ascii_of_string_of_list_ascii, rev_involutive.
  apply string_of_list_ascii_of_string.
Qed.

Lemma lstrip_idempotent s : Str.lstrip (Str.lstrip s) = Str.lstrip s.
Proof.
  induction s as [|a s IH]; [reflexivity|]. cbn [Str.lstrip].
  destruct (Str.isspace a) eqn:E; [exact IH|]. cbn [Str.lstrip]. now rewrite E.
Qed.

Lemma rstrip_idempotent s : Str.rstrip (Str.rstrip s) = Str.rstrip s.
Proof. unfold Str.rstrip. now rewrite rev_rev, lstrip_idempotent. Qed.

(** What [lstrip] leaves of a text that ends in a character that is no
    white space ends in that character. *)
Lemma lstrip_snoc l a :
  Str.isspace a = false ->
  exists l', list_ascii_of_string
               (Str.lstrip (string_of_list_ascii (l ++ [a]))) = l' ++ [a].
Proof.
  intros Ha. induction l as [|b l IH]; cbn.
  - rewrite Ha. now exists [].
  - destruct (Str.isspace b); [exact IH|].
    exists (b :: l). cbn. f_equal.
    apply list_ascii_of_string_of_list_ascii.
Qed.

Lemma lstrip_rstrip s :
  Str.lstrip s = s -> Str.lstrip (Str.rstrip s) = Str.rstrip s.
Proof.
  destruct s as [|a s]; [reflexivity|]. cbn [Str.lstrip].
  destruct (Str.isspace a) eqn:Ha.
  - intros H. exfalso.
    assert (Hlen : (String.length (Str.lstrip s) <= String.length s)%nat).
    { clear. induction s as [|b s IH]; cbn [Str.lstrip]; [lia|].
      destruct (Str.isspace b); cbn [String.length] in *; lia. }
    rewrite H in Hlen. cbn in Hlen. lia.
  - intros _. unfold Str.rstrip, Str.rev at 2. cbn [list_ascii_of_string List.rev].
    destruct (lstrip_snoc (List.rev (list_ascii_of_string s)) a Ha) as [l' Hl'].
    unfold Str.rev. cbn [list_ascii_of_string List.rev].
    rewrite !Hl', !rev_app_distr. cbn. now rewrite Ha.
Qed.

Lemma strip_idempotent s : Str.strip (Str.strip s) = Str.strip s.
Proof.
  unfold Str.strip.
  rewrite (lstrip_rstrip (Str.lstrip s)) by apply lstrip_idempotent.
  apply rstrip_idempotent.
Qed.

Lemma append_length a b :
  String.length (a +:+ b) = (String.length a + String.length b)%nat.
Proof.
  induction a as [|x a IH]; [reflexivity|].
  change (String x a +:+ b) with (String x (a +:+ b)).
  cbn [String.length]. now rewrite IH.
Qed.

Lemma append_inj_l s : forall a b, a +:+ s = b +:+ s -> a = b.
Proof.
  assert (Hno : forall c b, s <> String c (b +:+ s)).
  { intros c b H. apply (f_equal String.length) in H.
    cbn [String.length] in H. rewrite append_length in H. lia. }
  induction a as [|x a IH]; intros [|y b] H.
  - reflexivity.
  - now apply Hno in H.
  - symmetry in H. now apply Hno in H.
  - change (String x (a +:+ s) = String y (b +:+ s)) in H.
    injection H as -> H. f_equal. now apply IH.
Qed.

Lemma ver_file_inj p q : ver_file p = ver_file q -> p = q.
Proof. apply append_inj_l. Qed.

(** *** Text mode *)

Lemma all_chars_list Q s :
  all_chars Q s = forallb Q (list_ascii_of_string s).
Proof. induction s as [|a s IH]; cbn; [reflexivity|now rewrite IH]. Qed.

Lemma all_chars_rev Q s : all_chars Q (Str.rev s) = all_chars Q s.
Proof.
  unfold Str.rev.
  rewrite !all_chars_list, list_ascii_of_string_of_list_ascii.
  induction (list_ascii_of_string s) as [|a l IH]; [reflexivity|].
  cbn [List.rev forallb]. rewrite forallb_app, IH. cbn [forallb].
  rewrite andb_true_r. apply andb_comm.
Qed.

Lemma all_chars_lstrip Q s :
  all_chars Q s = true -> all_chars Q (Str.lstrip s) = true.
Proof.
  induction s as [|a s IH]; [reflexivity|]. cbn [Str.lstrip].
  destruct (Str.isspace a); [|auto]. cbn [all_chars].
  intros H. apply andb_true_iff in H as [_ H]. auto.
Qed.

Lemma all_chars_strip Q s :
  all_chars Q s = true -> all_chars Q (Str.strip s) = true.
Proof.
  intros H. unfold Str.strip, Str.rstrip.
  rewrite all_chars_rev. apply all_chars_lstrip.
  rewrite all_chars_rev. now apply all_chars_lstrip.
Qed.

(** Text without a carriage return is read as it is, and is read back
    as it was written, whatever the line separator. *)
Lemma universal_newlines_plain s :
  plain s = true -> Str.universal_newlines s = s.
Proof.
  unfold plain. induction s as [|a s IH]; [reflexivity|].
  cbn [all_chars Str.universal_newlines]. intros H.
  apply andb_true_iff in H as [Ha H]. apply negb_true_iff in Ha.
  rewrite Ha. f_equal. auto.
Qed.

Lemma universal_newlines_crlf s :
  plain s = true -> Str.universal_newlines (Str.crlf s) = s.
Proof.
  unfold plain. induction s as [|a s IH]; [reflexivity|].
  cbn [all_chars Str.crlf]. intros H.
  apply andb_true_iff in H as [Ha H]. apply negb_true_iff in Ha.
  destruct (Str.eqb_char a Str.lf) eqn:Elf.
  - apply Ascii.eqb_eq in Elf. subst a.
    cbn -[Str.crlf]. f_equal. auto.
  - cbn [Str.universal_newlines]. rewrite Ha. f_equal. auto.
Qed.

(** What is read in text mode has no carriage return. *)
Lemma universal_newlines_is_plain s :
  plain (Str.universal_newlines s) = true.
Proof.
  unfold plain.
  assert (G : forall n s, (String.length s <= n)%nat ->
              all_chars (fun a => negb (Str.eqb_char a Str.cr))
                        (Str.universal_newlines s) = true).
  { clear s. induction n as [|n IH]; intros [|a s] Hn;
      try reflexivity; cbn [String.length] in Hn; [lia|].
    cbn [Str.universal_newlines].
    destruct (Str.eqb_char a Str.cr) eqn:Ea.
    - cbn [all_chars]. change (negb (Str.eqb_char Str.lf Str.cr)) with true.
      cbn [andb]. destruct s as [|b s]; [reflexivity|].
      cbn [String.length] in Hn.
      destruct (Str.eqb_char b Str.lf); apply IH; cbn [String.length]; lia.
    - cbn [all_chars]. rewrite Ea. cbn [negb andb]. apply IH. lia. }
  now apply (G (String.length s)).
Qed.

(** *** The ledger *)

Section Ledger.
Variable X : externals.

Lemma read_write_text s :
  plain s = true -> Str.universal_newlines (write_text X s) = s.
Proof.
  intros H. unfold write_text. destruct (windows X).
  - now apply universal_newlines_crlf.
  - now apply universal_newlines_plain.
Qed.

Lemma save_version_run package version w :
  save_version X package version w
  = (Ok tt,
     set_versions <[ver_file package := write_text X version]>
       (log_event (EvSaveVersion (ver_file package) version) w), []).
Proof. unfold save_version. mstep. reflexivity. Qed.

Lemma get_stored_version_run package w :
  get_stored_version package w
  = (Ok ((fun contents => Str.strip (Str.universal_newlines contents))
           <$> versions w !! ver_file package), w, []).
Proof.
  unfold get_stored_version. mstep.
  now destruct (versions w !! ver_file package).
Qed.

(** What [get_stored_version] returns has no carriage return and no
    white space at its ends. *)
Lemma stored_version_shape a w v :
  stored_version a w = Some v -> plain v = true /\ Str.strip v = v.
Proof.
  unfold stored_version.
  destruct (versions w !! ver_file (package a)) as [c|]; [|discriminate].
  cbn. intros [= <-]. split; [|apply strip_idempotent].
  apply all_chars_strip, universal_newlines_is_plain.
Qed.


(** X2.  Let a run of [process_app] return [True] for an app whose
    page shows the non-empty version [v], and let the page show [v]
    again afterwards.  If [v] has no white space at its ends and no
    carriage return, a second run without [force] is a skip: it returns
    [True] and only requests the version page.  Otherwise the second
    run downloads again, since the version read back from the ledger is
    stripped and has its line ends translated. *)
Theorem rerun_after_success a force threads threads' w v :
  let first := process_app X a force threads w in
  let w1 := world_of first in
  let second := process_app X a false threads' w1 in
  result_of first = Ok true ->
  result_of (check_version X (app_path a) w) = Ok (Some v) ->
  v <> EmptyString ->
  result_of (check_version X (app_path a) w1) = Ok (Some v) ->
  (Str.strip v = v /\ plain v = true ->
   result_of second = Ok true
   /\ performed w1 (world_of second) = [EvGet (BASE +:+ app_path a) None])
  /\ (Str.strip v <> v \/ plain v = false ->
      In (EvGet (BASE +:+ app_path a +:+ "/download/apk") None)
         (performed w1 (world_of second))).
Proof.
  intros first w1 second Hfirst Hobs Hv Hobs1.
  unfold result_of in Hobs, Hobs1. rewrite check_version_observed in Hobs, Hobs1.
  injection Hobs as Hobs. injection Hobs1 as Hobs1.
  assert (Hknown : known (Some v) = true) by (apply known_iff; eauto).
  (* what the ledger holds after the first run *)
  assert (Hstored : exists s, stored_version a w1 = Some s
                              /\ (plain v = true -> s = Str.strip v)).
  { destruct first as [[r1 w1'] o1] eqn:E1. subst w1. cbn [world_of fst snd] in *.
    cbn [result_of fst] in Hfirst. subst r1.
    destruct (process_app_run X _ _ _ _ _ _ _ E1) as (evs & _ & Hcase).
    rewrite Hobs in Hcase.
    destruct Hcase as [(_ & Hst & _ & _ & _ & Hver & _)
                      |(_ & evs_dl & _ & _ & Hcase)].
    - exists v. split.
      + unfold stored_version in *. now rewrite Hver.
      + intros _. symmetry. now apply stored_version_shape in Hst.
    - destruct Hcase as [([[=]|[e [=]]] & _)|[([e [=]] & _)|Hcase]].
      destruct Hcase as (success & cmd & rm & [= <-] & _ & _ & Hver & _).
      rewrite Hknown in Hver. cbn in Hver.
      eexists. split.
      + unfold stored_version. rewrite Hver, lookup_insert_eq. reflexivity.
      + intros Hp. cbn beta. now rewrite read_write_text. }
  destruct Hstored as (s & Hstored & Hs).
  destruct (stored_version_shape _ _ _ Hstored) as [Hsp Hss].
  destruct second as [[r2 w2] o2] eqn:E2. cbn [result_of world_of fst snd].
  destruct (process_app_run X _ _ _ _ _ _ _ E2) as (evs & Hperf & Hcase).
  rewrite Hobs1, Hstored in Hcase. rewrite Hperf. split.
  - intros [Hst Hp]. rewrite (Hs Hp), Hst in Hcase.
    destruct Hcase as [(_ & _ & _ & -> & -> & _)|([H|[H|H]] & _)];
      [now split|congruence..].
  - intros Hno.
    destruct Hcase as [(_ & [= ->] & _)|(_ & evs_dl & _ & Hin & Hcase)];
      [destruct Hno; congruence|].
    apply in_or_app. left.
    destruct Hcase as [(_ & -> & _)|[(_ & (cmd & rm & -> & _) & _)
                                    |(success & cmd & rm & _ & -> & _)]].
    + exact Hin.
    + right. right. apply in_or_app. now right.
    + right. apply in_or_app. right. right. right. apply in_or_app. now right.
Qed.
End Ledger.

(** *** Isolation of the apps *)

Section Frame.
Variable X : externals.

Ltac frame :=
  unfold elsewhere_unchanged;
  cbn [with_output world_of fst snd ret versions apks sources jdk_dir environ
       set_versions set_apks log_event];
  repeat split; try reflexivity; intros;
  repeat first [ rewrite lookup_insert_ne by congruence
               | rewrite lookup_delete_ne by congruence ];
  reflexivity.

Lemma download_and_decompile_frame a cv threads w :
  elsewhere_unchanged (package a) w
    (world_of (download_and_decompile X a cv threads w)).
Proof.
  set (pkg := package a). unfold download_and_decompile. mstep.
  destruct (download_apk_cases X (app_path a) pkg w)
    as (rd & dir & evs_dl & od & Ed & Hf & Hin & Hr).
  unfold bind at 1. fold pkg. rewrite Ed.
  destruct rd as [[apk|]|e|]; [| | |destruct Hr].
  - destruct Hr as (Hpkg & data & ->). mstep.
    match goal with |- context [bind (decompile_apk X apk _ threads) _ ?w2] =>
      destruct (decompile_apk_cases X apk pkg threads w2)
        as (r & produced & rm & oc & Ec & Hrm & Hrc) end.
    unfold bind at 1. rewrite Ec.
    cbn [versions apks sources jdk_dir environ events] in *.
    destruct Hrc as [[e ->]|[success ->]].
    + cbn [with_output world_of fst snd]. frame.
    + rewrite bind_save_step.
      destruct (success && known cv) eqn:Saved.
      * erewrite bind_cleanup_present by apply lookup_insert_eq. mstep.
        cbn [with_output world_of fst snd]. frame.
      * erewrite bind_cleanup_present by apply lookup_insert_eq. mstep.
        cbn [with_output world_of fst snd]. frame.
  - mstep. cbn [with_output world_of fst snd]. frame.
  - cbn [with_output world_of fst snd]. frame.
Qed.

(** X3.  [process_app] touches nothing of another app: every version
    file but the one of its package, and the scratch directory and the
    source tree of every other package, are what they were; the JDK
    directory and the environment are unchanged. *)
Theorem process_app_leaves_other_apps_alone a force threads w :
  let w' := world_of (process_app X a force threads w) in
  (forall file, file <> ver_file (package a) ->
                versions w' !! file = versions w !! file)
  /\ (forall other, other <> package a ->
        apks w' !! other = apks w !! other
        /\ sources w' !! other = sources w !! other)
  /\ jdk_dir w' = jdk_dir w /\ environ w' = environ w.
Proof.
  intros w'. subst w'.
  destruct (process_app_cases X a force threads w)
    as [(_ & _ & _ & o' & ->)|(_ & o_pre & ->)].
  - cbn. repeat split; reflexivity.
  - pose proof (download_and_decompile_frame a (observed_version X a w) threads
                  (log_event (EvGet (BASE +:+ app_path a) None) w)) as Hfr.
    destruct (download_and_decompile X a (observed_version X a w) threads
                (log_event (EvGet (BASE +:+ app_path a) None) w))
      as [[r w'] o].
    cbn [with_output world_of fst snd] in *.
    destruct Hfr as (Hv & Ha & Hs & Hj & He). cbn in *.
    repeat split; auto.
Qed.

End Frame.

Lemma bind_raised {A B} (m : M A) (k : A -> M B) w e w1 o1 :
  m w = (Raise e, w1, o1) -> bind m k w = (Raise e, w1, o1).
Proof. intros E. unfold bind. now rewrite E. Qed.

(** *** The run loop *)

Section Loop.
Variable X : externals.

(** X4.  When the version check returns [None] or the empty string,
    [process_app] requests the download page, whatever the ledger holds
    and whether or not [force] is set, and the version files are left
    as they were. *)
Theorem undetermined_version_downloads a force threads w :
  result_of (check_version X (app_path a) w) = Ok None
  \/ result_of (check_version X (app_path a) w) = Ok (Some EmptyString) ->
  let run := process_app X a force threads w in
  In (EvGet (BASE +:+ app_path a +:+ "/download/apk") None)
     (performed w (world_of run))
  /\ versions (world_of run) = versions w.
Proof.
  intros Hobs run0.
  assert (K : known (observed_version X a w) = false).
  { unfold result_of in Hobs. rewrite check_version_observed in Hobs.
    destruct Hobs as [[= ->]|[= ->]]; reflexivity. }
  destruct (process_app_run X _ _ _ _ _ _ _ (run_eq run0)) as (evs & Hperf & Hcase).
  rewrite Hperf. rewrite K in Hcase.
  destruct Hcase as [([=] & _)|(_ & evs_dl & _ & Hin & Hcase)].
  destruct Hcase as [(_ & -> & Hv & _)|[(_ & (cmd & rm & -> & _) & Hv & _)
                                      |(success & cmd & rm & _ & -> & _ & Hv & _)]].
  - split; [apply in_or_app; now left|exact Hv].
  - split; [|exact Hv]. apply in_or_app; left.
    right. right. apply in_or_app. now right.
  - rewrite andb_false_r in Hv. rewrite andb_false_r.
    split; [|exact Hv]. apply in_or_app; left.
    right. cbn [Datatypes.app]. right. right. apply in_or_app. now right.
Qed.

Lemma process_app_events a force threads w :
  exists evs,
    events (world_of (process_app X a force threads w))
    = evs ++ EvGet (BASE +:+ app_path a) None :: events w.
Proof.
  destruct (process_app_cases X a force threads w)
    as [(_ & _ & _ & o' & ->)|(_ & o_pre & ->)].
  - now exists [].
  - destruct (download_and_decompile_cases X a (observed_version X a w) threads
                (log_event (EvGet (BASE +:+ app_path a) None) w))
      as (r2 & w2 & o2 & evs & evs_dl & -> & Hev & _).
    exists evs. cbn. exact Hev.
Qed.

Lemma process_apps_run force threads apps :
  forall i n results w,
    exists evs,
      events (world_of (process_apps X apps i n force threads results w))
      = evs ++ events w
      /\ forall res,
          result_of (process_apps X apps i n force threads results w) = Ok res ->
          (forall a, In a apps -> In (EvGet (BASE +:+ app_path a) None) evs)
          /\ exists oks, length oks = length apps
                         /\ res = record_outcomes apps oks results.
Proof.
  induction apps as [|a rest IH]; intros i n results w.
  - exists []. split; [reflexivity|]. cbn. intros res [= <-].
    split; [intros ? []|]. now exists [].
  - cbn [process_apps]. mstep.
    destruct (process_app_events a force threads w) as (evs1 & Hev1).
    destruct (process_app X a force threads w) as [[[ok| |] w1] o1] eqn:E1;
      cbn [world_of fst snd] in Hev1.
    + rewrite (bind_ok _ _ _ _ _ _ E1). unfold sleep. mstep.
      destruct (IH (S i) n (dict_set (package a) ok results)
                   (log_event EvSleep w1)) as (evs2 & Hev2 & Hres).
      destruct (process_apps X rest (S i) n force threads
                  (dict_set (package a) ok results) (log_event EvSleep w1))
        as [[r2 w2] o2].
      cbn [with_output world_of result_of fst snd] in *.
      exists (evs2 ++ EvSleep :: evs1 ++ [EvGet (BASE +:+ app_path a) None]).
      split.
      { rewrite Hev2. cbn [log_event events]. rewrite Hev1.
        rewrite <- !app_assoc. cbn. now rewrite <- app_assoc. }
      intros res ->. destruct (Hres res eq_refl) as (Hget & oks & Hlen & ->).
      split.
      * intros b [<-|Hb].
        -- apply in_or_app. right. right. apply in_or_app. right. now left.
        -- apply in_or_app. left. now apply Hget.
      * exists (ok :: oks). split; [cbn; lia|reflexivity].
    + rewrite (bind_raised _ _ _ _ _ _ E1).
      exists (evs1 ++ [EvGet (BASE +:+ app_path a) None]).
      cbn [with_output world_of result_of fst snd].
      split; [rewrite Hev1; now rewrite <- app_assoc|discriminate].
    + rewrite (bind_out_of_fuel _ _ _ _ _ E1).
      exists (evs1 ++ [EvGet (BASE +:+ app_path a) None]).
      cbn [with_output world_of result_of fst snd].
      split; [rewrite Hev1; now rewrite <- app_assoc|discriminate].
Qed.

(** The keys of the [results] dictionary. *)
Lemma dict_set_keys key ok results :
  List.map fst (dict_set key ok results)
  = if bool_decide (key ∈ List.map fst results)
    then List.map fst results else List.map fst results ++ [key].
Proof.
  induction results as [|[k v] rest IH]; cbn [dict_set List.map fst].
  - rewrite bool_decide_eq_false_2; [reflexivity|]. apply not_elem_of_nil.
  - destruct (String.eqb k key) eqn:E.
    + apply String.eqb_eq in E. subst k.
      rewrite bool_decide_eq_true_2 by apply list_elem_of_here. reflexivity.
    + apply String.eqb_neq in E. cbn [List.map fst]. rewrite IH.
      case_bool_decide as H1.
      * rewrite bool_decide_eq_true_2; [reflexivity|]. now apply list_elem_of_further.
      * rewrite bool_decide_eq_false_2; [reflexivity|].
        intros H2. apply elem_of_cons in H2 as [->|H2]; [now apply E|auto].
Qed.

Lemma dict_set_lookup key ok results : In (key, ok) (dict_set key ok results).
Proof.
  induction results as [|[k v] rest IH]; cbn [dict_set]; [now left|].
  destruct (String.eqb k key) eqn:E.
  - apply String.eqb_eq in E. subst k. now left.
  - now right.
Qed.

Lemma dict_set_keeps key ok results k :
  k ∈ List.map fst results -> k ∈ List.map fst (dict_set key ok results).
Proof.
  intros Hk. rewrite dict_set_keys. case_bool_decide; [exact Hk|].
  apply elem_of_app. now left.
Qed.

Lemma record_outcomes_keys apps : forall oks results,
  length oks = length apps ->
  (forall a, In a apps ->
             package a ∈ List.map fst (record_outcomes apps oks results))
  /\ (forall k, k ∈ List.map fst results ->
                k ∈ List.map fst (record_outcomes apps oks results))
  /\ (NoDup (List.map fst results ++ List.map package apps) ->
      List.map fst (record_outcomes apps oks results)
      = List.map fst results ++ List.map package apps).
Proof.
  induction apps as [|a rest IH]; intros [|ok oks] results Hlen;
    try discriminate.
  - cbn. repeat split; [intros ? []|auto|]. now rewrite app_nil_r.
  - unfold record_outcomes. cbn [combine fold_left fst snd].
    fold (record_outcomes rest oks (dict_set (package a) ok results)).
    destruct (IH oks (dict_set (package a) ok results)) as (H1 & H2 & H3);
      [cbn in Hlen; lia|].
    split; [|split].
    + intros b [<-|Hb]; [|now apply H1].
      apply H2. apply list_elem_of_In, in_map_iff.
      exists (package a, ok). split; [reflexivity|apply dict_set_lookup].
    + intros k Hk. apply H2. now apply dict_set_keeps.
    + intros Hnd. cbn [List.map] in *.
      assert (Hk : package a ∉ List.map fst results).
      { apply NoDup_app in Hnd as (_ & Hd & _). intros Hin.
        apply (Hd _ Hin). apply list_elem_of_here. }
      assert (Hkeys : List.map fst (dict_set (package a) ok results)
                      = List.map fst results ++ [package a]).
      { rewrite dict_set_keys. now rewrite bool_decide_eq_false_2. }
      rewrite H3; rewrite Hkeys, <- app_assoc; [reflexivity|exact Hnd].
Qed.

Lemma count_outcomes (results : list (string * bool)) :
  (length (filter (fun kv => snd kv = true) results)
   + length (filter (fun kv => snd kv = false) results))%nat
  = length results.
Proof.
  induction results as [|[k [|]] rest IH]; [reflexivity|..].
  - rewrite filter_cons_True by reflexivity.
    rewrite filter_cons_False by (cbn; discriminate). cbn. lia.
  - rewrite filter_cons_False by (cbn; discriminate).
    rewrite filter_cons_True by reflexivity. cbn. lia.
Qed.

Lemma no_failed (results : list (string * bool)) :
  length (filter (fun kv => snd kv = false) results) = O
  <-> forall kv, In kv results -> snd kv = true.
Proof.
  induction results as [|[k [|]] rest IH].
  - split; [intros _ ? []|reflexivity].
  - rewrite filter_cons_False by (cbn; discriminate). rewrite IH.
    split; [intros H kv [<-|Hin]; auto|intros H kv Hin; apply H; now right].
  - rewrite filter_cons_True by reflexivity. split; [discriminate|].
    intros H. specialize (H (k, false) (or_introl eq_refl)). discriminate.
Qed.

Lemma main_loop_summary apps force threads w code :
  result_of (main_loop X apps force threads w) = Ok code ->
  exists oks o_apps evs,
    length oks = length apps
    /\ events (world_of (main_loop X apps force threads w)) = evs ++ events w
    /\ (forall a, In a apps -> In (EvGet (BASE +:+ app_path a) None) evs)
    /\ output_of (main_loop X apps force threads w)
       = MCpus threads :: o_apps
         ++ MSummary
            :: List.map (fun kv => MStatus (fst kv) (snd kv))
                        (record_outcomes apps oks [])
         ++ [MTotals
               (length (filter (fun kv => snd kv = true)
                               (record_outcomes apps oks [])))
               (length (filter (fun kv => snd kv = false)
                               (record_outcomes apps oks [])))
               (length apps)]
    /\ code = (if (length (filter (fun kv => snd kv = false)
                                  (record_outcomes apps oks [])) =? 0)%nat
               then 0 else 1).
Proof.
  unfold main_loop. mstep.
  destruct (process_apps_run force threads apps 1%nat (length apps) [] w)
    as (evs & Hev & Hres).
  destruct (process_apps X apps 1 (length apps) force threads [] w)
    as [[[results| |] w1] o1] eqn:E1;
    [rewrite (bind_ok _ _ _ _ _ _ E1)
    |rewrite (bind_raised _ _ _ _ _ _ E1)
    |rewrite (bind_out_of_fuel _ _ _ _ _ E1)];
    cbn [with_output result_of world_of output_of fst snd] in *;
    try discriminate.
  mstep. cbn [with_output result_of world_of output_of fst snd ret].
  intros [= <-].
  destruct (Hres results eq_refl) as (Hget & oks & Hlen & ->).
  exists oks, o1, evs. rewrite app_nil_r. auto.
Qed.

(** X5.  When the run loop of [main] ends without an exception,
    every app of the list was processed (its version page was
    requested), whatever the outcome of the apps before it.  The lines
    after the summary line give one status per package processed; the
    two counts of the totals line add up to the number of statuses,
    which is the number of apps when no package occurs twice; and the
    exit status is 0 exactly when every status is a success, 1
    otherwise. *)
Theorem run_loop_processes_every_app apps force threads w code :
  let run := main_loop X apps force threads w in
  result_of run = Ok code ->
  (forall a, In a apps ->
             In (EvGet (BASE +:+ app_path a) None) (performed w (world_of run)))
  /\ exists results changed failed o_apps,
      output_of run
      = MCpus threads :: o_apps
        ++ MSummary :: List.map (fun kv => MStatus (fst kv) (snd kv)) results
        ++ [MTotals changed failed (length apps)]
      /\ (forall a, In a apps -> exists ok, In (package a, ok) results)
      /\ (changed + failed)%nat = length results
      /\ (NoDup (List.map package apps) -> length results = length apps)
      /\ (code = 0 <-> forall kv, In kv results -> snd kv = true)
      /\ (code = 0 \/ code = 1).
Proof.
  intros run0 Hcode. subst run0.
  destruct (main_loop_summary apps force threads w code Hcode)
    as (oks & o_apps & evs & Hlen & Hev & Hget & Hout & ->).
  split.
  { intros a Ha. rewrite (performed_app evs) by exact Hev. now apply Hget. }
  set (results := record_outcomes apps oks []) in *.
  destruct (record_outcomes_keys apps oks [] Hlen) as (Hk1 & _ & Hk3).
  fold results in Hk1, Hk3.
  exists results, (length (filter (fun kv => snd kv = true) results)),
    (length (filter (fun kv => snd kv = false) results)), o_apps.
  split; [exact Hout|].
  split.
  { intros a Ha. specialize (Hk1 a Ha). apply list_elem_of_In, in_map_iff in Hk1.
    destruct Hk1 as ([k ok] & Hk & Hin). cbn in Hk. subst k. eauto. }
  split; [apply count_outcomes|].
  split.
  { intros Hnd. rewrite <- (length_map fst results), Hk3 by exact Hnd.
    cbn. now rewrite length_map. }
  rewrite <- no_failed.
  destruct (length (filter (fun kv => snd kv = false) results)) as [|k];
    cbn; split; [split; auto|now left|split; discriminate|now right].
Qed.

End Loop.

(** *** The launch of the decompiler *)

Section Launch.
Variable X : externals.

Lemma get_jdk_home_value w : get_jdk_home X w = (Ok (jdk_home_of X w), w, []).
Proof.
  unfold get_jdk_home, jdk_home_of. rewrite bind_get_world.
  now destruct (jdk_dir w) as [[|d l]|].
Qed.

Lemma bind_get_jdk_home_value {B} (k : option string -> M B) w :
  bind (get_jdk_home X) k w = k (jdk_home_of X w) w.
Proof.
  unfold bind. rewrite get_jdk_home_value.
  now destruct (k (jdk_home_of X w) w) as [[? ?] ?].
Qed.

Lemma decompile_apk_launch apk package threads w :
  let cmd := jadx_cmd X apk package threads in
  let env := jadx_env X (environ w) (jdk_home_of X w) in
  let run := subprocess_run X (launch_world package w) cmd env in
  let w' :=
    World (versions w) (apks w) (<[package := produced run]> (sources w))
          (jdk_dir w) (environ w)
          (EvRun cmd 1800 :: events (launch_world package w)) in
  exists o,
    decompile_apk X apk package threads w
    = (match completed run with
       | inl e => Raise e
       | inr _ => Ok (negb (rglob_count ".java" (produced run) =? 0)%nat)
       end, w', o).
Proof.
  intros cmd env run0 w'. unfold decompile_apk. rewrite bind_get_world.
  set (ex := bool_decide (is_Some (sources w !! package))).
  set (w1 := if ex then set_sources (delete package)
                         (log_event (EvRmtreeSources package) w) else w).
  assert (E1 : forall B (k : unit -> M B),
             bind (when ex (rmtree_sources package)) k w = k tt w1).
  { intros B k. subst w1. destruct ex; simpl.
    - unfold rmtree_sources. rewrite bind_assoc. now mstep.
    - now mstep. }
  rewrite E1. unfold mkdir_sources. rewrite bind_assoc. mstep.
  rewrite bind_count_dex_classes. mstep.
  rewrite bind_get_jdk_home_value. mstep.
  assert (Wrun : set_sources <[package:=[]]> (log_event (EvMkdirSources package) w1)
                 = launch_world package w).
  { subst w1. unfold launch_world, set_sources, log_event. fold ex.
    destruct ex; cbn; f_equal. now rewrite insert_delete_eq. }
  rewrite Wrun.
  replace (jdk_home_of X (launch_world package w)) with (jdk_home_of X w)
    by reflexivity.
  change (environ (launch_world package w)) with (environ w).
  fold cmd env run0.
  assert (W : set_sources <[package:=produced run0]>
                (log_event (EvRun cmd 1800) (launch_world package w)) = w').
  { subst w'. unfold launch_world, set_sources, log_event. cbn. f_equal.
    now rewrite insert_insert_eq. }
  rewrite W.
  destruct (completed run0) as [e|[stdout stderr]].
  - cbn [with_output raise]. eauto.
  - mstep. subst w'. cbn [sources]. rewrite lookup_insert_eq.
    destruct (rglob_count ".java" (produced run0) =? 0)%nat; mstep; cbn; eauto.
Qed.


Lemma jadx_env_other environ home k :
  k <> "JAVA_OPTS" -> k <> "JAVA_HOME" -> k <> "PATH" ->
  jadx_env X environ home !! k = environ !! k.
Proof.
  intros H1 H2 H3. unfold jadx_env.
  destruct home; now rewrite ?lookup_insert_ne by congruence.
Qed.

(** X7.  [decompile_apk] starts the subprocess once, with the 1800 s
    timeout, after emptying or creating the output directory, which is
    empty at that moment.  The environment handed over has JAVA_OPTS
    set to -Xmx8g whatever it was; with a local JDK, JAVA_HOME is that
    JDK and PATH is its bin directory, the path separator and the
    former PATH; without one, JAVA_HOME and PATH are as before; every
    other variable is inherited. *)
Theorem jadx_launch_conditions apk package threads w :
  let cmd := jadx_cmd X apk package threads in
  let env := jadx_env X (environ w) (jdk_home_of X w) in
  let d := decompile_apk X apk package threads w in
  result_of (get_jdk_home X w) = Ok (jdk_home_of X w)
  /\ result_of d
     = match completed (subprocess_run X (launch_world package w) cmd env) with
       | inl e => Raise e
       | inr _ =>
           Ok (negb (rglob_count ".java"
                       (produced (subprocess_run X (launch_world package w)
                                    cmd env)) =? 0)%nat)
       end
  /\ sources (launch_world package w) !! package = Some []
  /\ performed w (world_of d)
     = EvRun cmd 1800 :: EvMkdirSources package
       :: (if bool_decide (is_Some (sources w !! package))
           then [EvRmtreeSources package] else [])
  /\ env !! "JAVA_OPTS" = Some "-Xmx8g"
  /\ (forall k, k <> "JAVA_OPTS" -> k <> "JAVA_HOME" -> k <> "PATH" ->
                env !! k = environ w !! k)
  /\ match jdk_home_of X w with
     | None =>
         env !! "JAVA_HOME" = environ w !! "JAVA_HOME"
         /\ env !! "PATH" = environ w !! "PATH"
     | Some home =>
         env !! "JAVA_HOME" = Some home
         /\ env !! "PATH"
            = Some (join X home "bin" +:+ pathsep X
                    +:+ default EmptyString (environ w !! "PATH"))
     end.
Proof.
  intros cmd env d. subst d.
  split; [now rewrite get_jdk_home_value|].
  destruct (decompile_apk_launch apk package threads w) as [o ->].
  fold cmd env. cbn [result_of world_of fst snd].
  split; [reflexivity|].
  split; [apply lookup_insert_eq|].
  split; [apply performed_app; reflexivity|].
  split.
  { subst env. unfold jadx_env. destruct (jdk_home_of X w).
    - rewrite !lookup_insert_ne by discriminate. apply lookup_insert_eq.
    - apply lookup_insert_eq. }
  split; [intros k; apply jadx_env_other|].
  subst env. unfold jadx_env. destruct (jdk_home_of X w) as [home|].
  - split.
    + rewrite lookup_insert_ne by discriminate. apply lookup_insert_eq.
    + rewrite lookup_insert_eq, lookup_insert_ne by discriminate.
      now destruct (environ w !! "PATH").
  - now rewrite !lookup_insert_ne by discriminate.
Qed.

End Launch.

(** *** Java files and progress lines *)

Section Counting.

Lemma rglob_walk suffix es :
  (fix walk (es : list entry) : nat :=
     match es with
     | [] => 0%nat
     | e' :: rest => (rglob_entry suffix e' + walk rest)%nat
     end) es = rglob_count suffix es.
Proof. induction es as [|e es IH]; cbn; [reflexivity|]. now rewrite IH. Qed.

Lemma java_dirs_walk es :
  (fix walk (es : list entry) : nat :=
     match es with
     | [] => 0%nat
     | e' :: rest => (java_named_dirs e' + walk rest)%nat
     end) es = java_named_dirs_in es.
Proof. induction es as [|e es IH]; cbn; [reflexivity|]. now rewrite IH. Qed.

Lemma rglob_entry_Dir suffix name sub :
  rglob_entry suffix (Dir name sub)
  = ((if Str.endswith suffix name then 1 else 0)
     + match sub with Listing es => rglob_count suffix es | _ => 0 end)%nat.
Proof.
  cbn [rglob_entry]. destruct sub; first [reflexivity|now rewrite rglob_walk].
Qed.

Lemma java_named_dirs_Dir name sub :
  java_named_dirs (Dir name sub)
  = ((if Str.endswith ".java" name then 1 else 0)
     + match sub with Listing es => java_named_dirs_in es | _ => 0 end)%nat.
Proof.
  cbn [java_named_dirs].
  destruct sub; first [reflexivity|now rewrite java_dirs_walk].
Qed.

Lemma fast_count_against_rglob :
  forall d k,
    count_java_files_fast d = inr k ->
    match d with
    | Missing => False
    | Denied => k = 0
    | Listing es =>
        Z.of_nat (rglob_count ".java" es)
        = k + Z.of_nat (java_named_dirs_in es)
    end.
Proof.
  fix IH 1. intros [| |es] k; cbn [count_java_files_fast].
  - discriminate.
  - now intros [= <-].
  - assert (G : forall count,
              (fix scan (es : list entry) (count : Z) {struct es} : exn + Z :=
                 match es with
                 | [] => inr count
                 | File name :: rest =>
                     scan rest (if Str.endswith ".java" name
                                then count + 1 else count)
                 | Dir _ sub :: rest =>
                     match count_java_files_fast sub with
                     | inl e => inl e
                     | inr k0 => scan rest (count + k0)
                     end
                 end) es count = inr k ->
              count + Z.of_nat (rglob_count ".java" es)
              = k + Z.of_nat (java_named_dirs_in es)).
    { induction es as [|[name|name sub] rest IHes]; intros count.
      - intros [= <-]. cbn. lia.
      - intros Hs. apply IHes in Hs.
        cbn [rglob_count java_named_dirs_in fold_right rglob_entry java_named_dirs].
        fold (rglob_count ".java" rest). fold (java_named_dirs_in rest).
        destruct (Str.endswith ".java" name); lia.
      - destruct (count_java_files_fast sub) as [e|k0] eqn:E; [discriminate|].
        intros Hs. apply IHes in Hs. apply IH in E.
        cbn [rglob_count java_named_dirs_in fold_right].
        fold (rglob_count ".java" rest). fold (java_named_dirs_in rest).
        rewrite rglob_entry_Dir, java_named_dirs_Dir.
        destruct sub as [| |es']; [destruct E|subst k0|];
          destruct (Str.endswith ".java" name); lia. }
    intros Hs. apply G in Hs. lia.
Qed.


Lemma monitor_counts polls total : forall last,
  omap reported_count (monitor_decompile_progress polls total last)
  = changes last (observed_counts polls)
  /\ length (monitor_decompile_progress polls total last)
     = length (changes last (observed_counts polls)).
Proof.
  induction polls as [|p polls IH]; intros last;
    cbn [monitor_decompile_progress observed_counts]; [now split|].
  destruct (count_java_files_fast p) as [e|count]; [apply IH|].
  cbn [changes]. case_bool_decide as Hc; [|apply IH].
  destruct (IH count) as [IH1 IH2].
  destruct (0 <? total); cbn -[monitor_decompile_progress changes observed_counts];
    rewrite IH2; split; try reflexivity; f_equal; exact IH1.
Qed.

Lemma changes_adjacent counts : forall last i a b,
  (last :: changes last counts) !! i = Some a ->
  (last :: changes last counts) !! S i = Some b -> a <> b.
Proof.
  induction counts as [|c rest IH]; intros last i a b; cbn [changes].
  - destruct i; cbn; discriminate.
  - case_bool_decide as Hc; [|apply IH].
    destruct i as [|i]; cbn [lookup list_lookup].
    + intros [= <-] [= <-]. congruence.
    + apply (IH c i).
Qed.

Lemma changes_observed counts : forall last c,
  In c (changes last counts) -> In c counts.
Proof.
  induction counts as [|x rest IH]; intros last c; cbn [changes]; [auto|].
  case_bool_decide as Hc; [intros [<-|Hin]; [now left|right; eauto]|right; eauto].
Qed.

(** X9.  The monitor prints one line per change of the count: the
    counts on its lines are the counts it obtained, with every count
    equal to the one before it left out (0 before the first); a scan
    that fails prints nothing.  So no two lines in a row carry the same
    count, and the first never carries 0. *)
Theorem monitor_reports_changes_only polls total :
  let reports := monitor_decompile_progress polls total 0 in
  let counts := omap reported_count reports in
  length counts = length reports
  /\ counts = changes 0 (observed_counts polls)
  /\ (forall c, In c counts -> In c (observed_counts polls))
  /\ (forall i a b, (0 :: counts) !! i = Some a ->
                    (0 :: counts) !! S i = Some b -> a <> b).
Proof.
  intros reports counts. subst reports counts.
  destruct (monitor_counts polls total 0) as [E L]. rewrite E.
  split; [now rewrite L|]. split; [reflexivity|].
  split; [apply changes_observed|apply changes_adjacent].
Qed.

End Counting.

(** *** Discovery reads, and reads every developer *)

Section Reading.
Variable X : externals.

Lemma only_events_refl w : only_events [] w w.
Proof. repeat split. Qed.

Lemma only_events_log e evs w w' :
  only_events evs (log_event e w) w' -> only_events (evs ++ [e]) w w'.
Proof.
  intros (Hv & Ha & Hs & Hj & He & Hev). repeat split; auto.
  rewrite Hev. cbn. now rewrite <- app_assoc.
Qed.

Lemma try_get_silent {B} url (k : option response -> M B) w :
  bind (try_except (bind (get_ok X url None) (fun r => ret (Some r)))
                   (fun _ => ret None)) k w
  = match fetch X w url None with
    | inl e => k None (log_event (EvGet url None) w)
    | inr r => k (Some r) (log_event (EvGet url None) w)
    end.
Proof.
  unfold bind at 1. unfold try_except, get_ok.
  rewrite bind_assoc. mstep.
  destruct (fetch X w _ None) as [e|r]; mstep; cbn.
  - now destruct (k None _) as [[? ?] ?].
  - now destruct (k (Some r) _) as [[? ?] ?].
Qed.

Lemma scan_pages_reads fuel dev dev_url : forall page w,
  exists evs,
    only_events evs w (world_of (scan_pages X fuel dev dev_url page w))
    /\ forallb read_request evs = true
    /\ (result_of (scan_pages X fuel dev dev_url page w) <> OutOfFuel ->
        In (EvGet (page_url dev_url page) None) evs)
    /\ forall hits,
        result_of (scan_pages X fuel dev dev_url page w) = Ok hits ->
        Forall (fun h : hit => exists text, snd h = find_app_links text) hits.
Proof.
  induction fuel as [|fuel IH]; intros page w; cbn [scan_pages].
  - exists []. split; [apply only_events_refl|]. split; [reflexivity|].
    split; [cbn; congruence|discriminate].
  - rewrite try_get_silent.
    set (w1 := log_event (EvGet (page_url dev_url page) None) w).
    assert (Hstop : forall hits : list hit,
               Forall (fun h : hit => exists text, snd h = find_app_links text) hits ->
               exists evs,
                 only_events evs w (world_of (ret hits w1))
                 /\ forallb read_request evs = true
                 /\ (result_of (ret hits w1) <> OutOfFuel ->
                     In (EvGet (page_url dev_url page) None) evs)
                 /\ forall hits',
                     result_of (ret hits w1) = Ok hits' ->
                     Forall (fun h : hit => exists text, snd h = find_app_links text)
                            hits').
    { intros hits Hh. exists [EvGet (page_url dev_url page) None].
      split; [apply (only_events_log _ []), only_events_refl|].
      split; [reflexivity|]. split; [intros _; now left|].
      cbn. now intros ? [= <-]. }
    destruct (fetch X w (page_url dev_url page) None) as [e|r];
      [apply Hstop; constructor|].
    destruct (find_app_links (text r)) as [|link links] eqn:L;
      [apply Hstop; constructor|].
    rewrite <- L.
    destruct (Str.contains _ (text r));
      [|apply Hstop; repeat constructor; eauto].
    unfold sleep. mstep.
    destruct (IH (page + 1)%nat (log_event EvSleep w1))
      as (evs & Hw & Hr & _ & Hhits).
    destruct (scan_pages X fuel dev dev_url (page + 1)%nat (log_event EvSleep w1))
      as [[[hits| |] w'] o'] eqn:E;
      [rewrite (bind_ok _ _ _ _ _ _ E)
      |rewrite (bind_raised _ _ _ _ _ _ E)
      |rewrite (bind_out_of_fuel _ _ _ _ _ E)];
      cbn [with_output ret world_of result_of fst snd] in *;
      exists ((evs ++ [EvSleep]) ++ [EvGet (page_url dev_url page) None]);
      (split; [now apply only_events_log, only_events_log|]);
      (split; [rewrite !forallb_app, Hr; reflexivity|]);
      (split; [intros _; apply in_or_app; right; now left|]);
      try discriminate.
    intros ? [= <-]. constructor; [eauto|]. now apply Hhits.
Qed.

Lemma only_events_trans evs1 evs2 w w1 w2 :
  only_events evs1 w w1 -> only_events evs2 w1 w2 ->
  only_events (evs2 ++ evs1) w w2.
Proof.
  intros (Hv & Ha & Hs & Hj & He & Hev) (Hv' & Ha' & Hs' & Hj' & He' & Hev').
  repeat split; try congruence. rewrite Hev', Hev. apply app_assoc.
Qed.

Lemma scan_devs_reads fuel developers : forall w,
  exists evs,
    only_events evs w (world_of (scan_devs X fuel developers w))
    /\ forallb read_request evs = true
    /\ (result_of (scan_devs X fuel developers w) <> OutOfFuel ->
        forall dev, In dev developers ->
                    In (EvGet (developer_url X dev) None) evs)
    /\ forall hits,
        result_of (scan_devs X fuel developers w) = Ok hits ->
        Forall (fun h : hit => exists text, snd h = find_app_links text) hits.
Proof.
  induction developers as [|dev rest IH]; intros w; cbn [scan_devs].
  - exists []. split; [apply only_events_refl|]. split; [reflexivity|].
    split; [intros _ ? []|]. cbn. now intros ? [= <-].
  - fold (developer_url X dev).
    destruct (scan_pages_reads fuel dev (developer_url X dev) 1%nat w)
      as (evs1 & Hw1 & Hr1 & Hget1 & Hh1).
    destruct (scan_pages X fuel dev (developer_url X dev) 1%nat w)
      as [[[hits| |] w1] o1] eqn:E1;
      cbn [world_of result_of fst snd] in *.
    + rewrite (bind_ok _ _ _ _ _ _ E1). unfold sleep. mstep.
      destruct (IH (log_event EvSleep w1)) as (evs2 & Hw2 & Hr2 & Hget2 & Hh2).
      destruct (scan_devs X fuel rest (log_event EvSleep w1))
        as [[[more| |] w2] o2] eqn:E2;
        [rewrite (bind_ok _ _ _ _ _ _ E2)
        |rewrite (bind_raised _ _ _ _ _ _ E2)
        |rewrite (bind_out_of_fuel _ _ _ _ _ E2)];
        cbn [with_output ret world_of result_of fst snd] in *;
        exists ((evs2 ++ [EvSleep]) ++ evs1);
        (split; [eapply only_events_trans; [exact Hw1|];
                 now apply only_events_log|]);
        (split; [rewrite !forallb_app, Hr1, Hr2; reflexivity|]);
        (split; [|try discriminate]); try congruence.
      * intros _ d [<-|Hd].
        -- apply in_or_app. right. apply Hget1. discriminate.
        -- apply in_or_app. left. apply in_or_app. left.
           apply Hget2; [discriminate|exact Hd].
      * intros ? [= <-]. apply Forall_app. split; [now apply Hh1|now apply Hh2].
      * intros _ d [<-|Hd].
        -- apply in_or_app. right. apply Hget1. discriminate.
        -- apply in_or_app. left. apply in_or_app. left.
           apply Hget2; [discriminate|exact Hd].
    + rewrite (bind_raised _ _ _ _ _ _ E1). cbn [world_of result_of fst snd].
      exists evs1. split; [exact Hw1|]. split; [exact Hr1|].
      split; [|discriminate].
      intros _ d Hd. exfalso.
      pose proof (discover_pages_scan X fuel dev (developer_url X dev) 1%nat ([], ∅) w) as P.
      rewrite E1 in P. exact P.
    + rewrite (bind_out_of_fuel _ _ _ _ _ E1). cbn [world_of result_of fst snd].
      exists evs1. split; [exact Hw1|]. split; [exact Hr1|].
      split; [congruence|discriminate].
Qed.

Lemma discover_apps_scan fuel developers w :
  match scan_devs X fuel developers w with
  | (Ok hits, w', _) =>
      exists o, discover_apps X fuel (Some developers) w
                = (Ok (fst (add_hits hits ([], ∅))), w', o)
  | (Raise _, _, _) => False
  | (OutOfFuel, w', _) =>
      exists o, discover_apps X fuel (Some developers) w = (OutOfFuel, w', o)
  end.
Proof.
  unfold discover_apps. cbn [default].
  pose proof (discover_devs_scan X fuel developers ([], ∅) w) as P.
  destruct (scan_devs X fuel developers w) as [[[hits| |] w1] o1];
    [|destruct P|].
  - destruct P as [o P]. rewrite (bind_ok _ _ _ _ _ _ P). cbn. eauto.
  - destruct P as [o P]. rewrite (bind_out_of_fuel _ _ _ _ _ P). cbn. eauto.
Qed.

(** X10.  [discover_apps] only reads the site: whatever the site
    answers and however the page loops end, the version files, scratch
    directories and source trees are unchanged, every effect is a page
    request without timeout or a pause, and no exception leaves it. *)
Theorem discovery_only_reads fuel developers w :
  let run := discover_apps X fuel developers w in
  versions (world_of run) = versions w
  /\ apks (world_of run) = apks w
  /\ sources (world_of run) = sources w
  /\ (forall e, In e (performed w (world_of run)) -> read_request e = true)
  /\ (forall e, result_of run <> Raise e).
Proof.
  intros run0. subst run0.
  assert (G : forall devs,
             let run := discover_apps X fuel (Some devs) w in
             versions (world_of run) = versions w
             /\ apks (world_of run) = apks w
             /\ sources (world_of run) = sources w
             /\ (forall e, In e (performed w (world_of run)) -> read_request e = true)
             /\ (forall e, result_of run <> Raise e)).
  { intros devs run0. subst run0.
    pose proof (discover_apps_scan fuel devs w) as P.
    destruct (scan_devs_reads fuel devs w)
      as (evs & (Hv & Ha & Hs & _ & _ & Hev) & Hr & _).
    destruct (scan_devs X fuel devs w) as [[[hits| |] w1] o1];
      [|destruct P|]; destruct P as [o ->];
      cbn [world_of result_of fst snd] in *;
      (repeat split; [assumption..| |discriminate]);
      intros e He; rewrite (performed_app evs) in He by exact Hev;
      rewrite forallb_forall in Hr; now apply Hr. }
  destruct developers as [devs|]; [apply G|apply (G DEVELOPERS)].
Qed.

(** X11.  When the page loops of a discovery end, the first page of
    every developer of the list has been requested: a failure on the
    pages of one developer does not keep the later ones from being
    visited. *)
Theorem every_developer_is_visited fuel developers w :
  let run := discover_apps X fuel (Some developers) w in
  result_of run <> OutOfFuel ->
  forall dev, In dev developers ->
    In (EvGet (BASE +:+ "/developer/" +:+ quote X dev +:+ "/") None)
       (performed w (world_of run)).
Proof.
  intros run0 Hfuel dev Hdev. subst run0.
  pose proof (discover_apps_scan fuel developers w) as P.
  destruct (scan_devs_reads fuel developers w)
    as (evs & (_ & _ & _ & _ & _ & Hev) & _ & Hget & _).
  destruct (scan_devs X fuel developers w) as [[[hits| |] w1] o1];
    [|destruct P|]; destruct P as [o P]; rewrite P in *;
    cbn [world_of result_of fst snd] in *; [|congruence].
  rewrite (performed_app evs) by exact Hev.
  apply Hget; [discriminate|exact Hdev].
Qed.

End Reading.

(** *** What the link pattern captures *)

Section Groups.
Import Re.

Lemma all_chars_app Q a b :
  all_chars Q (a +:+ b) = all_chars Q a && all_chars Q b.
Proof.
  induction a as [|x a IH]; [reflexivity|].
  change (String x a +:+ b) with (String x (a +:+ b)).
  cbn [all_chars]. now rewrite IH, andb_assoc.
Qed.

Lemma append_assoc a b c : (a +:+ b) +:+ c = a +:+ (b +:+ c).
Proof.
  induction a as [|x a IH]; [reflexivity|].
  change ((String x a +:+ b) +:+ c) with (String x ((a +:+ b) +:+ c)).
  now rewrite IH.
Qed.

Lemma strip_prefix_app l s s' :
  Str.strip_prefix l s = Some s' -> s = l +:+ s'.
Proof.
  revert s. induction l as [|a l IH]; intros s; cbn [Str.strip_prefix].
  - now intros [= <-].
  - destruct s as [|b s]; [discriminate|].
    destruct (Str.eqb_char a b) eqn:E; [|discriminate].
    apply Ascii.eqb_eq in E. subst b. intros H. apply IH in H. now subst s.
Qed.

Lemma within_Chr (Q p : ascii -> bool) :
  (forall a, p a = true -> Q a = true) -> within Q (Chr p).
Proof.
  intros Hp s c x. cbn [matches]. destruct s as [|a s]; [intros []|].
  destruct (p a) eqn:E; [|intros []]. intros [<-|[]].
  exists (String a EmptyString). cbn. now rewrite (Hp a E).
Qed.

Lemma within_Lit Q l : all_chars Q l = true -> within Q (Lit l).
Proof.
  intros Hl s c x. cbn [matches].
  destruct (Str.strip_prefix l s) as [s'|] eqn:E; [|intros []].
  intros [<-|[]]. exists l. split; [now apply strip_prefix_app|exact Hl].
Qed.

Lemma within_Seq Q r1 r2 : within Q r1 -> within Q r2 -> within Q (Seq r1 r2).
Proof.
  intros H1 H2 s c x. cbn [matches]. rewrite in_flat_map.
  intros ([s1 c1] & Hx1 & Hx2).
  apply H1 in Hx1 as (p1 & -> & Hp1). apply H2 in Hx2 as (p2 & E & Hp2).
  cbn [fst snd] in *. exists (p1 +:+ p2).
  split; [now rewrite E, append_assoc|].
  now rewrite all_chars_app, Hp1, Hp2.
Qed.

Lemma within_Star Q greedy r : within Q r -> within Q (Star greedy r).
Proof.
  intros Hr s c x. cbn [matches]. generalize (String.length s) as fuel.
  intros fuel. revert s c x.
  induction fuel as [|fuel IH]; intros s c x; cbn [star_loop].
  - intros [<-|[]]. now exists EmptyString.
  - assert (Hmore : In x (flat_map
             (fun sc : string * caps =>
                if (String.length (fst sc) <? String.length s)%nat
                then star_loop (matches r) greedy fuel (fst sc) (snd sc) else [])
             (matches r s c)) ->
             exists pre, s = pre +:+ fst x /\ all_chars Q pre = true).
    { rewrite in_flat_map. intros ([s1 c1] & Hx1 & Hx2). cbn [fst snd] in Hx2.
      destruct (String.length s1 <? String.length s)%nat; [|destruct Hx2].
      apply Hr in Hx1 as (p1 & -> & Hp1). apply IH in Hx2 as (p2 & E & Hp2).
      cbn [fst] in *. exists (p1 +:+ p2).
      split; [now rewrite E, append_assoc|].
      now rewrite all_chars_app, Hp1, Hp2. }
    destruct greedy.
    + rewrite in_app_iff. intros [Hx|[<-|[]]]; [auto|now exists EmptyString].
    + intros [<-|Hx]; [now exists EmptyString|auto].
Qed.

Lemma within_Plus Q r : within Q r -> within Q (Plus r).
Proof. intros Hr. apply within_Seq; [exact Hr|now apply within_Star]. Qed.

Lemma take_app pre t :
  Str.take (String.length (pre +:+ t) - String.length t) (pre +:+ t) = pre.
Proof.
  replace (String.length (pre +:+ t) - String.length t)%nat
    with (String.length pre).
  - induction pre as [|a pre IH]; [now destruct t|].
    change (String a pre +:+ t) with (String a (pre +:+ t)).
    cbn [Str.take String.length]. now rewrite IH.
  - assert (H : forall a b, String.length (a +:+ b)
                            = (String.length a + String.length b)%nat).
    { clear. intros a b. induction a as [|x a IH]; [reflexivity|].
      change (String x a +:+ b) with (String x (a +:+ b)).
      cbn [String.length]. now rewrite IH. }
    rewrite H. lia.
Qed.

Lemma within_package_id : within id_char Pat.package_id.
Proof.
  assert (Hldu : forall a, Pat.lower_digit_us a = true -> id_char a = true).
  { intros a Ha. unfold id_char. now rewrite Ha. }
  unfold Pat.package_id. cbn [seqs].
  apply within_Seq; [|apply within_Seq].
  - apply within_Chr. intros a Ha. apply Hldu. unfold Pat.lower_digit_us.
    now rewrite Ha.
  - apply within_Star, within_Chr, Hldu.
  - apply within_Plus, within_Seq; [now apply within_Lit|].
    apply within_Plus, within_Chr, Hldu.
Qed.

Lemma consumes_package_id : consumes Pat.package_id.
Proof.
  unfold Pat.package_id. cbn [seqs]. apply consumes_Seq_l.
  intros s c x. cbn [matches]. destruct s as [|a s]; [intros []|].
  destruct (Str.islower_az a); [|intros []]. intros [<-|[]]. cbn. lia.
Qed.

Lemma matches_Group_id s c x :
  In x (matches (Group 2 Pat.package_id) s c) -> captured_id (snd x).
Proof.
  cbn [matches]. rewrite in_map_iff. intros ([s1 c1] & <- & H).
  pose proof (consumes_package_id _ _ _ H) as Hlen.
  apply within_package_id in H as (pre & -> & Hpre). cbn [fst snd] in *.
  rewrite take_app.
  destruct pre as [|a v].
  - change (EmptyString +:+ s1) with s1 in Hlen. lia.
  - exists a, v. split; [apply lookup_insert_eq|exact Hpre].
Qed.

Lemma matches_Group_keeps_id r :
  (forall s c x, In x (matches r s c) -> captured_id (snd x)) ->
  forall s c x, In x (matches (Group 1 r) s c) -> captured_id (snd x).
Proof.
  intros Hr s c x. cbn [matches]. rewrite in_map_iff.
  intros ([s1 c1] & <- & H). apply Hr in H as (a & v & E & Hv).
  exists a, v. cbn [snd] in *. split; [|exact Hv].
  etransitivity; [apply lookup_insert_ne; discriminate|exact E].
Qed.

Lemma app_link_captures_id s c x :
  In x (matches Pat.app_link s c) -> captured_id (snd x).
Proof.
  revert s c x. unfold Pat.app_link. cbn [seqs].
  apply matches_Seq_tail, matches_Seq_Lit_keeps, matches_Group_keeps_id.
  do 3 apply matches_Seq_tail. apply matches_Seq_Lit_keeps.
  exact matches_Group_id.
Qed.

Lemma findall_matches r : forall fuel s c,
  In c (findall_fuel fuel r s) -> exists t x, In x (matches r t ∅) /\ snd x = c.
Proof.
  induction fuel as [|fuel IH]; intros s c; cbn [findall_fuel]; [intros []|].
  destruct (search_rest r s) as [[rest c0]|] eqn:E; [|intros []].
  intros [<-|H].
  - apply search_rest_matches in E as [t Ht]. now exists t, (rest, c0).
  - destruct (String.length rest <? String.length s)%nat; [eauto|destruct H].
Qed.

Lemma find_app_links_ids text link :
  In link (find_app_links text) ->
  snd link <> EmptyString /\ all_chars id_char (snd link) = true.
Proof.
  unfold find_app_links. rewrite in_map_iff. intros (c & <- & Hc).
  apply findall_matches in Hc as (t & x & Hx & <-).
  apply app_link_captures_id in Hx as (a & v & E & Hv).
  cbn [snd]. unfold group. rewrite E. cbn [default]. now split.
Qed.

End Groups.

(** *** The packages of the catalog *)

Section Ids.
Variable X : externals.

Lemma all_chars_mem Q c s :
  all_chars Q s = true -> Q c = false -> Str.mem_char c s = false.
Proof.
  intros Hs Hc. unfold Str.mem_char.
  induction s as [|a s IH]; [reflexivity|]. cbn in *.
  apply andb_true_iff in Hs as [Ha Hs]. rewrite (IH Hs), orb_false_r.
  destruct (Str.eqb_char c a) eqn:E; [|reflexivity].
  apply Ascii.eqb_eq in E. congruence.
Qed.

Lemma occurrences_in hits pkg :
  In pkg (List.map fst (occurrences hits)) ->
  exists h link, In h hits /\ In link (snd h) /\ snd link = pkg.
Proof.
  rewrite in_map_iff. intros ([p d] & <- & Hin). unfold occurrences in Hin.
  apply in_flat_map in Hin as (h & Hh & Hin).
  apply in_map_iff in Hin as (link & [= <- <-] & Hl). eauto.
Qed.

(** X12.  Every package of the catalog returned by [discover_apps]
    is a non-empty text of lower-case letters, digits, underscores and
    dots; in particular it holds no slash and no backslash, so the
    version file, the scratch directory and the source directory named
    after it lie directly in their parent directories. *)
Theorem discovered_packages_are_package_ids fuel developers w apps :
  result_of (discover_apps X fuel developers w) = Ok apps ->
  forall a, In a apps ->
    package a <> EmptyString
    /\ all_chars id_char (package a) = true
    /\ Str.mem_char "/"%char (package a) = false
    /\ Str.mem_char "\"%char (package a) = false.
Proof.
  assert (G : forall devs,
             result_of (discover_apps X fuel (Some devs) w) = Ok apps ->
             forall a, In a apps ->
               package a <> EmptyString /\ all_chars id_char (package a) = true).
  { intros devs Hres a Ha.
    pose proof (discover_apps_scan X fuel devs w) as P.
    destruct (scan_devs_reads X fuel devs w) as (evs & _ & _ & _ & Hhits).
    destruct (scan_devs X fuel devs w) as [[[hits| |] w1] o1];
      [|destruct P|]; destruct P as [o P]; rewrite P in Hres;
      cbn [result_of fst snd] in *; [|discriminate].
    injection Hres as <-. specialize (Hhits hits eq_refl).
    destruct (add_hits_catalog_of hits [] ([], ∅) catalog_of_empty)
      as (_ & Hocc & _).
    assert (Hp : In (package a) (List.map fst (occurrences hits))).
    { apply Hocc. now apply in_map. }
    apply occurrences_in in Hp as (h & link & Hh & Hl & <-).
    rewrite Forall_forall in Hhits.
    destruct (Hhits h) as (text & Et); [now apply list_elem_of_In|].
    rewrite Et in Hl. now apply find_app_links_ids in Hl. }
  intros Hres a Ha.
  assert (Hid : package a <> EmptyString /\ all_chars id_char (package a) = true).
  { destruct developers as [devs|]; [now apply (G devs)|now apply (G DEVELOPERS)]. }
  destruct Hid as [Hne Hid]. repeat split; auto;
    now apply (all_chars_mem id_char).
Qed.

End Ids.

(** *** Nested archives *)

Section Nested.
Variable X : externals.

Lemma count_inner_shift inner names : forall total,
  count_inner inner names total
  = (total + fst (count_inner inner names 0), snd (count_inner inner names 0)).
Proof.
  induction names as [|name rest IH]; intros total; cbn [count_inner].
  - cbn. f_equal. lia.
  - destruct (Str.endswith ".dex" name); [|apply IH].
    destruct (read inner name) as [e|data]; [cbn; f_equal; lia|].
    destruct (dex_classes data) as [e|n]; [cbn; f_equal; lia|].
    rewrite (IH (total + n)), (IH (0 + n)). cbn [fst snd]. f_equal. lia.
Qed.

Lemma count_outer_flat zf names : forall total,
  Forall (fun n => Str.endswith ".dex" n = true \/ Str.endswith ".apk" n = false)
         names ->
  count_outer X zf names total = count_inner zf names total.
Proof.
  induction names as [|name rest IH]; intros total Hn; [reflexivity|].
  apply Forall_cons in Hn as [Hname Hrest]. cbn [count_outer count_inner].
  destruct (Str.endswith ".dex" name).
  - destruct (read zf name) as [e|data]; [reflexivity|].
    destruct (dex_classes data) as [e|n]; [reflexivity|]. now apply IH.
  - destruct Hname as [[=]| ->]. now apply IH.
Qed.

(** X13.  A nested APK adds to the class count of its container
    exactly what [count_dex_classes] returns for that APK as a file of
    its own, provided it holds no nested APK itself (an entry is nested
    when its name ends in [.apk] and not in [.dex]). *)
Theorem nested_apk_counts_as_standalone zf name rest total nested inner apk w :
  Str.endswith ".dex" name = false -> Str.endswith ".apk" name = true ->
  read zf name = inr nested -> ZipFile X nested = inr inner ->
  Forall (fun n => Str.endswith ".dex" n = true \/ Str.endswith ".apk" n = false)
         (namelist inner) ->
  read_apk apk w = Some nested ->
  exists n,
    result_of (count_dex_classes X apk w) = Ok n
    /\ count_outer X zf (name :: rest) total
       = count_outer X zf rest (total + n).
Proof.
  intros Hdex Hapk Hread Hzip Hflat Hfile.
  exists (fst (count_outer X inner (namelist inner) 0)). split.
  - unfold count_dex_classes. rewrite bind_get_world, Hfile, Hzip. reflexivity.
  - cbn [count_outer]. rewrite Hdex, Hapk, Hread, Hzip. f_equal.
    rewrite (count_outer_flat inner _ 0 Hflat).
    now rewrite (count_inner_shift inner _ total).
Qed.

End Nested.

(** *** The name of the downloaded file *)

Section FileName.

Lemma map_chars_all (f : ascii -> ascii) (P : ascii -> Prop) s :
  (forall a, P (f a)) ->
  Forall P (list_ascii_of_string (Str.map_chars f s)).
Proof.
  intros Hf. unfold Str.map_chars. rewrite list_ascii_of_string_of_list_ascii.
  apply Forall_forall. intros a Ha. apply list_elem_of_In, in_map_iff in Ha.
  destruct Ha as (b & <- & _). apply Hf.
Qed.

Lemma mem_char_map_chars (f : ascii -> ascii) c s :
  (forall a, Str.eqb_char c (f a) = false) ->
  Str.mem_char c (Str.map_chars f s) = false.
Proof.
  intros Hf. unfold Str.mem_char, Str.map_chars.
  rewrite list_ascii_of_string_of_list_ascii.
  induction (list_ascii_of_string s) as [|a l IH]; [reflexivity|].
  cbn. now rewrite Hf, IH.
Qed.

Lemma sanitised_char a :
  Pat.unsafe_char (if Pat.unsafe_char a then "_"%char else a) = false.
Proof. destruct (Pat.unsafe_char a) eqn:E; [reflexivity|exact E]. Qed.

Lemma choose_fname_chars r package :
  Forall (fun a => Pat.unsafe_char a = false)
         (list_ascii_of_string (choose_fname r package)).
Proof.
  unfold choose_fname.
  apply (map_chars_all _ (fun a => Pat.unsafe_char a = false)), sanitised_char.
Qed.

Lemma choose_fname_no_separator r package c :
  Pat.unsafe_char c = true -> c <> "_"%char ->
  Str.mem_char c (choose_fname r package) = false.
Proof.
  intros Hc Hu. unfold choose_fname. apply mem_char_map_chars. intros a.
  destruct (Str.eqb_char c _) eqn:E; [|reflexivity].
  apply Ascii.eqb_eq in E.
  destruct (Pat.unsafe_char a) eqn:Ua; [congruence|]. subst a. congruence.
Qed.

End FileName.

Section Writes.
Variable X : externals.

Lemma fname_error_none package fname :
  fname_error X package fname = None ->
  fname <> EmptyString /\ fname <> "." /\ fname <> ".."
  /\ open_error X (join X (join X (APKS_DIR X) package) fname) = None.
Proof.
  unfold fname_error. destruct (Str.mem_char _ fname); [discriminate|].
  destruct (String.eqb fname EmptyString) eqn:E1; [discriminate|].
  destruct (String.eqb fname ".") eqn:E2; [discriminate|].
  destruct (String.eqb fname "..") eqn:E3; [discriminate|].
  cbn [orb]. intros Hos. apply String.eqb_neq in E1, E2, E3. auto.
Qed.

(** X14.  Whenever [download_apk] writes a payload, it writes it to
    the scratch directory of its own package, under a name that holds
    none of the characters replaced by line 226 (among them the slash
    and the backslash), is not empty and is neither of the dot entries:
    the file lies directly in that directory.  It writes only where
    the operating system accepted to create the file. *)
Theorem payload_is_written_inside_the_scratch_directory
    app_path package w p fname size :
  In (EvWriteApk p fname size)
     (performed w (world_of (download_apk X app_path package w))) ->
  p = package
  /\ Forall (fun a => Pat.unsafe_char a = false) (list_ascii_of_string fname)
  /\ Str.mem_char "/"%char fname = false
  /\ Str.mem_char "\"%char fname = false
  /\ fname <> EmptyString /\ fname <> "." /\ fname <> ".."
  /\ open_error X (join X (join X (APKS_DIR X) package) fname) = None.
Proof.
  rewrite download_apk_run.
  assert (Hnone : forall evs : list event,
             forallb (fun e => negb match e with EvWriteApk _ _ _ => true
                                    | _ => false end) evs = true ->
             ~ In (EvWriteApk p fname size) evs).
  { intros evs Hevs Hin. rewrite forallb_forall in Hevs.
    now apply Hevs in Hin. }
  destruct (fetch X (scratch_world package w) _ None) as [e|page];
    cbn [world_of fst snd].
  { rewrite performed_scratch_with. intros Hin. exfalso.
    revert Hin. apply Hnone. now destruct (bool_decide _). }
  destruct (select_link X (text page)) as [dl_url|]; cbn [world_of fst snd].
  2:{ rewrite performed_scratch_with. intros Hin. exfalso.
      revert Hin. apply Hnone. now destruct (bool_decide _). }
  unfold fetch_payload.
  destruct (fetch X _ dl_url (Some 300)) as [e|r]; cbn [world_of fst snd].
  { rewrite performed_scratch_with. intros Hin. exfalso.
    revert Hin. apply Hnone. now destruct (bool_decide _). }
  destruct (fname_error X package (choose_fname r package)) eqn:Ef;
    cbn [world_of fst snd].
  { rewrite performed_scratch_with. intros Hin. exfalso.
    revert Hin. apply Hnone. now destruct (bool_decide _). }
  assert (Hgood : forall evs : list event,
             In (EvWriteApk p fname size)
                (EvWriteApk package (choose_fname r package)
                   (Z.of_nat (length (content r))) :: evs) ->
             ~ In (EvWriteApk p fname size) evs ->
             p = package
             /\ Forall (fun a => Pat.unsafe_char a = false)
                       (list_ascii_of_string fname)
             /\ Str.mem_char "/"%char fname = false
             /\ Str.mem_char "\"%char fname = false
             /\ fname <> EmptyString /\ fname <> "." /\ fname <> ".."
             /\ open_error X (join X (join X (APKS_DIR X) package) fname)
                = None).
  { intros evs [[= <- <- <-]|Hin] Hnot; [|contradiction].
    split; [reflexivity|]. split; [apply choose_fname_chars|].
    split; [now apply choose_fname_no_separator|].
    split; [now apply choose_fname_no_separator|].
    now apply fname_error_none. }
  destruct (too_small (content r)); cbn [world_of fst snd];
    rewrite performed_scratch_with.
  - intros [[=]|Hin]. apply (Hgood _ Hin).
    apply Hnone. now destruct (bool_decide _).
  - intros Hin. apply (Hgood _ Hin).
    apply Hnone. now destruct (bool_decide _).
Qed.

End Writes.

(** *** [main] *)

Section MainFacts.
Variable X : externals.
Variable H : host.

Lemma and_then_say {B} msg (k : unit -> Main B) w :
  and_then (say msg) k w
  = match k tt w with (r, w', o) => (r, w', inl msg :: o) end.
Proof. reflexivity. Qed.

Lemma and_then_lift {A B} (m : M A) (k : A -> Main B) w :
  and_then (lift m) k w
  = match m w with
    | (Ok a, w1, o1) =>
        match k a w1 with (r, w2, o2) => (r, w2, List.map inr o1 ++ o2) end
    | (Raise e, w1, o1) => (Raise e, w1, List.map inr o1)
    | (OutOfFuel, w1, o1) => (OutOfFuel, w1, List.map inr o1)
    end.
Proof.
  unfold and_then, lift. now destruct (m w) as [[[a| |] w1] o1].
Qed.

Lemma list_rows_run apps w :
  list_rows apps w = (Ok tt, w, List.map (list_row w) apps).
Proof.
  induction apps as [|a rest IH]; cbn [list_rows]; [reflexivity|].
  now rewrite and_then_lift, get_stored_version_run, and_then_say, IH.
Qed.

Lemma and_then_list_rows {B} apps (k : unit -> Main B) w :
  and_then (list_rows apps) k w
  = match k tt w with
    | (r, w', o) => (r, w', List.map (list_row w) apps ++ o)
    end.
Proof. unfold and_then. now rewrite list_rows_run. Qed.

Lemma discover_apps_nodup fuel devs w apps :
  result_of (discover_apps X fuel (Some devs) w) = Ok apps ->
  NoDup (List.map package apps).
Proof.
  intros Hres. pose proof (discover_apps_scan X fuel devs w) as P.
  destruct (scan_devs X fuel devs w) as [[[hits| |] w1] o1];
    [|destruct P|]; destruct P as [o P]; rewrite P in Hres;
    cbn [result_of fst snd] in *; [|discriminate].
  injection Hres as <-.
  now destruct (add_hits_catalog_of hits [] ([], ∅) catalog_of_empty)
    as (_ & _ & Hnd & _).
Qed.

Lemma filter_map_NoDup {A B} (f : A -> B) (p : A -> bool) l :
  NoDup (List.map f l) -> NoDup (List.map f (List.filter p l)).
Proof.
  induction l as [|a l IH]; cbn [List.map List.filter]; [auto|].
  intros Hnd. apply NoDup_cons in Hnd as [Ha Hl].
  destruct (p a); [|auto]. cbn [List.map]. apply NoDup_cons. split; [|auto].
  intros Hin. apply Ha. apply list_elem_of_In in Hin. apply list_elem_of_In.
  apply in_map_iff in Hin as (b & <- & Hb). apply in_map.
  now apply filter_In in Hb.
Qed.

Lemma select_package_nodup args apps apps' :
  select_package args apps = Some apps' ->
  NoDup (List.map package apps) -> NoDup (List.map package apps').
Proof.
  unfold select_package. intros Hsel Hnd.
  destruct (Args.package args) as [p|]; [|now injection Hsel as <-].
  destruct (Str.truthy p); [|now injection Hsel as <-].
  pose proof (filter_map_NoDup package
                (fun a => String.eqb (package a) p) apps Hnd) as Hf.
  destruct (List.filter _ apps); [discriminate|now injection Hsel as <-].
Qed.

Lemma discover_apps_reads fuel devs w :
  exists evs,
    only_events evs w (world_of (discover_apps X fuel (Some devs) w))
    /\ forallb read_request evs = true
    /\ forall e, result_of (discover_apps X fuel (Some devs) w) <> Raise e.
Proof.
  pose proof (discover_apps_scan X fuel devs w) as P.
  destruct (scan_devs_reads X fuel devs w) as (evs & Hw & Hr & _).
  exists evs.
  destruct (scan_devs X fuel devs w) as [[[hits| |] w1] o1];
    [|destruct P|]; destruct P as [o ->];
    cbn [world_of result_of fst snd] in *;
    (split; [exact Hw|split; [exact Hr|intros e; discriminate]]).
Qed.

Lemma reads_performed evs w w' e :
  only_events evs w w' -> forallb read_request evs = true ->
  In e (performed w w') -> read_request e = true.
Proof.
  intros (_ & _ & _ & _ & _ & Hev) Hr. rewrite (performed_app evs) by exact Hev.
  rewrite forallb_forall in Hr. apply Hr.
Qed.

Lemma ensure_dirs_run dirs : forall w,
  exists evs,
    only_events evs w (world_of (ensure_dirs X dirs w))
    /\ output_of (ensure_dirs X dirs w) = []
    /\ (forall e, In e evs -> exists d, e = EvMkdir d /\ In d dirs)
    /\ (result_of (ensure_dirs X dirs w) = Ok tt
        \/ exists e d, In d dirs /\ mkdir_error X d = Some e
                       /\ result_of (ensure_dirs X dirs w) = Raise e).
Proof.
  induction dirs as [|d rest IH]; intros w; cbn [ensure_dirs].
  - exists []. split; [apply only_events_refl|].
    split; [reflexivity|]. split; [intros e []|now left].
  - unfold mkdir_exist_ok. rewrite bind_assoc. mstep.
    destruct (mkdir_error X d) as [e|] eqn:E.
    + rewrite bind_raise. exists [EvMkdir d].
      split; [apply (only_events_log _ []), only_events_refl|].
      split; [reflexivity|]. split.
      * intros e' [<-|[]]. exists d. split; [reflexivity|now left].
      * right. exists e, d. split; [now left|]. now split.
    + mstep. destruct (IH (log_event (EvMkdir d) w))
        as (evs & Hw & Ho & Hm & Hr).
      exists (evs ++ [EvMkdir d]). split; [now apply only_events_log|].
      split; [exact Ho|]. split.
      * intros e' He'. apply in_app_iff in He' as [He'|[<-|[]]].
        -- destruct (Hm e' He') as (d' & -> & Hd'). exists d'.
           split; [reflexivity|now right].
        -- exists d. split; [reflexivity|now left].
      * destruct Hr as [Hr|(e & d' & Hd' & He & Hr)]; [now left|].
        right. exists e, d'. split; [now right|]. now split.
Qed.

Lemma setup_then_reads evs0 evs w w0 w' :
  only_events evs0 w w0 ->
  (forall e, In e evs0 ->
     exists d, e = EvMkdir d
               /\ In d [APKS_DIR X; SOURCES_DIR X; VERSIONS_DIR X]) ->
  only_events evs w0 w' -> forallb read_request evs = true ->
  versions w' = versions w /\ apks w' = apks w /\ sources w' = sources w
  /\ (forall e, In e (performed w w') -> setup_or_read X e).
Proof.
  intros Hw0 Hm Hw Hr.
  destruct (only_events_trans _ _ _ _ _ Hw0 Hw) as (Hv & Ha & Hs & _ & _ & Hev).
  repeat split; auto.
  intros e. rewrite (performed_app (evs ++ evs0)) by exact Hev.
  rewrite in_app_iff. intros [He|He].
  - left. rewrite forallb_forall in Hr. now apply Hr.
  - right. now apply Hm.
Qed.


Lemma leb_refl s : String.leb s s = true.
Proof. now destruct (String.leb_total s s). Qed.

Lemma insert_by_perm {A} (key : A -> string) x l :
  Permutation (insert_by key x l) (x :: l).
Proof.
  induction l as [|y l IH]; cbn [insert_by]; [reflexivity|].
  destruct (String.leb (key x) (key y)); [reflexivity|].
  rewrite IH. apply perm_swap.
Qed.

Lemma sorted_perm {A} (key : A -> string) l : Permutation (sorted l key) l.
Proof.
  induction l as [|x l IH]; [reflexivity|]. unfold sorted in *.
  cbn [fold_right]. rewrite insert_by_perm. now constructor.
Qed.

Lemma insert_by_sorted {A} (key : A -> string) x l :
  Sorted (fun a b => String.leb (key a) (key b) = true) l ->
  Sorted (fun a b => String.leb (key a) (key b) = true) (insert_by key x l).
Proof.
  induction l as [|y l IH]; cbn [insert_by]; intros Hs.
  - repeat constructor.
  - destruct (String.leb (key x) (key y)) eqn:E.
    + constructor; [exact Hs|]. now constructor.
    + apply Sorted_inv in Hs as [Hs Hhd]. constructor; [now apply IH|].
      assert (Hyx : String.leb (key y) (key x) = true).
      { destruct (String.leb_total (key x) (key y)); congruence. }
      destruct l as [|z l]; cbn [insert_by]; [now constructor|].
      destruct (String.leb (key x) (key z)); constructor; [exact Hyx|].
      now apply HdRel_inv in Hhd.
Qed.

Lemma sorted_sorted {A} (key : A -> string) l :
  Sorted (fun a b => String.leb (key a) (key b) = true) (sorted l key).
Proof.
  induction l as [|x l IH]; [constructor|]. now apply insert_by_sorted.
Qed.

(** [sorted] is stable: the elements with a given key keep their
    order. *)
Lemma insert_by_stable {A} (key : A -> string) k x l :
  List.filter (fun a => String.eqb (key a) k) (insert_by key x l)
  = List.filter (fun a => String.eqb (key a) k) (x :: l).
Proof.
  induction l as [|y l IH]; cbn [insert_by]; [reflexivity|].
  destruct (String.leb (key x) (key y)) eqn:E; [reflexivity|].
  cbn [List.filter] in *. rewrite IH.
  destruct (String.eqb (key x) k) eqn:Ex; [|reflexivity].
  destruct (String.eqb (key y) k) eqn:Ey; [|reflexivity].
  apply String.eqb_eq in Ex, Ey. rewrite Ex, Ey, leb_refl in E. discriminate.
Qed.

Lemma sorted_stable {A} (key : A -> string) k l :
  List.filter (fun a => String.eqb (key a) k) (sorted l key)
  = List.filter (fun a => String.eqb (key a) k) l.
Proof.
  induction l as [|x l IH]; [reflexivity|]. unfold sorted in *.
  cbn [fold_right]. rewrite insert_by_stable. cbn [List.filter].
  now rewrite IH.
Qed.

Lemma list_row_versions w w' a :
  versions w' = versions w -> list_row w' a = list_row w a.
Proof. intros E. unfold list_row, stored_version. now rewrite E. Qed.

(** X16.  When [main] ends a list mode run with status 0, the
    console ends with the header and one row per selected app, in the
    order of [sorted]: a permutation of the selected apps in
    non-decreasing order of developer, the apps of one developer in the
    order of discovery.  Each row shows the stored version of its
    package as [get_stored_version] reads it, or the empty text. *)
Theorem list_mode_rows fuel args w :
  let run := main X H fuel args w in
  let w0 :=
    world_of (ensure_dirs X [APKS_DIR X; SOURCES_DIR X; VERSIONS_DIR X] w) in
  Args.list_apps args = true ->
  main_result run = Ok 0 ->
  exists before devs apps selected,
    select_developers args = Some devs
    /\ result_of (discover_apps X fuel (Some devs) w0) = Ok apps
    /\ select_package args apps = Some selected
    /\ main_console run
       = before ++ inl MListHeader
                   :: List.map (list_row w) (sorted selected developer)
    /\ Permutation (sorted selected developer) selected
    /\ Sorted (fun a b => String.leb (developer a) (developer b) = true)
              (sorted selected developer)
    /\ forall dev,
         List.filter (fun a => String.eqb (developer a) dev)
                     (sorted selected developer)
         = List.filter (fun a => String.eqb (developer a) dev) selected.
Proof.
  intros run0 w0 Hlist. subst run0 w0. unfold main. rewrite Hlist.
  cbn [negb andb]. rewrite and_then_lift.
  destruct (ensure_dirs_run [APKS_DIR X; SOURCES_DIR X; VERSIONS_DIR X] w)
    as (evs0 & (Hv0 & _) & Ho0 & _ & _).
  destruct (ensure_dirs X _ w) as [[[[]| |] w0] o0];
    cbn [world_of output_of fst snd] in *; [|cbn; discriminate..].
  subst o0.
  destruct (select_developers args) as [devs|].
  2:{ rewrite !and_then_say. cbn. discriminate. }
  rewrite and_then_say, and_then_lift.
  destruct (discover_apps_reads fuel devs w0) as (evs & (Hv & _) & _).
  destruct (discover_apps X fuel (Some devs) w0) as [[[apps| |] w1] o1] eqn:E;
    cbn [world_of result_of fst snd] in *; [|discriminate..].
  rewrite and_then_say.
  destruct (select_package args apps) as [selected|] eqn:S.
  2:{ rewrite and_then_say. cbn. discriminate. }
  rewrite and_then_say, and_then_list_rows.
  cbn [exit_with main_console main_result fst snd]. intros _.
  exists (inl MDiscovering :: List.map inr o1 ++ [inl (MDiscovered (length apps))]),
    devs, apps, selected.
  split; [reflexivity|]. split; [now rewrite E|]. split; [exact S|].
  split.
  { rewrite app_nil_r. cbn. f_equal. rewrite <- app_assoc. cbn. do 3 f_equal.
    apply map_ext. intros a. apply list_row_versions. congruence. }
  split; [apply sorted_perm|]. split; [apply sorted_sorted|].
  intros dev. apply sorted_stable.
Qed.


End MainFacts.

(** *** The source tree after processing *)

Section Sources.
Variable X : externals.

Lemma no_run_in_fetch evs cmd t :
  forallb fetch_event evs = true -> ~ In (EvRun cmd t) evs.
Proof.
  intros Hf Hin. rewrite forallb_forall in Hf. now apply Hf in Hin.
Qed.

(** What [download_and_decompile] leaves in the source tree. *)
Lemma download_and_decompile_sources a cv threads w :
  exists r w' o evs,
    download_and_decompile X a cv threads w = (r, w', o)
    /\ events w' = evs ++ events w
    /\ ( (forallb fetch_event evs = true
          /\ sources w' = sources w /\ versions w' = versions w)
         \/ (exists cmd produced,
               In (EvRun cmd 1800) evs
               /\ sources w' = <[package a := produced]> (sources w)
               /\ ((exists e, r = Raise e)
                   \/ r = Ok (negb (rglob_count ".java" produced =? 0)%nat))
               /\ (r <> Ok true -> versions w' = versions w)) ).
Proof.
  set (pkg := package a).
  unfold download_and_decompile. mstep.
  destruct (download_apk_cases X (app_path a) pkg w)
    as (rd & dir & evs_dl & od & Ed & Hf & Hin & Hr).
  unfold bind at 1. fold pkg. rewrite Ed.
  destruct rd as [[apk|]|e|]; [| | |destruct Hr].
  - destruct Hr as (Hpkg & data & ->). mstep.
    match goal with |- context [bind (decompile_apk X apk _ threads) _ ?w2] =>
      destruct (decompile_apk_launch X apk pkg threads w2) as [oc Ec];
      set (w_dl := w2) in * end.
    set (produced0 := produced _) in Ec.
    unfold bind at 1. rewrite Ec.
    cbn [versions apks sources jdk_dir environ events launch_world w_dl] in *.
    destruct (completed _) as [e0|c].
    + cbn [with_output]. do 4 eexists. split; [reflexivity|].
      cbn [events sources versions].
      split; [rewrite !app_comm_cons, app_assoc; reflexivity|].
      right. exists (jadx_cmd X apk pkg threads), produced0.
      split; [now left|]. split; [reflexivity|]. split; [eauto|reflexivity].
    + rewrite bind_save_step.
      set (success := negb (rglob_count ".java" produced0 =? 0)%nat).
      destruct (success && known cv) eqn:Saved.
      * erewrite bind_cleanup_present by apply lookup_insert_eq. mstep.
        cbn [with_output ret]. do 4 eexists. split; [reflexivity|].
        cbn [events set_apks set_versions log_event sources versions].
        split; [rewrite !app_comm_cons, app_assoc; reflexivity|].
        right. exists (jadx_cmd X apk pkg threads), produced0.
        split; [now do 2 right; left|]. split; [reflexivity|].
        split; [now right|].
        intros Hne. apply andb_true_iff in Saved as [-> _]. congruence.
      * erewrite bind_cleanup_present by apply lookup_insert_eq. mstep.
        cbn [with_output ret]. do 4 eexists. split; [reflexivity|].
        cbn [events set_apks set_versions log_event sources versions].
        split; [rewrite !app_comm_cons, app_assoc; reflexivity|].
        right. exists (jadx_cmd X apk pkg threads), produced0.
        split; [now right; left|]. split; [reflexivity|].
        split; [now right|reflexivity].
  - mstep. cbn [with_output ret]. exists (Ok false). do 2 eexists. exists evs_dl.
    split; [reflexivity|]. split; [reflexivity|]. now left.
  - cbn [with_output]. exists (Raise e). do 2 eexists. exists evs_dl.
    split; [reflexivity|]. split; [reflexivity|]. now left.
Qed.


End Sources.

(** *** The paths of the catalog *)

Section Paths.
Import Re.

Lemma within_true_Chr p : within (fun _ => true) (Chr p).
Proof. now apply within_Chr. Qed.

Lemma matches_Lit l s c x :
  In x (matches (Lit l) s c) -> s = l +:+ fst x /\ snd x = c.
Proof.
  cbn [matches]. destruct (Str.strip_prefix l s) as [s'|] eqn:E; [|intros []].
  intros [<-|[]]. split; [now apply strip_prefix_app|reflexivity].
Qed.

Lemma app_link_inner_shape s c x :
  In x (matches (seqs [Lit "/"; Plus (Chr (other_than dquote)); Lit "/";
                       Group 2 Pat.package_id; Lit "/"]) s c) ->
  exists slug pkg,
    s = ("/" +:+ slug +:+ "/" +:+ pkg +:+ "/") +:+ fst x
    /\ snd x !! 2%nat = Some pkg
    /\ pkg <> EmptyString /\ all_chars id_char pkg = true.
Proof.
  cbn [seqs]. cbn [matches]. rewrite in_flat_map.
  intros ([s1 c1] & H1 & H2). apply (matches_Lit "/") in H1 as [-> _].
  cbn [fst snd] in H2. change (flat_map _ _) with
    (matches (Seq (Plus (Chr (other_than dquote)))
                  (Seq (Lit "/") (Seq (Group 2 Pat.package_id) (Lit "/"))))
             s1 c1) in H2.
  cbn [matches] in H2. fold (matches (Plus (Chr (other_than dquote))) s1 c1) in H2.
  apply in_flat_map in H2 as ([s2 c2] & H2 & H3).
  apply (within_Plus (fun _ => true) _ (within_true_Chr _)) in H2
    as (slug & -> & _).
  cbn [fst snd] in H3.
  apply in_flat_map in H3 as ([s3 c3] & H3 & H4).
  apply (matches_Lit "/") in H3 as [-> _]. cbn [fst snd] in H4.
  apply in_flat_map in H4 as ([s4 c4] & H4 & H5).
  apply (matches_Lit "/") in H5 as [E5 E5']. cbn [fst snd] in *.
  cbn [matches] in H4. apply in_map_iff in H4 as ([s4' c4'] & [= <- <-] & H4).
  pose proof (consumes_package_id _ _ _ H4) as Hlen.
  apply within_package_id in H4 as (pkg & -> & Hpkg). cbn [fst snd] in *.
  rewrite take_app in E5'. exists slug, pkg.
  split; [rewrite E5; now rewrite !append_assoc|].
  split; [rewrite E5'; apply lookup_insert_eq|]. split; [|exact Hpkg].
  intros ->. change (EmptyString +:+ s4') with s4' in Hlen. lia.
Qed.

Lemma app_link_captures_link s c x :
  In x (matches Pat.app_link s c) -> captured_link (snd x).
Proof.
  revert s c x. unfold Pat.app_link. cbn [seqs].
  apply matches_Seq_tail, matches_Seq_Lit_keeps.
  intros s c x. cbn [matches]. rewrite in_map_iff.
  intros ([s1 c1] & <- & H).
  apply app_link_inner_shape in H as (slug & pkg & -> & E2 & Hne & Hid).
  cbn [fst snd] in *. rewrite take_app. exists slug, pkg.
  split; [apply lookup_insert_eq|]. split; [|auto].
  etransitivity; [apply lookup_insert_ne; discriminate|exact E2].
Qed.

Lemma find_app_links_shape text link :
  In link (find_app_links text) ->
  exists slug,
    fst link = "/" +:+ slug +:+ "/" +:+ snd link +:+ "/"
    /\ snd link <> EmptyString /\ all_chars id_char (snd link) = true.
Proof.
  unfold find_app_links. rewrite in_map_iff. intros (c & <- & Hc).
  apply findall_matches in Hc as (t & x & Hx & <-).
  apply app_link_captures_link in Hx as (slug & pkg & E1 & E2 & Hne & Hid).
  cbn [fst snd]. unfold group. rewrite E1, E2. cbn [default]. eauto.
Qed.

Lemma list_of_append a b :
  list_ascii_of_string (a +:+ b)
  = list_ascii_of_string a ++ list_ascii_of_string b.
Proof.
  induction a as [|x a IH]; [reflexivity|].
  change (String x a +:+ b) with (String x (a +:+ b)). cbn. now rewrite IH.
Qed.

Lemma all_chars_last Q s :
  s <> EmptyString -> all_chars Q s = true ->
  exists init z, list_ascii_of_string s = init ++ [z] /\ Q z = true.
Proof.
  induction s as [|a s IH]; [congruence|]. intros _ Hs. cbn in Hs.
  apply andb_true_iff in Hs as [Ha Hs]. destruct s as [|b s].
  - exists [], a. now split.
  - destruct IH as (init & z & E & Hz); [discriminate|exact Hs|].
    exists (a :: init), z. cbn [list_ascii_of_string] in *. rewrite E. now split.
Qed.

Lemma rstrip_slash p pkg :
  pkg <> EmptyString -> all_chars id_char pkg = true ->
  Str.rstrip_char "/"%char ((p +:+ pkg) +:+ "/") = p +:+ pkg.
Proof.
  intros Hne Hid.
  destruct (all_chars_last id_char pkg Hne Hid) as (init & z & E & Hz).
  unfold Str.rstrip_char, Str.rev.
  rewrite !list_of_append, E. cbn [list_ascii_of_string].
  rewrite !rev_app_distr. cbn [List.rev Datatypes.app string_of_list_ascii].
  cbn [Str.lstrip_char].
  assert (Hz' : Str.eqb_char z "/"%char = false).
  { destruct (Str.eqb_char z "/"%char) eqn:Ez; [|reflexivity].
    apply Ascii.eqb_eq in Ez. subst z. discriminate. }
  change (Str.eqb_char "/"%char "/"%char) with true. cbn iota.
  rewrite Hz'. cbn [list_ascii_of_string].
  rewrite list_ascii_of_string_of_list_ascii.
  cbn [List.rev]. rewrite !rev_app_distr, !rev_involutive.
  rewrite <- (string_of_list_ascii_of_string (p +:+ pkg)).
  f_equal. rewrite list_of_append, E. now rewrite <- app_assoc.
Qed.

End Paths.

Section Catalog.
Variable X : externals.

(** Every entry of the catalog [st] was made from a link with [L]. *)
Lemma add_link_from (L : string * string -> Prop) dev names st count link :
  Forall (fun a => exists l, L l /\ from_link a l) (fst st) -> L link ->
  Forall (fun a => exists l, L l /\ from_link a l)
         (fst (fst (add_link dev names (st, count) link))).
Proof.
  intros Hst Hl. destruct st as [all_apps seen]. cbn [add_link].
  case_bool_decide; cbn [fst]; [exact Hst|].
  apply Forall_app. split; [exact Hst|]. constructor; [|constructor].
  exists link. split; [exact Hl|]. now split.
Qed.

Lemma add_links_from (L : string * string -> Prop) dev names links :
  forall st count,
    Forall (fun a => exists l, L l /\ from_link a l) (fst st) -> Forall L links ->
    Forall (fun a => exists l, L l /\ from_link a l)
           (fst (fst (fold_left (add_link dev names) links (st, count)))).
Proof.
  induction links as [|link links IH]; intros st count Hst Hl; [exact Hst|].
  apply Forall_cons in Hl as [Hlink Hl]. cbn [fold_left].
  destruct (add_link dev names (st, count) link) as [st' count'] eqn:E.
  apply IH; [|exact Hl].
  pose proof (add_link_from L dev names st count link Hst Hlink) as H'.
  now rewrite E in H'.
Qed.

Lemma add_hits_from (L : string * string -> Prop) hits : forall st,
  Forall (fun a => exists l, L l /\ from_link a l) (fst st) ->
  Forall (fun h : hit => Forall L (snd h)) hits ->
  Forall (fun a => exists l, L l /\ from_link a l) (fst (add_hits hits st)).
Proof.
  induction hits as [|h hits IH]; intros st Hst Hh; [exact Hst|].
  apply Forall_cons in Hh as [Hlinks Hh]. unfold add_hits. cbn [fold_left].
  apply IH; [|exact Hh]. unfold add_links. now apply add_links_from.
Qed.

(** X19.  The path of every entry of the catalog is a slash, a slug,
    a slash and the package of the entry: it ends in the package id,
    with no slash after it. *)
Theorem discovered_paths_end_in_the_package fuel developers w apps :
  result_of (discover_apps X fuel developers w) = Ok apps ->
  forall a, In a apps ->
    exists slug, app_path a = "/" +:+ slug +:+ "/" +:+ package a.
Proof.
  assert (G : forall devs,
             result_of (discover_apps X fuel (Some devs) w) = Ok apps ->
             forall a, In a apps ->
               exists slug, app_path a = "/" +:+ slug +:+ "/" +:+ package a).
  { intros devs Hres a Ha.
    pose proof (discover_apps_scan X fuel devs w) as P.
    destruct (scan_devs_reads X fuel devs w) as (evs & _ & _ & _ & Hhits).
    destruct (scan_devs X fuel devs w) as [[[hits| |] w1] o1];
      [|destruct P|]; destruct P as [o P]; rewrite P in Hres;
      cbn [result_of fst snd] in *; [|discriminate].
    injection Hres as <-. specialize (Hhits hits eq_refl).
    assert (Hfrom : Forall (fun a => exists l,
                              (exists text, In l (find_app_links text))
                              /\ from_link a l)
                           (fst (add_hits hits ([], ∅)))).
    { apply add_hits_from; [constructor|].
      eapply Forall_impl; [exact Hhits|]. intros h (text & ->).
      apply Forall_forall. intros l Hl. exists text. now apply list_elem_of_In. }
    rewrite Forall_forall in Hfrom.
    destruct (Hfrom a) as (l & (text & Hl) & Hpath & Hpkg);
      [now apply list_elem_of_In|].
    apply find_app_links_shape in Hl as (slug & E & Hne & Hid).
    exists slug. rewrite Hpath, Hpkg, E.
    rewrite <- !append_assoc.
    now rewrite (rstrip_slash (("/" +:+ slug) +:+ "/") (snd l) Hne Hid). }
  intros Hres a Ha.
  destruct developers as [devs|]; [now apply (G devs)|now apply (G DEVELOPERS)].
Qed.

End Catalog.

(** *** search.py: the batches of [build_index] *)

Section Index.
Import Search.

Lemma omap_snoc {A B} (f : A -> option B) l x :
  omap f (l ++ [x]) = omap f l ++ match f x with Some y => [y] | None => [] end.
Proof.
  induction l as [|a l IH]; cbn.
  - now destruct (f x).
  - rewrite IH. now destruct (f a).
Qed.

Lemma index_file_cases pkg_name st fpath :
  match indexable pkg_name fpath with
  | Some r =>
      unreadable fpath = false
      /\ index_file pkg_name st fpath
         = if (500 <=? length (batch st ++ [r]))%nat
           then Progress (sent st ++ [batch st ++ [r]]) []
                         (S (pkg_count st)) (errors st)
           else Progress (sent st) (batch st ++ [r])
                         (S (pkg_count st)) (errors st)
  | None =>
      index_file pkg_name st fpath
      = if unreadable fpath
        then Progress (sent st) (batch st) (pkg_count st) (S (errors st))
        else st
  end.
Proof.
  unfold index_file, indexable, unreadable.
  destruct (is_file fpath); cbn [negb andb]; [|reflexivity].
  destruct (existsb (String.eqb (suffix fpath)) indexed_suffixes);
    cbn [negb andb]; [|reflexivity].
  now destruct (read_text fpath).
Qed.

Lemma index_file_batching pkg_name errors0 seen st fpath :
  batching pkg_name errors0 seen st ->
  batching pkg_name errors0 (seen ++ [fpath]) (index_file pkg_name st fpath).
Proof.
  intros (Hrows & Hsent & Hlen & Hcount & Herr).
  unfold batching. rewrite omap_snoc, List.filter_app, !length_app.
  cbn [List.filter].
  pose proof (index_file_cases pkg_name st fpath) as Hc.
  destruct (indexable pkg_name fpath) as [r|].
  - destruct Hc as [-> ->]. cbn [length]. rewrite length_app in *. cbn [length].
    destruct (500 <=? length (batch st) + 1)%nat eqn:E;
      cbn [sent batch pkg_count errors].
    + apply Nat.leb_le in E.
      rewrite concat_app. cbn [concat]. rewrite !app_nil_r, app_assoc, Hrows.
      repeat split; auto; try (cbn; lia).
      apply Forall_app. split; [exact Hsent|]. constructor; [|constructor].
      rewrite length_app. cbn. lia.
    + apply Nat.leb_gt in E. rewrite app_assoc, Hrows, length_app.
      repeat split; auto; cbn; lia.
  - rewrite Hc. destruct (unreadable fpath);
      cbn [sent batch pkg_count errors length]; rewrite app_nil_r;
      repeat split; auto; lia.
Qed.

Lemma fold_index_batching pkg_name errors0 files : forall seen st,
  batching pkg_name errors0 seen st ->
  batching pkg_name errors0 (seen ++ files)
           (fold_left (index_file pkg_name) files st).
Proof.
  induction files as [|fpath files IH]; intros seen st Hst; cbn [fold_left].
  - now rewrite app_nil_r.
  - replace (seen ++ fpath :: files) with ((seen ++ [fpath]) ++ files)
      by now rewrite <- app_assoc.
    apply IH. now apply index_file_batching.
Qed.

(** The loop over the files of a package, started with an empty
    batch, keeps [batching]. *)
Lemma index_package_batching pkg_name files errors0 :
  batching pkg_name errors0 files
    (fold_left (index_file pkg_name) files (Progress [] [] O errors0)).
Proof.
  apply (fold_index_batching pkg_name errors0 files []).
  repeat split; cbn; auto; lia.
Qed.

Lemma index_package_sizes pkg_name files errors0 :
  let '(calls, pkg_count, errors') := index_package pkg_name files errors0 in
  concat calls = omap (indexable pkg_name) files
  /\ pkg_count = length (omap (indexable pkg_name) files)
  /\ errors' = (errors0 + length (List.filter unreadable files))%nat
  /\ Forall (fun b => (1 <= length b <= 500)%nat) calls.
Proof.
  unfold index_package.
  destruct (index_package_batching pkg_name files errors0)
    as (Hrows & Hsent & Hlen & Hcount & Herr).
  set (st := fold_left _ files _) in *.
  assert (Hfull : Forall (fun b => (1 <= length b <= 500)%nat) (sent st)).
  { eapply Forall_impl; [exact Hsent|]. cbn. intros b ->. lia. }
  destruct (batch st) as [|r b] eqn:Eb.
  - rewrite app_nil_r in Hrows. repeat split; auto.
  - rewrite concat_app. cbn [concat]. rewrite app_nil_r.
    repeat split; auto.
    apply Forall_app. split; [exact Hfull|]. constructor; [|constructor].
    cbn in *. lia.
Qed.

(** X20.  For the files of one package, the rows sent to the
    database, batch after batch, are the rows of the regular files with
    an indexed suffix that can be read, in the order of the traversal,
    each once; no empty batch is sent, no batch holds more than 500
    rows, and every batch but the last holds exactly 500; [pkg_count]
    is the number of rows, and [errors] grows by the number of files
    that could not be read. *)
Theorem batches_of_a_package pkg_name files errors0 :
  let '(calls, pkg_count, errors') := index_package pkg_name files errors0 in
  concat calls = omap (indexable pkg_name) files
  /\ pkg_count = length (omap (indexable pkg_name) files)
  /\ errors' = (errors0 + length (List.filter unreadable files))%nat
  /\ Forall (fun b => (1 <= length b <= 500)%nat) calls
  /\ Forall (fun b => length b = 500%nat) (removelast calls).
Proof.
  unfold index_package.
  destruct (index_package_batching pkg_name files errors0)
    as (Hrows & Hsent & Hlen & Hcount & Herr).
  set (st := fold_left _ files _) in *.
  destruct (batch st) as [|r b] eqn:Eb.
  - (* nothing is left to send: every batch is a full one *)
    rewrite app_nil_r in Hrows. repeat split; auto.
    + eapply Forall_impl; [exact Hsent|]. cbn. intros b ->. lia.
    + clear -Hsent. induction Hsent as [|b l Hb Hl IH]; [constructor|].
      destruct l; [constructor|]. cbn [removelast]. constructor; auto.
  - (* the rows left are sent as a last batch *)
    rewrite concat_app. cbn [concat]. rewrite app_nil_r.
    repeat split; auto.
    + apply Forall_app. split.
      * eapply Forall_impl; [exact Hsent|]. cbn. intros b' ->. lia.
      * constructor; [|constructor]. cbn in *. lia.
    + now rewrite removelast_last.
Qed.

Lemma index_packages_rows fs dirs : forall count errors0,
  let '(stmts, out, count', errors') :=
    index_packages fs dirs count errors0 in
  exists body,
    stmts = List.map InsertMany body
    /\ concat body
       = flat_map (fun pkg => omap (indexable pkg) (rglob fs pkg)) dirs
    /\ Forall (fun b => (1 <= length b <= 500)%nat) body
    /\ count' = (count + length (concat body))%nat
    /\ errors'
       = (errors0
          + length (flat_map (fun pkg => List.filter unreadable (rglob fs pkg))
                             dirs))%nat.
Proof.
  induction dirs as [|pkg rest IH]; intros count errors0; cbn [index_packages].
  - exists []. cbn. repeat split; auto; lia.
  - pose proof (index_package_sizes pkg (rglob fs pkg) errors0) as Hp.
    destruct (index_package pkg (rglob fs pkg) errors0)
      as [[calls pkg_count] errors1].
    destruct Hp as (Hrows & Hcount & Herr & Hsize).
    specialize (IH (count + pkg_count)%nat errors1).
    destruct (index_packages fs rest (count + pkg_count) errors1)
      as [[[stmts out] count'] errors'].
    destruct IH as (body & -> & Hbody & Hsizes & -> & ->).
    exists (calls ++ body). cbn [flat_map].
    rewrite map_app, concat_app, !length_app, Hrows, Hbody.
    repeat split; auto; try lia. now apply Forall_app.
Qed.

(** Lines 42-53: with a list of packages, the directories of the
    listed packages that exist, and a warning for each of the others;
    without one, the sub-directories of the sources directory. *)
Lemma source_dirs_cases fs packages :
  let listed := default [] packages in
  source_dirs fs packages
  = (match listed with
     | [] => List.filter (is_dir fs) (iterdir fs)
     | _ => List.filter (child_exists fs) listed
     end,
     List.map MWarningNotFound
       (List.filter (fun pkg => negb (child_exists fs pkg)) listed)).
Proof. now destruct packages as [[|pkg pkgs]|]. Qed.

(** X21.  When the sources directory exists, [build_index] returns
    [True]; it drops and creates the table, inserts, commits and
    closes, in this order.  The source directories are those of the
    listed packages that exist, in the order listed, when packages are
    listed, and the sub-directories of the sources directory
    otherwise.  The rows inserted are, package after package in the
    order of the source directories, the rows of the files that
    qualify, each once, in batches of 1 to 500 rows.  The console
    starts with a warning for each listed package that does not exist
    and ends with the number of rows inserted and, when there is one,
    the number of files that could not be read. *)
Theorem build_index_inserts_every_file_once fs packages :
  exists_ fs = true ->
  let '(ok, stmts, out) := build_index fs packages in
  let listed := default [] packages in
  let dirs :=
    match listed with
    | [] => List.filter (is_dir fs) (iterdir fs)
    | _ => List.filter (child_exists fs) listed
    end in
  let warnings :=
    List.map MWarningNotFound
      (List.filter (fun pkg => negb (child_exists fs pkg)) listed) in
  let skipped :=
    length (flat_map (fun pkg => List.filter unreadable (rglob fs pkg)) dirs) in
  ok = true
  /\ exists body progress,
      stmts = DropTable :: CreateTable
              :: List.map InsertMany body ++ [Commit; Close]
      /\ concat body
         = flat_map (fun pkg => omap (indexable pkg) (rglob fs pkg)) dirs
      /\ Forall (fun b => (1 <= length b <= 500)%nat) body
      /\ out = warnings ++ progress
               ++ MIndexed (length (concat body))
                  :: (if (skipped =? 0)%nat then [] else [MSkipped skipped]).
Proof.
  intros Hex. unfold build_index. rewrite Hex. cbn [negb].
  rewrite source_dirs_cases. cbn zeta.
  set (dirs := match default [] packages with
               | [] => List.filter (is_dir fs) (iterdir fs)
               | _ => List.filter (child_exists fs) (default [] packages)
               end).
  pose proof (index_packages_rows fs dirs O O) as Hp.
  destruct (index_packages fs dirs 0 0) as [[[stmts out] count] errors'].
  destruct Hp as (body & -> & Hbody & Hsizes & -> & ->).
  split; [reflexivity|]. exists body, out.
  split; [reflexivity|]. split; [exact Hbody|]. split; [exact Hsizes|].
  reflexivity.
Qed.

End Index.

(** *** Concrete runs of the further properties *)


(** X2 on the scripted site: after the run that stores version 2.0,
    a second run is a skip. *)
Lemma rerun_after_success_witness :
  let w := demo_world (Some "1.0") in
  let first := process_app (demo big run_ok) demo_app false 4 w in
  let second :=
    process_app (demo big run_ok) demo_app false 4 (world_of first) in
  result_of second = Ok true
  /\ performed (world_of first) (world_of second)
     = [EvGet "https://apkcombo.com/example/com.example.app" None].
Proof.
  intros w first second.
  destruct (rerun_after_success (demo big run_ok) demo_app false 4 4 w "2.0")
    as [Hskip _]; [by_compute|by_compute|discriminate|by_compute|].
  apply Hskip. split; reflexivity.
Defined.

(** X4 on the scripted site: the page of the blank app shows an
    empty version, and 1.0 is stored for another app. *)
Lemma undetermined_version_downloads_witness :
  let w := demo_world (Some "1.0") in
  let run := process_app (demo small run_ok) blank_app false 4 w in
  In (EvGet "https://apkcombo.com/blank/com.blank.app/download/apk" None)
     (performed w (world_of run))
  /\ versions (world_of run) = versions w.
Proof.
  intros w run.
  apply (undetermined_version_downloads (demo small run_ok) blank_app false 4 w).
  right. by_compute.
Defined.

(** X5 on the scripted site: the second app is processed and fails,
    and the run ends with status 1. *)
Lemma run_loop_processes_every_app_witness :
  let w := demo_world None in
  let run := main_loop (demo big run_ok) [demo_app; nolink_app] false 4 w in
  result_of run = Ok 1
  /\ In (EvGet "https://apkcombo.com/nolink/com.nolink.app" None)
        (performed w (world_of run)).
Proof.
  intros w run.
  assert (R : result_of run = Ok 1) by by_compute.
  split; [exact R|].
  destruct (run_loop_processes_every_app (demo big run_ok)
              [demo_app; nolink_app] false 4 w 1 R) as [Hall _].
  apply (Hall nolink_app). right. now left.
Defined.


(** X11 on the scripted site: Bolt is visited after Acme. *)
Lemma every_developer_is_visited_witness :
  let w := demo_world None in
  let run := discover_apps (demo small run_ok) 3 (Some ["Acme"; "Bolt"]) w in
  In (EvGet "https://apkcombo.com/developer/Bolt/" None)
     (performed w (world_of run)).
Proof.
  intros w run.
  assert (F : result_of run <> OutOfFuel) by (vm_compute; discriminate).
  exact (every_developer_is_visited (demo small run_ok) 3 ["Acme"; "Bolt"] w
           F "Bolt" (or_intror (or_introl eq_refl))).
Defined.

(** X12 on the scripted site: the catalog of Acme and Bolt. *)
Lemma discovered_packages_are_package_ids_witness :
  let run := discover_apps (demo small run_ok) 3 (Some ["Acme"; "Bolt"])
                           (demo_world None) in
  let a := App "/bolt/io.bolt.app" "io.bolt.app" "io.bolt.app" "Bolt" in
  result_of run
  = Ok [App "/example/com.example.app" "com.example.app"
            "com.example.app" "Acme";
        App "/kit/org.tool.kit" "org.tool.kit" "org.tool.kit" "Acme";
        App "/two/net.demo.two" "net.demo.two" "net.demo.two" "Acme";
        a]
  /\ all_chars id_char (package a) = true
  /\ Str.mem_char "/"%char (package a) = false.
Proof.
  intros run a.
  assert (R : result_of run
              = Ok [App "/example/com.example.app" "com.example.app"
                        "com.example.app" "Acme";
                    App "/kit/org.tool.kit" "org.tool.kit" "org.tool.kit" "Acme";
                    App "/two/net.demo.two" "net.demo.two" "net.demo.two" "Acme";
                    a]) by by_compute.
  destruct (discovered_packages_are_package_ids (demo small run_ok) 3
              (Some ["Acme"; "Bolt"]) (demo_world None) _ R a)
    as (_ & Hid & Hsep & _).
  - do 3 right. now left.
  - split; [exact R|]. split; [exact Hid|exact Hsep].
Defined.

(** X19 on the scripted site: the catalog of Acme and Bolt. *)
Lemma discovered_paths_end_in_the_package_witness :
  let run := discover_apps (demo small run_ok) 3 (Some ["Acme"; "Bolt"])
                           (demo_world None) in
  let a := App "/two/net.demo.two" "net.demo.two" "net.demo.two" "Acme" in
  result_of run
  = Ok [App "/example/com.example.app" "com.example.app"
            "com.example.app" "Acme";
        App "/kit/org.tool.kit" "org.tool.kit" "org.tool.kit" "Acme";
        a;
        App "/bolt/io.bolt.app" "io.bolt.app" "io.bolt.app" "Bolt"]
  /\ exists slug, app_path a = "/" +:+ slug +:+ "/" +:+ package a.
Proof.
  intros run a.
  assert (R : result_of run
              = Ok [App "/example/com.example.app" "com.example.app"
                        "com.example.app" "Acme";
                    App "/kit/org.tool.kit" "org.tool.kit" "org.tool.kit" "Acme";
                    a;
                    App "/bolt/io.bolt.app" "io.bolt.app" "io.bolt.app" "Bolt"])
    by by_compute.
  split; [exact R|].
  apply (discovered_paths_end_in_the_package (demo small run_ok) 3
           (Some ["Acme"; "Bolt"]) (demo_world None) _ R a).
  do 2 right. now left.
Defined.

(** X13 on a container that holds the example artifact as
    base.apk. *)
Lemma nested_apk_counts_as_standalone_witness :
  exists n,
    result_of (count_dex_classes (demo small run_ok)
                 ("com.example.app", "app.apk") demo_apk_world) = Ok n
    /\ count_outer (demo small run_ok) demo_xapk ["base.apk"; "icon.png"] 10
       = count_outer (demo small run_ok) demo_xapk ["icon.png"] (10 + n).
Proof.
  apply (nested_apk_counts_as_standalone (demo small run_ok) demo_xapk
           "base.apk" ["icon.png"] 10 [x50; x4b]
           (Archive ["classes.dex"; "res/layout.xml"]
                    (fun name => if String.eqb name "classes.dex"
                                 then inr demo_dex else inr []))).
  - reflexivity.
  - reflexivity.
  - reflexivity.
  - reflexivity.
  - constructor; [left; reflexivity|].
    constructor; [right; reflexivity|constructor].
  - reflexivity.
Defined.

(** X14 on the scripted site: the payload of 1024 bytes is written
    as app.apk. *)
Lemma payload_is_written_inside_the_scratch_directory_witness :
  let w := demo_world None in
  let run := download_apk (demo small run_ok) "/example/com.example.app"
                          "com.example.app" w in
  In (EvWriteApk "com.example.app" "app.apk" 1024) (performed w (world_of run))
  /\ Str.mem_char "/"%char "app.apk" = false
  /\ "app.apk" <> "..".
Proof.
  intros w run.
  assert (W : In (EvWriteApk "com.example.app" "app.apk" 1024)
                 (performed w (world_of run))).
  { apply In_compute. by_compute. }
  destruct (payload_is_written_inside_the_scratch_directory
              (demo small run_ok) "/example/com.example.app" "com.example.app"
              w "com.example.app" "app.apk" 1024 W)
    as (_ & _ & Hsep & _ & _ & _ & Hdots & _).
  split; [exact W|]. split; [exact Hsep|exact Hdots].
Defined.


(** X16 on the scripted site: the list of the apps of Waze. *)
Lemma list_mode_rows_witness :
  let w := demo_world (Some "1.0") in
  let run := main (demo_main small run_ok) demo_host 3
                  (Args.Make false (Some "WAZE") None true) w in
  exists before selected,
    main_console run
    = before ++ inl MListHeader
                :: List.map (list_row w) (sorted selected developer)
    /\ Permutation (sorted selected developer) selected.
Proof.
  intros w run.
  destruct (list_mode_rows (demo_main small run_ok) demo_host 3
              (Args.Make false (Some "WAZE") None true) w eq_refl)
    as (before & devs & apps & selected & _ & _ & _ & Hout & Hperm & _).
  - by_compute.
  - exists before, selected. split; [exact Hout|exact Hperm].
Defined.


(** X21 on a sources directory with one Java file, a directory, an
    image and a resource file that cannot be read: without a list of
    packages, and with a list of a package that exists and one that
    does not. *)
Lemma build_index_inserts_every_file_once_witness :
  let rows :=
    [Search.DropTable; Search.CreateTable;
     Search.InsertMany
       [("com.example.app/A.java", "com.example.app", "A.java",
         "class A {}")];
     Search.Commit; Search.Close] in
  let listed := Some ["com.example.app"; "com.missing"] in
  fst (fst (Search.build_index demo_sources None)) = true
  /\ snd (fst (Search.build_index demo_sources None)) = rows
  /\ fst (fst (Search.build_index demo_sources listed)) = true
  /\ snd (fst (Search.build_index demo_sources listed)) = rows
  /\ head (snd (Search.build_index demo_sources listed))
     = Some (Search.MWarningNotFound "com.missing").
Proof.
  intros rows listed.
  pose proof (build_index_inserts_every_file_once demo_sources None eq_refl)
    as Hall.
  pose proof (build_index_inserts_every_file_once demo_sources listed eq_refl)
    as Hlisted.
  destruct (Search.build_index demo_sources None) as [[ok stmts] out] eqn:E.
  destruct (Search.build_index demo_sources listed) as [[ok' stmts'] out'] eqn:E'.
  destruct Hall as (Hok & _).
  destruct Hlisted as (Hok' & body & progress & _ & _ & _ & Hout).
  cbn [fst snd]. split; [exact Hok|].
  split; [revert E; vm_compute; now intros [= _ <- _]|].
  split; [exact Hok'|].
  split; [revert E'; vm_compute; now intros [= _ <- _]|].
  rewrite Hout. reflexivity.
Defined.
